(** * Sales-Analytics assistant: the structured query engine

    A shallow embedding of [utils/aliases.py] and [utils/tools.py]: column
    resolution, the plan sanitizer, the overlap-months computation, the
    predicate evaluator and the query executor [tool_query], with the
    naming of the chart axes of [utils/charts.py] and the query step of
    [app.py] with its fallback plan, followed by the properties of the
    engine.

    Conventions of the embedding.
    - A Python exception is a value [Raise e] of the [result] type; code that
      cannot raise returns plain values.
    - JSON-like descriptor data ([Dict[str, Any]]) is the type [pyval].
    - A [DataFrame] is a list of named, dtype-tagged columns over a list of
      rows; a missing cell (NaN in a numeric or string column, NaT in a
      normalized date column) is [VNull].
    - A number in a table or a descriptor is an exact rational ([Q]), so
      that a table holds no infinity; the quotient by 30.4 in
      [_overlap_months] is the exact quotient by 304/10. The product and the
      rounding of the revenue, which wrap in int64 and round in float64, are
      the library's.
    - A [datetime.date] is its proleptic Gregorian ordinal.
    - Library routines whose exact result the engine does not depend on
      (date and number parsing, regular expressions, reductions of a group,
      comparison of a column against a non-scalar operand, machine
      arithmetic, the order an unstable sort leaves equal keys in) are the
      fields of
      the class [PandasLib]; the theorems are stated for every instance, and
      [Ref.ref_lib] is an instance to compute the examples with. *)

From Stdlib Require Import ZArith QArith Qround List String Ascii Bool.
From Stdlib Require Import Lia Sorted Permutation OrderedTypeEx.
Import ListNotations.

Local Open Scope string_scope.
Local Open Scope list_scope.
Local Open Scope Z_scope.

(** ** Exceptions *)

Inductive exn : Type :=
| TypeError
| ValueError
| KeyError
| LibraryError
| NoSuchObject.

Inductive result (A : Type) : Type :=
| Ok (a : A)
| Raise (e : exn).

Arguments Ok {A} a.
Arguments Raise {A} e.

Definition bind {A B : Type} (m : result A) (k : A -> result B) : result B :=
  match m with
  | Ok a => k a
  | Raise e => Raise e
  end.

Notation "x <- m ;; k" := (bind m (fun x => k))
  (at level 61, m at next level, right associativity).

Definition is_ok {A : Type} (m : result A) : bool :=
  match m with Ok _ => true | Raise _ => false end.

(** [for x in xs: acc = step(acc, x)] where a step may raise. *)
Fixpoint foldM {A S : Type} (step : S -> A -> result S) (xs : list A) (s : S)
  : result S :=
  match xs with
  | [] => Ok s
  | x :: xs' => s' <- step s x ;; foldM step xs' s'
  end.

Fixpoint mapM {A B : Type} (f : A -> result B) (xs : list A) : result (list B) :=
  match xs with
  | [] => Ok []
  | x :: xs' => y <- f x ;; ys <- mapM f xs' ;; Ok (y :: ys)
  end.

(** ** Python string operations *)

Module PyStr.

(** The ASCII characters [str.strip()] removes. *)
Definition is_space (c : ascii) : bool :=
  let n := nat_of_ascii c in
  ((9 <=? n)%nat && (n <=? 13)%nat) || ((28 <=? n)%nat && (n <=? 32)%nat).

Fixpoint lstrip (s : string) : string :=
  match s with
  | String c s' => if is_space c then lstrip s' else s
  | EmptyString => EmptyString
  end.

Fixpoint rstrip (s : string) : string :=
  match s with
  | String c s' =>
      match rstrip s' with
      | EmptyString => if is_space c then EmptyString else String c EmptyString
      | r => String c r
      end
  | EmptyString => EmptyString
  end.

Definition strip (s : string) : string := rstrip (lstrip s).

Definition lower_ascii (c : ascii) : ascii :=
  let n := nat_of_ascii c in
  if ((65 <=? n)%nat && (n <=? 90)%nat)%bool then ascii_of_nat (n + 32) else c.

Fixpoint lower (s : string) : string :=
  match s with
  | String c s' => String (lower_ascii c) (lower s')
  | EmptyString => EmptyString
  end.

(** [sub in s] *)
Fixpoint contains (sub s : string) : bool :=
  if String.prefix sub s then true
  else match s with
       | String _ s' => contains sub s'
       | EmptyString => false
       end.

(** [s.endswith(suffix)] *)
Definition endswith (s suffix : string) : bool :=
  let n := String.length s in
  let k := String.length suffix in
  (k <=? n)%nat && String.eqb (String.substring (n - k) k s) suffix.

(** [s[:-1]] *)
Definition drop_last (s : string) : string :=
  String.substring 0 (String.length s - 1) s.

Definition truthy (s : string) : bool :=
  match s with EmptyString => false | _ => true end.

(** [x in xs] for a list of strings. *)
Definition mem (x : string) (xs : list string) : bool :=
  existsb (String.eqb x) xs.

End PyStr.

(** ** Descriptor values *)

(** What [json.loads] produces: the untyped data a query descriptor carries. *)
#[local] Unset Elimination Schemes.
Inductive pyval : Type :=
| PNone
| PBool (b : bool)
| PNum (q : Q)
| PStr (s : string)
| PList (l : list pyval)
| PDict (d : list (string * pyval)).
#[local] Set Elimination Schemes.

(** [d.get(k)] on a dict given as its item list. *)
Fixpoint dict_get {V : Type} (d : list (string * V)) (k : string) : option V :=
  match d with
  | [] => None
  | (k', v) :: d' => if String.eqb k' k then Some v else dict_get d' k
  end.

(** A Python float as [float()] returns it. *)
Inductive pyfloat : Type :=
| Finite (q : Q)
| PosInf
| NegInf
| NaN.

(** ** Dates *)

Record date : Type := mkdate { toordinal : Z }.

Module PyDate.

Definition is_leap (y : Z) : bool :=
  ((y mod 4 =? 0) && (negb (y mod 100 =? 0) || (y mod 400 =? 0)))%bool.

Definition days_before_year (y : Z) : Z :=
  let y' := y - 1 in y' * 365 + y' / 4 - y' / 100 + y' / 400.

Definition days_in_month (y m : Z) : Z :=
  if m =? 2 then (if is_leap y then 29 else 28)
  else if (m =? 4) || (m =? 6) || (m =? 9) || (m =? 11) then 30 else 31.

Fixpoint days_before_month_nat (y : Z) (m : nat) : Z :=
  match m with
  | O => 0
  | S k => days_before_month_nat y k + days_in_month y (Z.of_nat (S k))
  end.

(** Days in the year before the first day of month [m]. *)
Definition days_before_month (y m : Z) : Z :=
  days_before_month_nat y (Z.to_nat (m - 1)).

(** [date(y, m, d)], through [date.toordinal()]. *)
Definition ymd (y m d : Z) : date :=
  mkdate (days_before_year y + days_before_month y m + d).

Definition leb (a b : date) : bool := toordinal a <=? toordinal b.
Definition ltb (a b : date) : bool := toordinal a <? toordinal b.
Definition eqb (a b : date) : bool := toordinal a =? toordinal b.
Definition max (a b : date) : date := if ltb a b then b else a.
Definition min (a b : date) : date := if ltb b a then b else a.

(** [(b - a).days] *)
Definition days_between (b a : date) : Z := toordinal b - toordinal a.

End PyDate.

(** What [_to_pydate] returns and what a cell of a normalized date column
    holds: [None], [pandas.NaT], or a date. *)
Inductive pydate : Type :=
| PyNone
| PyNaT
| PyDate (d : date).

(** Truth value of a descriptor value ([if x:], [x or default]). *)
Definition py_truthy (x : pyval) : bool :=
  match x with
  | PNone => false
  | PBool b => b
  | PNum q => negb (Qeq_bool q 0)
  | PStr s => PyStr.truthy s
  | PList l => match l with [] => false | _ => true end
  | PDict d => match d with [] => false | _ => true end
  end.

(** ** Tables *)

(** A cell of a table; [VNull] is the missing value (NaN, or NaT in a
    normalized date column). *)
Inductive cell : Type :=
| VNull
| VNum (q : Q)
| VStr (s : string)
| VDate (d : date).

(** The only property of a dtype the engine asks for:
    [is_numeric_dtype] holds ([DNum]) or not ([DObj]). *)
Inductive dtype : Type := DNum | DObj.

Definition is_numeric_dtype (t : dtype) : bool :=
  match t with DNum => true | DObj => false end.

Definition row : Type := list cell.

Record DataFrame : Type := mkDataFrame {
  columns : list (string * dtype);
  rows : list row
}.

(** The operand of a comparison after [_coerce_scalar_for_series]. *)
Inductive cval : Type :=
| CDateLike (d : pydate)   (* a date column: the result of [_to_pydate] *)
| CNum (q : Q)             (* a numeric column: a number *)
| CNaN                     (* a numeric column: not a number *)
| CRaw (v : pyval).        (* the value as it came *)

(** ** Library routines left open

    Each field is one routine of pandas, NumPy or the Python runtime whose
    result the engine passes on without inspecting it. *)
Class PandasLib : Type := {
  (** [float(s)]; [None] when it raises. *)
  py_float : string -> option pyfloat;
  (** [str(x)] for a value that is not a string. *)
  py_str : pyval -> string;
  (** [pd.to_datetime(x, errors="coerce").date()] for a scalar that is not
      null: a date, NaT ([Ok None]), or an exception. *)
  to_datetime_date : pyval -> result (option date);
  (** [pd.to_datetime(series, errors="coerce").dt.date]: a date or NaT per
      cell. *)
  to_datetime_column : list cell -> list (option date);
  (** The truth value of [pd.isna(l)] for a list [l] that is empty or has a
      list among its elements: a boolean, or the error of an array without
      a truth value. *)
  isna_list_truth : list pyval -> result bool;
  (** [pd.to_numeric(s, errors="coerce")] for a string; [None] is NaN. *)
  to_numeric_str : string -> option Q;
  (** The boolean mask of [isin] (tag ["in"]), of
      [astype(str).str.contains(str(v), case=False, na=False)] (tag
      ["contains"]), and of a comparison operator (its own tag) whose operand
      is a list or a dict. *)
  library_mask : string -> dtype -> list cell -> list cval -> result (list bool);
  (** The reduction ["sum"], ["mean"], ["count"], ["nunique"] or ["max"] of
      the cells of one group. *)
  agg_reduce : string -> dtype -> list cell -> result cell;
  (** [groupby(...).agg({})] with nothing to aggregate: an error, or the
      frame of the group keys. *)
  agg_nothing : result unit;
  (** [(column * months).round(2)] for a column that is not numeric. *)
  object_revenue : list cell -> list Z -> result (list cell);
  (** Assigning the result of [DataFrame.apply(..., axis=1)] on a frame
      without rows. *)
  apply_on_empty : result unit;
  (** One cell of [(column * months).round(2)] for a number of a numeric
      column and a count of months: the product and the rounding in the
      arithmetic of the dtype, which wraps in int64 and rounds in float64. *)
  mul_round2 : Q -> Z -> Q;
  (** [sort_values] sorts with the default [kind="quicksort"], which is not
      stable: the order in which rows of equal keys come out is the
      library's. For a direction ([ascending]) and the cells of the key
      column, the picks (see [arrange]) that put the rows in the order their
      ties come out in. *)
  sort_ties : bool -> list cell -> list nat
}.

Module Frame.

Definition colnames (df : DataFrame) : list string := map fst (columns df).

Definition nrows (df : DataFrame) : nat := List.length (rows df).

(** [c in df.columns] *)
Definition has_column (df : DataFrame) (c : string) : bool :=
  PyStr.mem c (colnames df).

Fixpoint index_of (c : string) (names : list string) : option nat :=
  match names with
  | [] => None
  | n :: names' =>
      if String.eqb n c then Some O
      else option_map S (index_of c names')
  end.

Definition col_index (df : DataFrame) (c : string) : option nat :=
  index_of c (colnames df).

Definition col_dtype (df : DataFrame) (c : string) : dtype :=
  match dict_get (columns df) c with
  | Some t => t
  | None => DObj
  end.

Definition cell_at (i : nat) (r : row) : cell := nth i r VNull.

(** [r[c]] for a row of [df]. *)
Definition row_get (df : DataFrame) (c : string) (r : row) : cell :=
  match col_index df c with
  | Some i => cell_at i r
  | None => VNull
  end.

(** [df[c]] as the list of its cells. *)
Definition column_cells (df : DataFrame) (c : string) : list cell :=
  map (row_get df c) (rows df).

Fixpoint replace_nth {A : Type} (i : nat) (x : A) (l : list A) : list A :=
  match l, i with
  | [], _ => []
  | _ :: l', O => x :: l'
  | y :: l', S i' => y :: replace_nth i' x l'
  end.

Fixpoint set_cells (i : option nat) (rs : list row) (vals : list cell)
  : list row :=
  match rs with
  | [] => []
  | r :: rs' =>
      let v := hd VNull vals in
      match i with
      | Some k => replace_nth k v r
      | None => r ++ [v]
      end :: set_cells i rs' (tl vals)
  end.

Fixpoint set_dtype (c : string) (t : dtype) (cols : list (string * dtype))
  : list (string * dtype) :=
  match cols with
  | [] => []
  | (n, t') :: cols' =>
      if String.eqb n c then (n, t) :: cols' else (n, t') :: set_dtype c t cols'
  end.

(** [df[c] = vals]: an existing column is replaced in place, a new one is
    added last. *)
Definition set_column (df : DataFrame) (c : string) (t : dtype)
           (vals : list cell) : DataFrame :=
  match col_index df c with
  | Some i => mkDataFrame (set_dtype c t (columns df))
                          (set_cells (Some i) (rows df) vals)
  | None => mkDataFrame (columns df ++ [(c, t)])
                        (set_cells None (rows df) vals)
  end.

(** [df[keep]] for column names that are all present. *)
Definition select_columns (df : DataFrame) (keep : list string) : DataFrame :=
  mkDataFrame (map (fun c => (c, col_dtype df c)) keep)
              (map (fun r => map (fun c => row_get df c r) keep) (rows df)).

(** Boolean indexing of a list of rows. *)
Fixpoint filter_mask {A : Type} (xs : list A) (mask : list bool) : list A :=
  match xs, mask with
  | x :: xs', b :: mask' =>
      if b then x :: filter_mask xs' mask' else filter_mask xs' mask'
  | _, _ => []
  end.

(** [df[mask]] *)
Definition mask_rows (df : DataFrame) (mask : list bool) : DataFrame :=
  mkDataFrame (columns df) (filter_mask (rows df) mask).

(** [df.rename(columns={old: new})] *)
Definition rename_column (df : DataFrame) (old new : string) : DataFrame :=
  mkDataFrame
    (map (fun p => if String.eqb (fst p) old then (new, snd p) else p)
         (columns df))
    (rows df).

(** [df.head(n)]: the first [n] rows, or all but the last [-n]. *)
Definition head (df : DataFrame) (n : Z) : DataFrame :=
  let len := Z.of_nat (nrows df) in
  let k := if 0 <=? n then n else Z.max 0 (len + n) in
  mkDataFrame (columns df) (firstn (Z.to_nat k) (rows df)).

End Frame.

(** ** Query descriptors *)

(** A filter [{"col": ..., "op": ..., "value": ...}]; [f_op = None] when the
    key is absent or null. *)
Record Filter : Type := mkFilter {
  f_col : pyval;
  f_op : option string;
  f_value : pyval
}.

(** An order-by entry [{"col": ..., "desc": ...}]. *)
Record OrderBy : Type := mkOrderBy {
  ob_col : pyval;
  ob_desc : bool
}.

(** The query descriptor [args]. An absent or null list, dict or flag is the
    empty list, the empty dict or [false]; an absent or null limit is [None]. *)
Record Args : Type := mkArgs {
  select : list pyval;
  filters : list Filter;
  time_window : list (string * pyval);
  group_by : list pyval;
  aggregations : list (string * string);
  order_by : list OrderBy;
  limit : option Z;
  computed : bool
}.

(** [(f.get("op") or "==").strip()] *)
Definition filter_op (f : Filter) : string :=
  match f_op f with
  | Some s => if PyStr.truthy s then PyStr.strip s else "=="
  | None => "=="
  end.

(** ** Numbers *)

Module Num.

Definition Qlt_bool (a b : Q) : bool := negb (Qle_bool b a).

(** Rounding to the nearest integer, ties to the even one ([numpy.rint]). *)
Definition round_half_even (x : Q) : Z :=
  let f := Qfloor x in
  match Qcompare (x - inject_Z f) (1 # 2) with
  | Lt => f
  | Gt => f + 1
  | Eq => if Z.even f then f else f + 1
  end.

(** [x.round(2)] of an exact number. *)
Definition round2 (x : Q) : Q :=
  Qred (inject_Z (round_half_even (x * inject_Z 100)) / inject_Z 100).

(** [ceil(a / b)] for a positive [b]. *)
Definition ceil_div (a b : Z) : Z := - ((- a) / b).

End Num.

(** * utils/aliases.py *)

Module Aliases.

Import PyStr.

Definition COLUMN_ALIASES : list (string * string) :=
  [ ("customer_name", "company_name");
    ("client_name", "company_name");
    ("account_name", "company_name");
    ("company", "company_name");
    ("customer", "company_name");
    ("client", "company_name");
    ("name", "company_name");
    ("revenue", "period_revenue_usd");
    ("total_revenue", "period_revenue_usd");
    ("revenue_usd", "period_revenue_usd");
    ("period_revenue", "period_revenue_usd");
    ("mrr", "mrr_usd");
    ("arr", "mrr_usd");
    ("start_date", "contract_start");
    ("end_date", "contract_end");
    ("contract_start_date", "contract_start");
    ("contract_end_date", "contract_end");
    ("is_churn", "churn");
    ("churn_flag", "churn");
    ("churn_probability", "churn_probability_percent");
    ("churn_prob", "churn_probability_percent");
    ("churn_risk", "churn_probability_percent");
    ("probability_of_churn", "churn_probability_percent");
    ("services_used", "services_used_count");
    ("service_count", "services_used_count");
    ("num_services", "services_used_count");
    ("number_of_services", "services_used_count");
    ("feedback_text", "feedback");
    ("customer_feedback", "feedback");
    ("notes", "feedback") ].

Definition VIRTUAL_COLS : list string := ["period_revenue_usd"].

(** The loop over the keys ["col"], ["name"], ["field"], ["column"]. *)
Fixpoint first_key (keys : list string) (d : list (string * pyval))
  : option string :=
  match keys with
  | [] => None
  | k :: keys' =>
      match dict_get d k with
      | Some (PStr v) =>
          if truthy (strip v) then Some (strip v) else first_key keys' d
      | _ => first_key keys' d
      end
  end.

Definition _as_col_name (x : pyval) : option string :=
  match x with
  | PStr s => Some (strip s)
  | PDict d =>
      match first_key ["col"; "name"; "field"; "column"] d with
      | Some v => Some v
      | None =>
          match dict_get d "expr" with
          | Some (PStr expr) =>
              if contains "period_revenue_usd" expr then Some "period_revenue_usd"
              else if contains "mrr_usd" expr then Some "mrr_usd"
              else None
          | _ => None
          end
      end
  | _ => None
  end.

(** [resolve_col]; the schema is the list of the column names. The result
    is never the empty string. *)
Definition resolve_col (col_like : pyval) (schema : list string)
  : option string :=
  match _as_col_name col_like with
  | None => None
  | Some name =>
      if negb (truthy name) then None
      else if mem name schema || mem name VIRTUAL_COLS then Some name
      else
        match dict_get COLUMN_ALIASES (lower name) with
        | Some mapped =>
            if truthy mapped && (mem mapped schema || mem mapped VIRTUAL_COLS)
            then Some mapped
            else None
        | None => None
        end
  end.

(** The loop shared by [_fix_list] and the projections of [tool_query]:
    resolve, drop what does not resolve, keep the first occurrence. *)
Fixpoint resolve_list (acc : list string) (cols : list pyval)
         (schema : list string) : list string :=
  match cols with
  | [] => acc
  | c :: cols' =>
      match resolve_col c schema with
      | Some rc =>
          if mem rc acc then resolve_list acc cols' schema
          else resolve_list (acc ++ [rc]) cols' schema
      | None => resolve_list acc cols' schema
      end
  end.

Definition _fix_list (cols : list pyval) (schema : list string) : list string :=
  resolve_list [] cols schema.

(** [num > 1] *)
Definition gt_one (num : pyfloat) : bool :=
  match num with
  | Finite q => Num.Qlt_bool 1 q
  | PosInf => true
  | NegInf => false
  | NaN => false
  end.

Section WithLib.

Context `{PandasLib}.

Definition _parse_percentish (val : pyval) : option pyfloat * bool :=
  match val with
  | PBool b => (Some (Finite (if b then 1 else 0)%Q), false)
  | PNum q => (Some (Finite q), false)
  | PStr v =>
      let s := strip v in
      if endswith s "%" then (py_float (drop_last s), true)
      else (py_float s, false)
  | _ => (None, false)
  end.

(** [_as_col_name(raw_col) or str(raw_col or "")] *)
Definition filter_name (raw_col : pyval) : string :=
  let fallback :=
    if py_truthy raw_col
    then match raw_col with PStr s => s | _ => py_str raw_col end
    else "" in
  match _as_col_name raw_col with
  | Some n => if truthy n then n else fallback
  | None => fallback
  end.

(** [COLUMN_ALIASES.get(name.lower(), name)] *)
Definition initial_mapping (raw_col : pyval) : string :=
  let name := filter_name raw_col in
  match dict_get COLUMN_ALIASES (lower name) with
  | Some mapped => mapped
  | None => name
  end.

(** The churn disambiguation of [_fix_filters]. *)
Definition disambiguate (mapped : string) (val : pyval) : string :=
  if String.eqb (lower mapped) "churn" then
    match fst (_parse_percentish val) with
    | Some num => if gt_one num then "churn_probability_percent" else mapped
    | None => mapped
    end
  else mapped.

(** One iteration of the loop of [_fix_filters]: the cleaned filter, or
    nothing when the column does not resolve. *)
Definition fix_filter (schema : list string) (f : Filter) : option Filter :=
  let op := filter_op f in
  let val := f_value f in
  let mapped := disambiguate (initial_mapping (f_col f)) val in
  let col :=
    match resolve_col (PStr mapped) schema with
    | Some c => Some c
    | None => if mem mapped VIRTUAL_COLS then Some mapped else None
    end in
  match col with
  | Some c => if truthy c then Some (mkFilter (PStr c) (Some op) val) else None
  | None => None
  end.

Fixpoint _fix_filters (filters : list Filter) (schema : list string)
  : list Filter :=
  match filters with
  | [] => []
  | f :: filters' =>
      match fix_filter schema f with
      | Some f' => f' :: _fix_filters filters' schema
      | None => _fix_filters filters' schema
      end
  end.

End WithLib.

End Aliases.

(** * Orders and sorting *)

(** Insertion sort: the stable sort of a list by a boolean order. *)
Section InsertionSort.

Variable A : Type.
Variable leb : A -> A -> bool.

Fixpoint insert (x : A) (l : list A) : list A :=
  match l with
  | [] => [x]
  | y :: l' => if leb x y then x :: l else y :: insert x l'
  end.

Fixpoint isort (l : list A) : list A :=
  match l with
  | [] => []
  | x :: l' => insert x (isort l')
  end.

End InsertionSort.

Arguments insert {A} leb x l.
Arguments isort {A} leb l.

(** The element at position [i] of a list, and the list without it. *)
Fixpoint take_at {A : Type} (i : nat) (l : list A) : option (A * list A) :=
  match l, i with
  | [], _ => None
  | x :: l', O => Some (x, l')
  | x :: l', S i' =>
      match take_at i' l' with
      | Some (y, rest) => Some (y, x :: rest)
      | None => None
      end
  end.

(** The elements of [l] in the order a list of picks takes them: a pick is
    a position in what is left of the list, a pick beyond its end takes
    nothing, and what no pick takes follows in its order. *)
Fixpoint arrange {A : Type} (picks : list nat) (l : list A) : list A :=
  match picks with
  | [] => l
  | i :: picks' =>
      match take_at i l with
      | Some (x, rest) => x :: arrange picks' rest
      | None => arrange picks' l
      end
  end.

Module CellOrder.

(** The Python type of the value in a cell. *)
Inductive kind : Type := KNum | KStr | KDate | KNull.

Definition kind_of (c : cell) : kind :=
  match c with
  | VNum _ => KNum
  | VStr _ => KStr
  | VDate _ => KDate
  | VNull => KNull
  end.

Definition kind_rank (k : kind) : nat :=
  match k with KNum => 0 | KStr => 1 | KDate => 2 | KNull => 3 end.

Definition kind_eqb (a b : kind) : bool :=
  Nat.eqb (kind_rank a) (kind_rank b).

Definition is_null (c : cell) : bool :=
  match c with VNull => true | _ => false end.

(** [a <= b] for two cells of one type; cells of different types are ordered
    by their type, which a sort never relies on (see [comparable]). *)
Definition cell_leb (a b : cell) : bool :=
  match a, b with
  | VNum x, VNum y => Qle_bool x y
  | VStr x, VStr y => String.leb x y
  | VDate x, VDate y => PyDate.leb x y
  | _, _ => Nat.leb (kind_rank (kind_of a)) (kind_rank (kind_of b))
  end.

(** The order [sort_values] sorts a key column by: ascending or descending,
    missing values last either way. *)
Definition key_leb (ascending : bool) (a b : cell) : bool :=
  match a, b with
  | _, VNull => true
  | VNull, _ => false
  | _, _ => if ascending then cell_leb a b else cell_leb b a
  end.

(** All the values that are present have one type, so that every pair of
    them can be compared. *)
Fixpoint same_kind (k : kind) (cells : list cell) : bool :=
  match cells with
  | [] => true
  | c :: cells' =>
      (is_null c || kind_eqb (kind_of c) k) && same_kind k cells'
  end.

Fixpoint comparable (cells : list cell) : bool :=
  match cells with
  | [] => true
  | VNull :: cells' => comparable cells'
  | c :: cells' => same_kind (kind_of c) cells'
  end.

(** A cell with its number in lowest terms: equal values, equal cells. *)
Definition norm_cell (c : cell) : cell :=
  match c with
  | VNum q => VNum (Qred q)
  | _ => c
  end.

Definition cell_eq_dec (a b : cell) : {a = b} + {a <> b}.
Proof.
  repeat decide equality.
Defined.

Definition key_eq_dec : forall a b : list cell, {a = b} + {a <> b} :=
  list_eq_dec cell_eq_dec.

(** Lexicographic order of group keys. *)
Fixpoint keys_leb (a b : list cell) : bool :=
  match a, b with
  | [], _ => true
  | _ :: _, [] => false
  | x :: a', y :: b' =>
      if cell_leb x y then (if cell_leb y x then keys_leb a' b' else true)
      else false
  end.

End CellOrder.

Notation "' p <- m ;; k" := (bind m (fun p => k))
  (at level 61, p pattern, m at next level, right associativity).

(** [d.get(k)] with [None] for an absent key. *)
Definition pyval_get (d : list (string * pyval)) (k : string) : pyval :=
  match dict_get d k with
  | Some v => v
  | None => PNone
  end.

(** [d[k] = v] on a dict given as its item list. *)
Fixpoint dict_set {V : Type} (d : list (string * V)) (k : string) (v : V)
  : list (string * V) :=
  match d with
  | [] => [(k, v)]
  | (k', v') :: d' =>
      if String.eqb k' k then (k', v) :: d' else (k', v') :: dict_set d' k v
  end.

(** [d.setdefault(k, v)] *)
Definition setdefault {V : Type} (d : list (string * V)) (k : string) (v : V)
  : list (string * V) :=
  match dict_get d k with
  | Some _ => d
  | None => d ++ [(k, v)]
  end.

(** * utils/tools.py: the predicate evaluator *)

Module Tools.

Import PyStr Aliases Frame CellOrder.

Definition DATE_COLS : list string :=
  ["signup_date"; "contract_start"; "contract_end"].

Definition _is_date_col (col : string) : bool :=
  mem col DATE_COLS || endswith col "_date".

(** [_overlap_months]. With no argument [None], a NaT among them makes
    [max] or [min] compare NaT with a date, which raises (pandas 1.3 and
    later). *)
Definition _overlap_months (cs ce ws we : pydate) : result Z :=
  match cs, ce, ws, we with
  | PyNone, _, _, _ => Ok 0
  | _, PyNone, _, _ => Ok 0
  | _, _, PyNone, _ => Ok 0
  | _, _, _, PyNone => Ok 0
  | PyDate cs, PyDate ce, PyDate ws, PyDate we =>
      let a := PyDate.max cs ws in
      let b := PyDate.min ce we in
      if PyDate.ltb b a then Ok 0
      else Ok (Num.ceil_div (10 * (PyDate.days_between b a + 1)) 304)
  | _, _, _, _ => Raise TypeError
  end.

(** The six comparison operators of a filter. *)
Inductive cmpop : Type := OpEq | OpNe | OpGt | OpLt | OpGe | OpLe.

(** A comparison with a missing value on either side. *)
Definition null_mask (op : cmpop) : bool :=
  match op with OpNe => true | _ => false end.

(** A comparison of two values of different types: unequal, and an error
    when asked for their order. *)
Definition invalid_comparison (op : cmpop) : result bool :=
  match op with
  | OpEq => Ok false
  | OpNe => Ok true
  | _ => Raise TypeError
  end.

Definition cmp_Q (op : cmpop) (a b : Q) : bool :=
  match op with
  | OpEq => Qeq_bool a b
  | OpNe => negb (Qeq_bool a b)
  | OpGt => Num.Qlt_bool b a
  | OpLt => Num.Qlt_bool a b
  | OpGe => Qle_bool b a
  | OpLe => Qle_bool a b
  end.

Definition cmp_str (op : cmpop) (a b : string) : bool :=
  match op with
  | OpEq => String.eqb a b
  | OpNe => negb (String.eqb a b)
  | OpGt => String.ltb b a
  | OpLt => String.ltb a b
  | OpGe => String.leb b a
  | OpLe => String.leb a b
  end.

Definition cmp_date (op : cmpop) (a b : date) : bool :=
  match op with
  | OpEq => PyDate.eqb a b
  | OpNe => negb (PyDate.eqb a b)
  | OpGt => PyDate.ltb b a
  | OpLt => PyDate.ltb a b
  | OpGe => PyDate.leb b a
  | OpLe => PyDate.leb a b
  end.

(** The operand of a comparison as Python sees it. *)
Inductive operand : Type :=
| ONull
| ONumber (q : Q)
| OString (s : string)
| ODate (d : date)
| ONonScalar.

Definition operand_of (v : cval) : operand :=
  match v with
  | CDateLike PyNone => ONull
  | CDateLike PyNaT => ONull
  | CDateLike (PyDate d) => ODate d
  | CNum q => ONumber q
  | CNaN => ONull
  | CRaw PNone => ONull
  | CRaw (PBool b) => ONumber (if b then 1 else 0)%Q
  | CRaw (PNum q) => ONumber q
  | CRaw (PStr s) => OString s
  | CRaw (PList _) => ONonScalar
  | CRaw (PDict _) => ONonScalar
  end.

(** [x op val] for one cell [x] of the column. *)
Definition compare_cell (op : cmpop) (c : cell) (o : operand) : result bool :=
  match c, o with
  | VNull, _ => Ok (null_mask op)
  | _, ONull => Ok (null_mask op)
  | VNum a, ONumber b => Ok (cmp_Q op a b)
  | VStr a, OString b => Ok (cmp_str op a b)
  | VDate a, ODate b => Ok (cmp_date op a b)
  | _, _ => invalid_comparison op
  end.

(** [val is None] *)
Definition is_none (v : cval) : bool :=
  match v with
  | CDateLike PyNone => true
  | CRaw PNone => true
  | _ => false
  end.

Section WithLib.

Context `{PandasLib}.

Definition is_list (x : pyval) : bool :=
  match x with PList _ => true | _ => false end.

(** [_to_pydate]. [pd.isna] of a list is an array, whose truth value is an
    error when it has two elements or more; [to_datetime] of a list or a dict
    has no [date()] method, which the [except] clause turns into [None]. *)
Definition _to_pydate (x : pyval) : result pydate :=
  match x with
  | PNone => Ok PyNone
  | PList l =>
      if existsb is_list l then _ <- isna_list_truth l ;; Ok PyNone
      else
        match l with
        | [] => _ <- isna_list_truth l ;; Ok PyNone
        | [_] => Ok PyNone
        | _ :: _ :: _ => Raise ValueError
        end
  | PDict _ => Ok PyNone
  | _ =>
      match to_datetime_date x with
      | Ok (Some d) => Ok (PyDate d)
      | Ok None => Ok PyNaT
      | Raise _ => Ok PyNone
      end
  end.

(** [pd.to_numeric(val, errors="coerce")]: a number stays, a boolean counts
    as 0 or 1, a string is parsed, [None] is NaN; a list or a dict stays an
    operand that is not a scalar. *)
Definition to_numeric (val : pyval) : cval :=
  match val with
  | PNone => CNaN
  | PBool b => CNum (if b then 1 else 0)%Q
  | PNum q => CNum q
  | PStr s => match to_numeric_str s with Some q => CNum q | None => CNaN end
  | _ => CRaw val
  end.

(** [_coerce_scalar_for_series]; [ser] is the dtype of the column. *)
Definition _coerce_scalar_for_series (val : pyval) (ser : dtype)
           (col_name : string) : result cval :=
  if _is_date_col col_name then d <- _to_pydate val ;; Ok (CDateLike d)
  else if is_numeric_dtype ser then Ok (to_numeric val)
  else Ok (CRaw val).

(** The mask [out[col] op val]. *)
Definition compare_column (tag : string) (op : cmpop) (ser : dtype)
           (cells : list cell) (val : cval) : result (list bool) :=
  match operand_of val with
  | ONonScalar => library_mask tag ser cells [val]
  | o => mapM (fun c => compare_cell op c o) cells
  end.

(** [out = out[mask]]: a new frame, to which [out] is bound from then on. *)
Definition narrow (out : DataFrame) (mask : result (list bool))
  : result (option DataFrame) :=
  m <- mask ;; Ok (Some (mask_rows out m)).

(** The frame [out] is bound to after a step that may have left it alone. *)
Definition rebound (out : DataFrame) (r : option DataFrame) : DataFrame :=
  match r with
  | Some out' => out'
  | None => out
  end.

(** The bounds of a [between] filter. *)
Definition between_bounds (val : pyval) : pyval * pyval :=
  match val with
  | PDict d => (pyval_get d "start", pyval_get d "end")
  | PList [lo; hi] => (lo, hi)
  | _ => (PNone, PNone)
  end.

(** [list(val) if isinstance(val, (list, tuple, set)) else [val]] *)
Definition in_values (val : pyval) : list pyval :=
  match val with
  | PList l => l
  | _ => [val]
  end.

(** One iteration of the loop of [_apply_filters]: the new frame when the
    iteration assigns to [out], [None] when it leaves [out] as it is. *)
Definition filter_step (schema : list string) (out : DataFrame) (f : Filter)
  : result (option DataFrame) :=
  let raw_col := f_col f in
  let op := filter_op f in
  let val := f_value f in
  match resolve_col raw_col schema with
  | None => Ok None
  | Some col =>
      if negb (has_column out col) then Ok None
      else
        let ser := col_dtype out col in
        if String.eqb op "between" then
          let '(lo, hi) := between_bounds val in
          lo <- _coerce_scalar_for_series lo ser col ;;
          hi <- _coerce_scalar_for_series hi ser col ;;
          r <- (if is_none lo then Ok None
                else narrow out
                       (compare_column ">=" OpGe ser (column_cells out col) lo)) ;;
          if is_none hi then Ok r
          else
            let out := rebound out r in
            narrow out (compare_column "<=" OpLe ser (column_cells out col) hi)
        else if String.eqb op "in" then
          vals <- mapM (fun v => _coerce_scalar_for_series v ser col)
                       (in_values val) ;;
          narrow out (library_mask "in" ser (column_cells out col) vals)
        else
          val <- _coerce_scalar_for_series val ser col ;;
          let cells := column_cells out col in
          if String.eqb op "==" then
            narrow out (compare_column "==" OpEq ser cells val)
          else if String.eqb op "!=" then
            narrow out (compare_column "!=" OpNe ser cells val)
          else if String.eqb op ">" then
            narrow out (compare_column ">" OpGt ser cells val)
          else if String.eqb op "<" then
            narrow out (compare_column "<" OpLt ser cells val)
          else if String.eqb op ">=" then
            narrow out (compare_column ">=" OpGe ser cells val)
          else if String.eqb op "<=" then
            narrow out (compare_column "<=" OpLe ser cells val)
          else if String.eqb op "contains" then
            narrow out (library_mask "contains" ser cells [val])
          else Ok None
  end.

Definition apply_filter (schema : list string) (out : DataFrame) (f : Filter)
  : result DataFrame :=
  r <- filter_step schema out f ;; Ok (rebound out r).

(** [_apply_filters]: the table itself when there is no filter, else the
    filters applied in list order to a copy. *)
Definition _apply_filters (df : DataFrame) (filters : list Filter)
           (schema : list string) : result DataFrame :=
  match filters with
  | [] => Ok df
  | _ => foldM (apply_filter schema) filters df
  end.

End WithLib.

End Tools.

(** * utils/tools.py: the query executor *)

Module Executor.

Import PyStr Aliases Frame CellOrder Tools.

Definition is_revenue_name (c : pyval) : bool :=
  match c with
  | PStr s => String.eqb s "period_revenue_usd"
  | _ => false
  end.

(** [wants_period_rev] *)
Definition wants_period_rev (args : Args) : bool :=
  existsb is_revenue_name (select args)
  || mem "period_revenue_usd" (map fst (aggregations args))
  || existsb (fun ob => is_revenue_name (ob_col ob)) (order_by args).

Definition revenue_sources : list string :=
  ["contract_start"; "contract_end"; "mrr_usd"].

(** [xs <= ys] for sets of names. *)
Definition subset (xs ys : list string) : bool :=
  forallb (fun x => mem x ys) xs.

Definition pydate_truthy (d : pydate) : bool :=
  match d with PyNone => false | _ => true end.

(** [_to_pydate("2000-01-01"), _to_pydate("2100-01-01")] *)
Definition default_window : pydate * pydate :=
  (PyDate (PyDate.ymd 2000 1 1), PyDate (PyDate.ymd 2100 1 1)).

Definition cell_of_date (d : option date) : cell :=
  match d with Some d => VDate d | None => VNull end.

(** The value [r[c]] of a date column as [_overlap_months] receives it: a
    date, or NaT; anything else compares with a date like NaT does, by an
    error. *)
Definition pydate_of_cell (c : cell) : pydate :=
  match c with VDate d => PyDate d | _ => PyNaT end.

(** One row of [out.apply(lambda r: _overlap_months(...), axis=1)]. *)
Definition row_overlap (out : DataFrame) (ws we : pydate) (r : row) : result Z :=
  _overlap_months (pydate_of_cell (row_get out "contract_start" r))
                  (pydate_of_cell (row_get out "contract_end" r)) ws we.

(** One cell of [(out["mrr_usd"] * out["overlap_months"]).round(2)] for a
    numeric column: the library's product for a number, and a missing value
    for a missing one. *)
Definition revenue_cell `{PandasLib} (m : cell) (months : Z) : cell :=
  match m with
  | VNum q => VNum (mul_round2 q months)
  | _ => VNull
  end.

Definition months_cell (k : Z) : cell := VNum (inject_Z k).

Definition valid_how (how : string) : bool :=
  mem how ["sum"; "mean"; "count"; "nunique"].

(** The explicit aggregations: [agg_map[rc] = how] for the valid ones. *)
Definition explicit_aggs (out : DataFrame) (schema : list string)
           (aggs_in : list (string * string)) : list (string * string) :=
  fold_left
    (fun agg_map kh =>
       let rc := match resolve_col (PStr (fst kh)) schema with
                 | Some rc => rc
                 | None => fst kh
                 end in
       if has_column out rc && valid_how (snd kh)
       then dict_set agg_map rc (snd kh)
       else agg_map)
    aggs_in [].

Definition numeric_in (out : DataFrame) (c : string) : bool :=
  has_column out c && is_numeric_dtype (col_dtype out c).

(** [referenced_cols]: the columns of the filters and of the order-by
    entries, each once (a set in the source, here in order of insertion). *)
Definition referenced_cols (out : DataFrame) (args : Args) : list string :=
  let cols := colnames out in
  resolve_list (resolve_list [] (map f_col (filters args)) cols)
               (map ob_col (order_by args)) cols.

(** The aggregation map of a grouped query. *)
Definition planned_aggs (out : DataFrame) (args : Args)
           (select group_by : list string) (agg_map : list (string * string))
  : list (string * string) :=
  let default_numeric :=
    filter (fun c => negb (mem c group_by) && numeric_in out c) select in
  let agg_map :=
    fold_left (fun m c => setdefault m c "sum") default_numeric agg_map in
  let agg_map :=
    if has_column out "period_revenue_usd"
    then setdefault agg_map "period_revenue_usd" "sum" else agg_map in
  let agg_map :=
    if has_column out "mrr_usd"
    then setdefault agg_map "mrr_usd" "sum" else agg_map in
  let agg_map :=
    fold_left
      (fun m col =>
         if mem col group_by then m
         else if numeric_in out col then
           if String.eqb col "churn_probability_percent"
           then setdefault m col "max"
           else if mem col ["period_revenue_usd"; "mrr_usd"]
           then setdefault m col "sum"
           else setdefault m col "sum"
         else m)
      (referenced_cols out args) agg_map in
  match agg_map with
  | [] =>
      if has_column out "period_revenue_usd" then [("period_revenue_usd", "sum")]
      else if has_column out "mrr_usd" then [("mrr_usd", "sum")]
      else []
  | _ => agg_map
  end.

(** The key of a row under [groupby(group_by)]. *)
Definition group_key (out : DataFrame) (group_by : list string) (r : row)
  : list cell :=
  map (fun g => norm_cell (row_get out g r)) group_by.

(** A row with a missing key belongs to no group. *)
Definition key_present (k : list cell) : bool :=
  forallb (fun c => negb (is_null c)) k.

(** The keys of the groups, each once, sorted. *)
Definition group_keys (out : DataFrame) (group_by : list string)
  : list (list cell) :=
  isort keys_leb
        (nodup key_eq_dec
               (filter key_present (map (group_key out group_by) (rows out)))).

Definition group_rows (out : DataFrame) (group_by : list string)
           (k : list cell) : list row :=
  filter (fun r => if key_eq_dec (group_key out group_by r) k then true else false)
         (rows out).

Definition agg_dtype (how : string) (t : dtype) : dtype :=
  if mem how ["count"; "nunique"] then DNum else t.

(** The key columns that [as_index=False] puts into the aggregated frame:
    a key whose name is one of the aggregated columns is not put in, and the
    column of that name holds the aggregate. *)
Definition key_columns (group_by : list string)
           (agg_map : list (string * string)) : list string :=
  filter (fun g => negb (mem g (map fst agg_map))) group_by.

(** The order of the rows of [res] by the key column [col]. *)
Definition row_leb (res : DataFrame) (col : string) (ascending : bool)
           (r1 r2 : row) : bool :=
  key_leb ascending (row_get res col r1) (row_get res col r2).

(** [res.sort_values(col, ascending=...)]: the rows in the order of the
    key, missing keys last. The sort is the default [kind="quicksort"],
    which is not stable: rows of equal keys come out in the order the
    library leaves them in, so the rows are inserted into the order of the
    key from the arrangement that [sort_ties] gives. Ordering values of
    different types is an error. *)
Definition sort_values `{PandasLib} (res : DataFrame) (col : string)
           (ascending : bool) : result DataFrame :=
  if comparable (column_cells res col) then
    Ok (mkDataFrame (columns res)
                    (isort (row_leb res col ascending)
                           (arrange (sort_ties ascending (column_cells res col))
                                    (rows res))))
  else Raise TypeError.

(** The resolved [order_by] list. *)
Definition resolved_order (res : DataFrame) (obs : list OrderBy)
  : list (string * bool) :=
  flat_map
    (fun ob =>
       match resolve_col (ob_col ob) (colnames res) with
       | Some rc => [(rc, ob_desc ob)]
       | None => []
       end)
    obs.

Definition order_step `{PandasLib} (res : DataFrame) (ob : string * bool)
  : result DataFrame :=
  if has_column res (fst ob) then sort_values res (fst ob) (negb (snd ob))
  else Ok res.

(** [for ob in order_by[::-1]: ...] *)
Definition order_stage `{PandasLib} (res : DataFrame) (obs : list OrderBy)
  : result DataFrame :=
  foldM order_step (rev (resolved_order res obs)) res.

(** [if args.get("limit"): res = res.head(int(args["limit"]))] *)
Definition limit_stage (res : DataFrame) (limit : option Z) : DataFrame :=
  match limit with
  | Some n => if n =? 0 then res else head res n
  | None => res
  end.

Section WithLib.

Context `{PandasLib}.

Definition normalize_column (out : DataFrame) (c : string) : DataFrame :=
  set_column out c DObj
             (map cell_of_date (to_datetime_column (column_cells out c))).

(** [for c in (DATE_COLS & schema): out[c] = pd.to_datetime(...).dt.date] *)
Definition normalize_dates (schema : list string) (out : DataFrame) : DataFrame :=
  fold_left (fun o c => if mem c schema then normalize_column o c else o)
            DATE_COLS out.

(** [_to_pydate(win.get(k)) if win else None] *)
Definition window_bound (win : list (string * pyval)) (k : string)
  : result pydate :=
  match win with
  | [] => Ok PyNone
  | _ => _to_pydate (pyval_get win k)
  end.

(** [(out["mrr_usd"] * out["overlap_months"]).round(2)] with its dtype. *)
Definition period_revenue (out : DataFrame) (months : list Z)
  : result (dtype * list cell) :=
  let mrr := column_cells out "mrr_usd" in
  if is_numeric_dtype (col_dtype out "mrr_usd") then
    Ok (DNum, map (fun p => revenue_cell (fst p) (snd p)) (combine mrr months))
  else
    cells <- object_revenue mrr months ;; Ok (DObj, cells).

(** The derived-metric stage: the table and the schema after it. *)
Definition materialize (out : DataFrame) (args : Args) (schema : list string)
  : result (DataFrame * list string) :=
  ws <- window_bound (time_window args) "start" ;;
  we <- window_bound (time_window args) "end" ;;
  if (computed args || wants_period_rev args) && subset revenue_sources schema
  then
    let '(ws, we) :=
      if negb (pydate_truthy ws && pydate_truthy we) then default_window
      else (ws, we) in
    _ <- match rows out with [] => apply_on_empty | _ => Ok tt end ;;
    months <- mapM (row_overlap out ws we) (rows out) ;;
    let out := set_column out "overlap_months" DNum (map months_cell months) in
    ' (t, revenue) <- period_revenue out months ;;
    let out := set_column out "period_revenue_usd" t revenue in
    Ok (out, colnames out)
  else Ok (out, schema).

(** One row of [out.groupby(group_by, as_index=False).agg(agg_map)]: the
    cells of the key that [key_columns] keeps, then the aggregates. *)
Definition aggregate_group (out : DataFrame) (group_by : list string)
           (agg_map : list (string * string)) (k : list cell) : result row :=
  aggs <- mapM (fun ch =>
                  agg_reduce (snd ch) (col_dtype out (fst ch))
                             (map (row_get out (fst ch))
                                  (group_rows out group_by k)))
               agg_map ;;
  Ok (map snd (filter (fun gc => negb (mem (fst gc) (map fst agg_map)))
                      (combine group_by k))
      ++ aggs).

(** [out.groupby(group_by, as_index=False).agg(agg_map)]: the aggregated
    columns, with the key columns put before them. *)
Definition groupby_agg (out : DataFrame) (group_by : list string)
           (agg_map : list (string * string)) : result DataFrame :=
  if negb (forallb (has_column out) group_by) then Raise KeyError
  else
    _ <- match agg_map with [] => agg_nothing | _ => Ok tt end ;;
    rs <- mapM (aggregate_group out group_by agg_map)
               (group_keys out group_by) ;;
    Ok (mkDataFrame
          (map (fun g => (g, col_dtype out g)) (key_columns group_by agg_map)
           ++ map (fun ch => (fst ch, agg_dtype (snd ch) (col_dtype out (fst ch))))
                  agg_map)
          rs).

(** The projection, or the aggregation of a grouped query, of the filtered
    table. *)
Definition project_or_aggregate (out : DataFrame) (args : Args)
           (schema : list string) : result DataFrame :=
  let select :=
    match resolve_list [] (select args) schema with
    | [] => colnames out
    | s => s
    end in
  let agg_map := explicit_aggs out schema (aggregations args) in
  let group_by := resolve_list [] (group_by args) schema in
  match group_by with
  | [] => Ok (select_columns out (filter (has_column out) select))
  | _ :: _ =>
      let agg_map := planned_aggs out args select group_by agg_map in
      res <- groupby_agg out group_by agg_map ;;
      match dict_get agg_map "churn" with
      | Some how =>
          if String.eqb how "mean" && has_column res "churn"
          then Ok (rename_column res "churn" "churn_rate")
          else Ok res
      | None => Ok res
      end
  end.

(** The stages before ordering: normalize, materialize, filter, and project
    or aggregate. *)
Definition build_result (df : DataFrame) (args : Args) : result DataFrame :=
  let schema := colnames df in
  let out := normalize_dates schema df in
  ' (out, schema) <- materialize out args schema ;;
  out <- _apply_filters out (filters args) schema ;;
  project_or_aggregate out args schema.

(** [tool_query]; [reset_index(drop=True)] renumbers the rows and leaves the
    table as it is. *)
Definition tool_query (df : DataFrame) (args : Args) : result DataFrame :=
  res <- build_result df args ;;
  res <- order_stage res (order_by args) ;;
  Ok (limit_stage res (limit args)).

End WithLib.

End Executor.

(** * The executor over a store of frames

    The same code with the identity of the frames made explicit: a frame
    lives at a location of a store, [df.copy()] and every operation that
    returns a frame allocate, and an item assignment [out[c] = ...] updates
    the frame at its location. *)

Module Heap.

Import PyStr Aliases Frame CellOrder Tools Executor.

Definition loc : Type := nat.

Definition store : Type := list DataFrame.

(** A computation that reads and updates the store and may raise. *)
Definition M (A : Type) : Type := store -> result (A * store).

Definition ret {A : Type} (a : A) : M A := fun st => Ok (a, st).

Definition bindM {A B : Type} (m : M A) (k : A -> M B) : M B :=
  fun st =>
    match m st with
    | Ok (a, st') => k a st'
    | Raise e => Raise e
    end.

Notation "x <~ m ;; k" := (bindM m (fun x => k))
  (at level 61, m at next level, right associativity).

Notation "' p <~ m ;; k" := (bindM m (fun p => k))
  (at level 61, p pattern, m at next level, right associativity).

Definition lift {A : Type} (r : result A) : M A :=
  fun st =>
    match r with
    | Ok a => Ok (a, st)
    | Raise e => Raise e
    end.

Definition read (l : loc) : M DataFrame :=
  fun st =>
    match nth_error st l with
    | Some df => Ok (df, st)
    | None => Raise NoSuchObject
    end.

Definition alloc (df : DataFrame) : M loc :=
  fun st => Ok (List.length st, st ++ [df]).

Definition update (l : loc) (f : DataFrame -> DataFrame) : M unit :=
  fun st =>
    match nth_error st l with
    | Some df => Ok (tt, replace_nth l (f df) st)
    | None => Raise NoSuchObject
    end.

(** [df.copy()] *)
Definition copy (l : loc) : M loc := df <~ read l ;; alloc df.

(** [out[c] = vals] *)
Definition setitem (l : loc) (c : string) (t : dtype) (vals : list cell)
  : M unit :=
  update l (fun df => set_column df c t vals).

Fixpoint foldMh {A S : Type} (step : S -> A -> M S) (xs : list A) (s : S)
  : M S :=
  match xs with
  | [] => ret s
  | x :: xs' => s' <~ step s x ;; foldMh step xs' s'
  end.

Section WithLib.

Context `{PandasLib}.

Definition normalize_dates_h (schema : list string) (out : loc) : M unit :=
  foldMh
    (fun _ c =>
       if mem c schema then
         o <~ read out ;;
         setitem out c DObj
                 (map cell_of_date (to_datetime_column (column_cells o c)))
       else ret tt)
    DATE_COLS tt.

Definition materialize_h (out : loc) (args : Args) (schema : list string)
  : M (list string) :=
  ws <~ lift (window_bound (time_window args) "start") ;;
  we <~ lift (window_bound (time_window args) "end") ;;
  if (computed args || wants_period_rev args) && subset revenue_sources schema
  then
    let '(ws, we) :=
      if negb (pydate_truthy ws && pydate_truthy we) then default_window
      else (ws, we) in
    o <~ read out ;;
    _ <~ lift (match rows o with [] => apply_on_empty | _ => Ok tt end) ;;
    months <~ lift (mapM (row_overlap o ws we) (rows o)) ;;
    _ <~ setitem out "overlap_months" DNum (map months_cell months) ;;
    o <~ read out ;;
    ' (t, revenue) <~ lift (period_revenue o months) ;;
    _ <~ setitem out "period_revenue_usd" t revenue ;;
    o <~ read out ;;
    ret (colnames o)
  else ret schema.

(** One iteration of the loop of [_apply_filters]: [out = out[mask]] binds
    [out] to a new frame. *)
Definition filter_step_h (schema : list string) (out : loc) (f : Filter) : M loc :=
  o <~ read out ;;
  r <~ lift (filter_step schema o f) ;;
  match r with
  | Some o' => alloc o'
  | None => ret out
  end.

(** [_apply_filters]: the argument itself when there is no filter. *)
Definition _apply_filters_h (df : loc) (filters : list Filter)
           (schema : list string) : M loc :=
  match filters with
  | [] => ret df
  | _ => out <~ copy df ;; foldMh (filter_step_h schema) filters out
  end.

(** [res = res.sort_values(...)] binds [res] to a new frame. *)
Definition order_step_h (res : loc) (ob : string * bool) : M loc :=
  r <~ read res ;;
  if has_column r (fst ob) then
    s <~ lift (sort_values r (fst ob) (negb (snd ob))) ;;
    alloc s
  else ret res.

Definition order_stage_h (res : loc) (obs : list OrderBy) : M loc :=
  r <~ read res ;;
  foldMh order_step_h (rev (resolved_order r obs)) res.

Definition limit_stage_h (res : loc) (limit : option Z) : M loc :=
  match limit with
  | Some n =>
      if n =? 0 then ret res
      else r <~ read res ;; alloc (head r n)
  | None => ret res
  end.

Definition tool_query_h (df : loc) (args : Args) : M loc :=
  src <~ read df ;;
  let schema := colnames src in
  out <~ copy df ;;
  _ <~ normalize_dates_h schema out ;;
  schema <~ materialize_h out args schema ;;
  out <~ _apply_filters_h out (filters args) schema ;;
  o <~ read out ;;
  r <~ lift (project_or_aggregate o args schema) ;;
  res <~ alloc r ;;
  res <~ order_stage_h res (order_by args) ;;
  res <~ limit_stage_h res (limit args) ;;
  r <~ read res ;;
  alloc r.

End WithLib.

End Heap.

(** * utils/aliases.py: the plan sanitizer *)

Module Sanitizer.

Import PyStr Aliases.

Definition REVENUE_LIKE : list string :=
  ["period_revenue_usd"; "revenue"; "total_revenue";
   "revenue_usd"; "period_revenue"; "mrr_usd"].

(** The [args] of a query step as the planner gives them. An absent or null
    list or dict is the empty one, a value of [aggregations] that is not a
    dict reads as the empty dict, an absent [computed] is [PNone]. *)
Record PlanArgs : Type := mkPlanArgs {
  p_select : list pyval;
  p_filters : list Filter;
  p_time_window : list (string * pyval);
  p_group_by : list pyval;
  p_aggregations : list (string * pyval);
  p_order_by : list pyval;
  p_limit : option Z;
  p_computed : pyval
}.

(** The [args] of a query step once [sanitize_plan] has rewritten them:
    the column lists hold names, an order-by entry is a name and a flag. *)
Record CleanArgs : Type := mkCleanArgs {
  c_select : list string;
  c_filters : list Filter;
  c_time_window : list (string * pyval);
  c_group_by : list string;
  c_aggregations : list (string * string);
  c_order_by : list (string * bool);
  c_limit : option Z;
  c_computed : pyval
}.

(** One iteration of the loop of [_fix_order_by]. *)
Definition fix_order_entry (schema : list string) (ob : pyval)
  : option (string * bool) :=
  match ob with
  | PDict d =>
      let c := pyval_get d "col" in
      match resolve_col (if py_truthy c then c else ob) schema with
      | Some col => Some (col, py_truthy (pyval_get d "desc"))
      | None => None
      end
  | _ =>
      match resolve_col ob schema with
      | Some col => Some (col, true)
      | None => None
      end
  end.

Fixpoint _fix_order_by (order_by : list pyval) (schema : list string)
  : list (string * bool) :=
  match order_by with
  | [] => []
  | ob :: order_by' =>
      match fix_order_entry schema ob with
      | Some e => e :: _fix_order_by order_by' schema
      | None => _fix_order_by order_by' schema
      end
  end.

(** [f["col"]] of a filter that [_fix_filters] returned: a name. *)
Definition col_name (f : Filter) : string :=
  match f_col f with
  | PStr c => c
  | _ => ""
  end.

(** [_cols_from_filters] on the filters [_fix_filters] returned. *)
Definition _cols_from_filters (filters : list Filter) : list string :=
  filter truthy (map col_name filters).

(** [if c not in sel: sel.append(c)] *)
Definition append_new (sel : list string) (c : string) : list string :=
  if mem c sel then sel else sel ++ [c].

(** [_ensure_selected]: the select list afterwards. *)
Definition _ensure_selected (sel cols : list string) : list string :=
  fold_left append_new cols sel.

Definition _mentions_revenue (select : list string)
           (aggs : list (string * string)) (order_by : list (string * bool))
           (filt_cols : list string) : bool :=
  existsb (fun s => mem s REVENUE_LIKE) select
  || existsb (fun k => mem k REVENUE_LIKE) (map fst aggs)
  || existsb (fun ob => mem (fst ob) REVENUE_LIKE) order_by
  || existsb (fun c => mem c REVENUE_LIKE) filt_cols.

Definition default_time_window : list (string * pyval) :=
  [("start", PStr "2000-01-01"); ("end", PStr "2100-01-01")].

Definition _ensure_revenue_defaults (a : CleanArgs) (schema : list string)
  : CleanArgs :=
  let select := _ensure_selected (c_select a) ["period_revenue_usd"] in
  let computed :=
    match c_computed a with
    | PNone => PBool true
    | v => PBool (py_truthy v)
    end in
  let tw := c_time_window a in
  let time_window :=
    if negb (py_truthy (pyval_get tw "start") && py_truthy (pyval_get tw "end"))
    then default_time_window else tw in
  let group_by :=
    if mem "company_name" schema && mem "company_name" select
    then append_new (c_group_by a) "company_name"
    else c_group_by a in
  let aggs := setdefault (c_aggregations a) "period_revenue_usd" "sum" in
  let order_by :=
    match c_order_by a with
    | [] => [("period_revenue_usd", true)]
    | obs => obs
    end in
  mkCleanArgs select (c_filters a) time_window group_by aggs order_by
              (c_limit a) computed.

(** The loop that fixes the aggregations in [sanitize_plan]. *)
Definition fix_aggregations (schema : list string)
           (aggs_in : list (string * pyval)) : list (string * string) :=
  fold_left
    (fun fixed kv =>
       let col :=
         match resolve_col (PStr (fst kv)) schema with
         | Some c => Some c
         | None => _as_col_name (PStr (fst kv))
         end in
       match col, snd kv with
       | Some c, PStr how =>
           if truthy c && (mem c schema || mem c VIRTUAL_COLS)
              && mem how ["sum"; "mean"; "count"; "nunique"]
           then dict_set fixed c how
           else fixed
       | _, _ => fixed
       end)
    aggs_in [].

Section WithLib.

Context `{PandasLib}.

(** The body of the loop of [sanitize_plan] for a step whose tool is
    ["query"]. *)
Definition sanitize_args (schema : list string) (a : PlanArgs) : CleanArgs :=
  let select := _fix_list (p_select a) schema in
  let group_by := _fix_list (p_group_by a) schema in
  let filters := _fix_filters (p_filters a) schema in
  let order_by := _fix_order_by (p_order_by a) schema in
  let aggs := fix_aggregations schema (p_aggregations a) in
  let filt_cols := _cols_from_filters filters in
  let select := _ensure_selected select filt_cols in
  let select :=
    match select with
    | [] => if mem "company_name" schema then ["company_name"] else []
    | _ => select
    end in
  let c := mkCleanArgs select filters (p_time_window a) group_by aggs order_by
                       (p_limit a) (p_computed a) in
  let c :=
    if _mentions_revenue select aggs order_by filt_cols
    then _ensure_revenue_defaults c schema else c in
  let c :=
    if existsb (fun x => mem x ["period_revenue_usd"; "mrr_usd";
                                "revenue"; "period_revenue"]) filt_cols
    then
      let g := c_group_by c in
      mkCleanArgs (c_select c) (c_filters c) (c_time_window c)
                  (if negb (mem "company_name" g) && mem "company_name" schema
                   then g ++ ["company_name"] else g)
                  (c_aggregations c) (c_order_by c) (c_limit c) (c_computed c)
    else c in
  if mem "churn_probability_percent" filt_cols
  then mkCleanArgs (_ensure_selected (c_select c) ["churn_probability_percent"])
                   (c_filters c) (c_time_window c) (c_group_by c)
                   (c_aggregations c) (c_order_by c) (c_limit c) (c_computed c)
  else c.

End WithLib.

(** The sanitized [args] as [tool_query] reads them. *)
Definition to_args (c : CleanArgs) : Args :=
  mkArgs (map PStr (c_select c)) (c_filters c) (c_time_window c)
         (map PStr (c_group_by c)) (c_aggregations c)
         (map (fun ob => mkOrderBy (PStr (fst ob)) (snd ob)) (c_order_by c))
         (c_limit c) (py_truthy (c_computed c)).

End Sanitizer.

(** * utils/charts.py: the names of the axes *)

Module Charts.

Import PyStr Aliases.

Definition EXTRA_ALIASES : list (string * string) :=
  [ ("segments", "segment"); ("segment", "segment");
    ("industry", "industry"); ("vertical", "industry");
    ("region", "region"); ("geo", "region");
    ("tier", "tier"); ("channel", "channel");
    ("customer", "company_name"); ("customers", "company_name");
    ("account", "company_name"); ("accounts", "company_name");
    ("churn%", "churn_probability_percent");
    ("churn probability", "churn_probability_percent");
    ("probability of churn", "churn_probability_percent");
    ("revenue", "period_revenue_usd");
    ("total revenue", "period_revenue_usd");
    ("sales", "period_revenue_usd") ].

(** What [_canonical] makes of an alias target: the revenue column passes,
    any other name passes when it is a column. *)
Definition candidate (cand : string) (schema : list string) : option string :=
  if String.eqb cand "period_revenue_usd" then Some cand
  else if mem cand schema then Some cand
  else None.

Definition _canonical (term : string) (schema : list string) : option string :=
  let t := lower (strip term) in
  if String.eqb t "churn" then Some "churn_probability_percent"
  else
    match (match dict_get EXTRA_ALIASES t with
           | Some cand => candidate cand schema
           | None => None
           end) with
    | Some c => Some c
    | None =>
        match (match dict_get COLUMN_ALIASES t with
               | Some mapped =>
                   if truthy mapped then candidate mapped schema else None
               | None => None
               end) with
        | Some c => Some c
        | None => if mem term schema then Some term else None
        end
    end.

Definition _pick_default_category (schema : list string) : option string :=
  find (fun c => mem c schema)
       ["industry"; "segment"; "region"; "tier"; "channel"; "company_name"].

(** [not x] for an optional name. *)
Definition unset (x : option string) : bool :=
  match x with
  | Some s => negb (truthy s)
  | None => true
  end.

(** The axes [prepare_chart_frame] settles on for the two terms of an
    "X against Y" command, or nothing. *)
Definition chart_axes (x_raw y_raw : string) (schema : list string)
  : option (string * string) :=
  let x := _canonical x_raw schema in
  let y := _canonical y_raw schema in
  let '(x, y) :=
    if unset x || unset y
    then ((if unset x then _canonical y_raw schema else x),
          (if unset y then _canonical x_raw schema else y))
    else (x, y) in
  if unset x || unset y then None
  else
    match x, y with
    | Some x', Some y' =>
        if String.eqb x' y' then
          match _pick_default_category schema with
          | Some cat => if truthy cat then Some (cat, y') else None
          | None => None
          end
        else Some (x', y')
    | _, _ => None
    end.

End Charts.

(** * app.py: the query step and the plan used when the planner gives none *)

Module App.

Import Sanitizer.

(** The [args] of the query step of the fallback plan. *)
Definition FALLBACK_ARGS : PlanArgs :=
  mkPlanArgs
    [PStr "company_name"; PStr "period_revenue_usd";
     PStr "churn_probability_percent"]
    []
    [("start", PStr "2000-01-01"); ("end", PStr "2100-01-01")]
    [PStr "company_name"]
    [("period_revenue_usd", PStr "sum")]
    [PDict [("col", PStr "period_revenue_usd"); ("desc", PBool true)]]
    (Some 5)
    (PBool true).

(** The query step: [sanitize_plan(plan, schema=set(df.columns))], then
    [tool_query(df, args)]. *)
Definition run_query `{PandasLib} (df : DataFrame) (a : PlanArgs)
  : result DataFrame :=
  Executor.tool_query df (to_args (sanitize_args (Frame.colnames df) a)).

End App.

(** * A library instance to compute with

    ISO dates ([YYYY-MM-DD]), plain decimal numerals, substring search
    without metacharacters, and the reductions of numeric groups. *)

Module Ref.

Import PyStr Frame CellOrder Tools.

Definition digit_of (c : ascii) : option Z :=
  let n := nat_of_ascii c in
  if ((48 <=? n)%nat && (n <=? 57)%nat)%bool then Some (Z.of_nat (n - 48)) else None.

Fixpoint digits_acc (s : string) (acc : Z) : option Z :=
  match s with
  | EmptyString => Some acc
  | String c s' =>
      match digit_of c with
      | Some d => digits_acc s' (10 * acc + d)
      | None => None
      end
  end.

(** A non-empty string of decimal digits. *)
Definition parse_digits (s : string) : option Z :=
  match s with
  | EmptyString => None
  | _ => digits_acc s 0
  end.

(** [YYYY-MM-DD] *)
Definition parse_iso_date (s : string) : option date :=
  if negb (Nat.eqb (String.length s) 10) then None
  else if negb (String.eqb (substring 4 1 s) "-" && String.eqb (substring 7 1 s) "-")
  then None
  else
    match parse_digits (substring 0 4 s),
          parse_digits (substring 5 2 s),
          parse_digits (substring 8 2 s) with
    | Some y, Some m, Some d =>
        if (1 <=? y) && (1 <=? m) && (m <=? 12) && (1 <=? d)
           && (d <=? PyDate.days_in_month y m)
        then Some (PyDate.ymd y m d)
        else None
    | _, _, _ => None
    end.

Fixpoint split_dot (s : string) : string * option string :=
  match s with
  | EmptyString => (EmptyString, None)
  | String c s' =>
      if Ascii.eqb c "."%char then (EmptyString, Some s')
      else let '(a, b) := split_dot s' in (String c a, b)
  end.

(** An unsigned decimal numeral: digits, with an optional fraction. *)
Definition parse_unsigned (s : string) : option Q :=
  match split_dot s with
  | (a, None) => option_map inject_Z (parse_digits a)
  | (a, Some b) =>
      match parse_digits a, parse_digits b with
      | Some x, Some y =>
          Some (Qred (inject_Z x
                      + inject_Z y / inject_Z (10 ^ Z.of_nat (String.length b))))
      | _, _ => None
      end
  end.

Definition parse_decimal (s : string) : option Q :=
  match strip s with
  | String "-"%char s' => option_map Qopp (parse_unsigned s')
  | String "+"%char s' => parse_unsigned s'
  | s' => parse_unsigned s'
  end.

Definition number_cells (cells : list cell) : list Q :=
  flat_map (fun c => match c with VNum q => [q] | _ => [] end) cells.

Definition Qsum (qs : list Q) : Q := Qred (fold_left Qplus qs 0%Q).

Definition Qmax_list (qs : list Q) : cell :=
  match qs with
  | [] => VNull
  | q :: qs' => VNum (fold_left (fun a b => if Qle_bool a b then b else a) qs' q)
  end.

(** The reductions of a group of a numeric column, missing values skipped. *)
Definition reduce_numeric (how : string) (cells : list cell) : result cell :=
  let qs := number_cells cells in
  let n := inject_Z (Z.of_nat (List.length qs)) in
  if String.eqb how "sum" then Ok (VNum (Qsum qs))
  else if String.eqb how "mean" then
    match qs with
    | [] => Ok VNull
    | _ => Ok (VNum (Qred (Qsum qs / n)))
    end
  else if String.eqb how "count" then Ok (VNum n)
  else if String.eqb how "nunique" then
    Ok (VNum (inject_Z (Z.of_nat (List.length
                                    (nodup cell_eq_dec
                                           (map norm_cell (map VNum qs)))))))
  else if String.eqb how "max" then Ok (Qmax_list qs)
  else Raise ValueError.

(** The reductions of a group of a column that is not numeric: counting. *)
Definition reduce_object (how : string) (cells : list cell) : result cell :=
  let present := filter (fun c => negb (is_null c)) cells in
  if String.eqb how "count" then
    Ok (VNum (inject_Z (Z.of_nat (List.length present))))
  else if String.eqb how "nunique" then
    Ok (VNum (inject_Z (Z.of_nat (List.length
                                    (nodup cell_eq_dec (map norm_cell present))))))
  else Raise TypeError.

Definition text_of_cell (c : cell) : string :=
  match c with
  | VStr s => s
  | _ => "nan"
  end.

Definition text_of_operand (v : cval) : string :=
  match v with
  | CRaw (PStr s) => s
  | _ => "None"
  end.

Definition isin_cell (vals : list cval) (c : cell) : bool :=
  existsb (fun v => match compare_cell OpEq c (operand_of v) with
                    | Ok b => b
                    | Raise _ => false
                    end) vals.

Definition contains_cell (vals : list cval) (c : cell) : bool :=
  match vals with
  | [v] => contains (lower (text_of_operand v)) (lower (text_of_cell c))
  | _ => false
  end.

#[export] Instance ref_lib : PandasLib := {|
  py_float := fun s => option_map Finite (parse_decimal s);
  py_str := fun x =>
    match x with
    | PNone => "None"
    | PBool true => "True"
    | PBool false => "False"
    | PStr s => s
    | _ => "object"
    end;
  to_datetime_date := fun x =>
    match x with
    | PStr s => Ok (parse_iso_date (strip s))
    | _ => Ok None
    end;
  to_datetime_column :=
    map (fun c => match c with
                  | VDate d => Some d
                  | VStr s => parse_iso_date (strip s)
                  | _ => None
                  end);
  isna_list_truth := fun _ => Ok false;
  to_numeric_str := parse_decimal;
  library_mask := fun tag _ cells vals =>
    if String.eqb tag "in" then Ok (map (isin_cell vals) cells)
    else if String.eqb tag "contains" then Ok (map (contains_cell vals) cells)
    else Raise ValueError;
  agg_reduce := fun how t cells =>
    match t with
    | DNum => reduce_numeric how cells
    | DObj => reduce_object how cells
    end;
  agg_nothing := Raise ValueError;
  object_revenue := fun _ _ => Raise TypeError;
  apply_on_empty := Raise ValueError;
  mul_round2 := fun q k => Num.round2 (q * inject_Z k);
  sort_ties := fun _ _ => []
|}.

(** The same library with a sort that leaves rows of equal keys in the
    reverse of the order they came in. *)
Definition unstable_lib : PandasLib := {|
  py_float := @py_float ref_lib;
  py_str := @py_str ref_lib;
  to_datetime_date := @to_datetime_date ref_lib;
  to_datetime_column := @to_datetime_column ref_lib;
  isna_list_truth := @isna_list_truth ref_lib;
  to_numeric_str := @to_numeric_str ref_lib;
  library_mask := @library_mask ref_lib;
  agg_reduce := @agg_reduce ref_lib;
  agg_nothing := @agg_nothing ref_lib;
  object_revenue := @object_revenue ref_lib;
  apply_on_empty := @apply_on_empty ref_lib;
  mul_round2 := @mul_round2 ref_lib;
  sort_ties := fun _ cells => rev (seq 0 (List.length cells))
|}.

End Ref.

(** * Vocabulary of the statements *)

(** Every row has one cell per column. *)
Definition wf_rows (df : DataFrame) : Prop :=
  Forall (fun r => List.length r = List.length (columns df)) (rows df).

Definition wf_rowsb (df : DataFrame) : bool :=
  forallb (fun r => Nat.eqb (List.length r) (List.length (columns df))) (rows df).

(** The descriptor [args] with its filter list replaced. *)
Definition with_filters (args : Args) (fs : list Filter) : Args :=
  mkArgs (select args) fs (time_window args) (group_by args)
         (aggregations args) (order_by args) (limit args) (computed args).

(** [l1] is [l2] with some elements left out. *)
Inductive Subseq {A : Type} : list A -> list A -> Prop :=
| Subseq_nil : Subseq [] []
| Subseq_keep x l1 l2 : Subseq l1 l2 -> Subseq (x :: l1) (x :: l2)
| Subseq_drop x l1 l2 : Subseq l1 l2 -> Subseq l1 (x :: l2).

(** The names of the columns after [c] is assigned. *)
Definition add_name (c : string) (names : list string) : list string :=
  if PyStr.mem c names then names else names ++ [c].

(** The revenue column is named in [select], [aggregations] or [order_by]. *)
Definition mentions_revenue (args : Args) : Prop :=
  In (PStr "period_revenue_usd") (select args)
  \/ In "period_revenue_usd" (map fst (aggregations args))
  \/ Exists (fun ob => ob_col ob = PStr "period_revenue_usd") (order_by args).

Definition revenue_triggered (args : Args) : Prop :=
  computed args = true \/ mentions_revenue args.

(** The three source columns of the derived metric are among [names]. *)
Definition has_revenue_sources (names : list string) : Prop :=
  In "contract_start" names /\ In "contract_end" names /\ In "mrr_usd" names.

(** The time window in force: the explicit one when it has both a start and
    an end, else the default one. *)
Definition effective_window (ws we : pydate) : pydate * pydate :=
  if Executor.pydate_truthy ws && Executor.pydate_truthy we then (ws, we)
  else Executor.default_window.

(** The nine operators of a filter. *)
Definition supported_ops : list string :=
  ["=="; "!="; ">"; "<"; ">="; "<="; "in"; "between"; "contains"].

(** [out'] has the columns of [out] and some of its rows, in their order. *)
Definition narrows (out' out : DataFrame) : Prop :=
  columns out' = columns out /\ Subseq (rows out') (rows out).

(** A run that returns a frame equal to [x] at a new or an old location of
    a store that has only grown, or that raises as the pure code does. *)
Definition runs_to (m : Heap.M Heap.loc) (s : Heap.store) (r : result DataFrame)
  : Prop :=
  match r with
  | Ok x => exists l ext, m s = Ok (l, s ++ ext) /\ nth_error (s ++ ext) l = Some x
  | Raise e => m s = Raise e
  end.

(** A string that does not begin with a blank. *)
Definition no_lead (s : string) : Prop :=
  match s with
  | String c _ => PyStr.is_space c = false
  | EmptyString => True
  end.

(** A name the engine can use: not empty, and a column of the schema or the
    virtual revenue column. *)
Definition known (schema : list string) (n : string) : Prop :=
  n <> "" /\ (In n schema \/ n = "period_revenue_usd").

(** The filter [f'] is the filter [f] after [_fix_filters]: the value as it
    was, the operator made explicit, the column a name that resolves to
    itself. *)
Definition cleaned (schema : list string) (f f' : Filter) : Prop :=
  f_value f' = f_value f
  /\ f_op f' = Some (filter_op f)
  /\ exists c, f_col f' = PStr c /\ known schema c
               /\ Aliases.resolve_col (PStr c) schema = Some c.

(** The name [_fix_filters] looks the column of the filter [f] up under: the
    column after the alias table and the churn disambiguation. *)
Definition filter_target `{PandasLib} (f : Filter) : string :=
  Aliases.disambiguate (Aliases.initial_mapping (f_col f)) (f_value f).

(** The column of the filter [f] is known: that name resolves. *)
Definition column_known `{PandasLib} (schema : list string) (f : Filter)
  : bool :=
  match Aliases.resolve_col (PStr (filter_target f)) schema with
  | Some _ => true
  | None => false
  end.

(** Every name of the sanitized [args] is one the engine can use, the
    select and group-by lists hold each name once, an aggregation is one of
    the four the executor accepts, and the column of every filter is
    selected. *)
Definition well_named (schema : list string) (c : Sanitizer.CleanArgs) : Prop :=
  NoDup (Sanitizer.c_select c)
  /\ Forall (known schema) (Sanitizer.c_select c)
  /\ NoDup (Sanitizer.c_group_by c)
  /\ Forall (known schema) (Sanitizer.c_group_by c)
  /\ Forall (fun kh => known schema (fst kh)
                       /\ In (snd kh) ["sum"; "mean"; "count"; "nunique"])
            (Sanitizer.c_aggregations c)
  /\ Forall (fun ob => known schema (fst ob)) (Sanitizer.c_order_by c)
  /\ Forall (fun f => exists n, f_col f = PStr n /\ known schema n
                                /\ In n (Sanitizer.c_select c))
            (Sanitizer.c_filters c).

(** The symbol of a comparison operator in a filter. *)
Definition op_symbol (op : Tools.cmpop) : string :=
  match op with
  | Tools.OpEq => "=="
  | Tools.OpNe => "!="
  | Tools.OpGt => ">"
  | Tools.OpLt => "<"
  | Tools.OpGe => ">="
  | Tools.OpLe => "<="
  end.

(** [x op v] for the value [x] of a cell and a number [v]; a missing value
    differs from every number and is in no order with it. *)
Definition number_test (op : Tools.cmpop) (v : Q) (c : cell) : bool :=
  match c with
  | VNum x => Tools.cmp_Q op x v
  | _ => Tools.null_mask op
  end.

(** The cell holds the string [s]. *)
Definition text_equal (s : string) (c : cell) : bool :=
  match c with
  | VStr x => String.eqb x s
  | _ => false
  end.

(** The cell holds a number between [lo] and [hi], both included. *)
Definition number_between (lo hi : Q) (c : cell) : bool :=
  match c with
  | VNum x => Qle_bool lo x && Qle_bool x hi
  | _ => false
  end.

(** The cells of a numeric column: numbers and missing values. *)
Definition numeric_cells (cells : list cell) : Prop :=
  Forall (fun c => match c with
                   | VNum _ | VNull => True
                   | _ => False
                   end) cells.

(** The rows of [df] whose cell in column [col] passes the test [p]. *)
Definition keep_rows (df : DataFrame) (col : string) (p : cell -> bool)
  : DataFrame :=
  mkDataFrame (columns df) (filter (fun r => p (Frame.row_get df col r)) (rows df)).

(** A bound of a [between] filter that is missing or a number. *)
Definition plain_bound (v : pyval) : Prop :=
  match v with
  | PNone | PNum _ => True
  | _ => False
  end.

(** The filter names no column of the table: its column does not resolve,
    or resolves to a name the table does not have. *)
Definition names_no_column (schema : list string) (df : DataFrame) (f : Filter)
  : Prop :=
  match Aliases.resolve_col (f_col f) schema with
  | Some col => Frame.has_column df col = false
  | None => True
  end.

(** The descriptor [args] with its limit replaced. *)
Definition with_limit (args : Args) (lim : option Z) : Args :=
  mkArgs (select args) (filters args) (time_window args) (group_by args)
         (aggregations args) (order_by args) lim (computed args).

(** The columns of the working table of [tool_query] when the filters are
    applied: those of the source, and the two derived columns when the
    metric is materialized. *)
Definition working_columns (df : DataFrame) (args : Args) : list string :=
  if (computed args || Executor.wants_period_rev args)
     && Executor.subset Executor.revenue_sources (Frame.colnames df)
  then add_name "period_revenue_usd"
                (add_name "overlap_months" (Frame.colnames df))
  else Frame.colnames df.

(** No group-by column of the query is itself aggregated: none is the
    revenue or the monthly value, which a grouped query always aggregates,
    and none is the column that a key of [aggregations] names. *)
Definition keys_not_aggregated (schema : list string) (args : Args) : Prop :=
  forall g, In g (Aliases._fix_list (group_by args) schema) ->
    g <> "period_revenue_usd"
    /\ g <> "mrr_usd"
    /\ forall k, In k (map fst (aggregations args)) ->
         Aliases.resolve_col (PStr k) schema <> Some g
         /\ (Aliases.resolve_col (PStr k) schema = None -> k <> g).

(** The filter [f] compares the numeric column [col] of [df], which is not
    date-named, with the number [v] by the operator [op]. *)
Definition number_filter (schema : list string) (df : DataFrame) (f : Filter)
           (col : string) (op : Tools.cmpop) (v : Q) : Prop :=
  Aliases.resolve_col (f_col f) schema = Some col
  /\ Frame.has_column df col = true
  /\ Tools._is_date_col col = false
  /\ Frame.col_dtype df col = DNum
  /\ numeric_cells (Frame.column_cells df col)
  /\ filter_op f = op_symbol op
  /\ f_value f = PNum v.

(** The column a filter on the bare name [churn] with the number [v] is
    applied to. *)
Definition churn_target (v : Q) : string :=
  if Num.Qlt_bool 1 v then "churn_probability_percent" else "churn".

(** * Concrete inputs *)

Module Examples.

Import PyDate.

(** One contract, 2023-01-01 to 2023-12-31, at 100 a month. *)
Definition contract_table : DataFrame :=
  mkDataFrame
    [("company_name", DObj); ("mrr_usd", DNum);
     ("contract_start", DObj); ("contract_end", DObj)]
    [[VStr "Acme"; VNum (inject_Z 100); VStr "2023-01-01"; VStr "2023-12-31"]].


(** The table [contract_table] after the query, with the two derived cells. *)
Definition contract_result (months : Z) (revenue : Z) : DataFrame :=
  mkDataFrame
    [("company_name", DObj); ("mrr_usd", DNum);
     ("contract_start", DObj); ("contract_end", DObj);
     ("overlap_months", DNum); ("period_revenue_usd", DNum)]
    [[VStr "Acme"; VNum (inject_Z 100);
      VDate (ymd 2023 1 1); VDate (ymd 2023 12 31);
      VNum (inject_Z months); VNum (inject_Z revenue)]].


Definition computed_query : Args :=
  mkArgs [] [] [] [] [] [] None true.

(** A contract with no end date in the table. *)
Definition open_contract_table : DataFrame :=
  mkDataFrame
    [("mrr_usd", DNum); ("contract_start", DObj); ("contract_end", DObj)]
    [[VNum (inject_Z 100); VStr "2023-01-01"; VNull]].


(** A table with one column of names. *)
Definition names_table : DataFrame :=
  mkDataFrame [("company_name", DObj)] [[VStr "Acme"]].

(** [{"filters": [{"col": "company_name", "op": ">", "value": 5}]}] *)
Definition order_filter_query : Args :=
  mkArgs [] [mkFilter (PStr "company_name") (Some ">") (PNum (inject_Z 5))]
         [] [] [] [] None false.

(** [{"limit": 0}] *)
Definition limit_zero_query : Args :=
  mkArgs [] [] [] [] [] [] (Some 0) false.

(** [{"limit": 1}] *)
Definition limit_one_query : Args :=
  mkArgs [] [] [] [] [] [] (Some 1) false.

(** A table with a date column. *)
Definition signup_table : DataFrame :=
  mkDataFrame [("company_name", DObj); ("signup_date", DObj)]
              [[VStr "Acme"; VStr "2023-01-01"]].

(** [{"col": "signup_date", "op": "not in",
      "value": ["2023-01-01", "2023-02-01"]}] *)
Definition not_in_filter : Filter :=
  mkFilter (PStr "signup_date") (Some "not in")
           (PList [PStr "2023-01-01"; PStr "2023-02-01"]).

Definition not_in_query : Args :=
  mkArgs [] [not_in_filter] [] [] [] [] None false.

(** Filters on the bare name [churn]. *)
Definition churn_filter (value : pyval) : Filter :=
  mkFilter (PStr "churn") (Some ">=") value.

Definition churn_schema : list string :=
  ["company_name"; "churn"; "churn_probability_percent"].

(** Rows with a score and a rank, and the query that orders them by score,
    descending, then by rank, ascending. *)
Definition scores_table : DataFrame :=
  mkDataFrame
    [("score", DNum); ("rank", DNum)]
    [[VNum (inject_Z 1); VNum (inject_Z 2)];
     [VNum (inject_Z 3); VNum (inject_Z 9)];
     [VNum (inject_Z 1); VNum (inject_Z 1)];
     [VNum (inject_Z 3); VNum (inject_Z 4)];
     [VNull; VNum (inject_Z 0)]].

Definition scores_query : Args :=
  mkArgs [] [] [] [] []
         [mkOrderBy (PStr "score") true; mkOrderBy (PStr "rank") false]
         None false.

Definition scores_result : DataFrame :=
  mkDataFrame
    [("score", DNum); ("rank", DNum)]
    [[VNum (inject_Z 3); VNum (inject_Z 4)];
     [VNum (inject_Z 3); VNum (inject_Z 9)];
     [VNum (inject_Z 1); VNum (inject_Z 1)];
     [VNum (inject_Z 1); VNum (inject_Z 2)];
     [VNull; VNum (inject_Z 0)]].

(** What [scores_query] returns on [scores_table] when the sort leaves equal
    keys in the reverse of the order they came in. *)
Definition scores_unstable : DataFrame :=
  mkDataFrame
    [("score", DNum); ("rank", DNum)]
    [[VNum (inject_Z 3); VNum (inject_Z 9)];
     [VNum (inject_Z 3); VNum (inject_Z 4)];
     [VNum (inject_Z 1); VNum (inject_Z 2)];
     [VNum (inject_Z 1); VNum (inject_Z 1)];
     [VNull; VNum (inject_Z 0)]].

(** [{}] *)
Definition plain_query : Args :=
  mkArgs [] [] [] [] [] [] None false.

(** [{"col": "score", "op": "==", "value": 3}] *)
Definition score_filter : Filter :=
  mkFilter (PStr "score") (Some "==") (PNum (inject_Z 3)).

Definition high_scores : DataFrame :=
  mkDataFrame
    [("score", DNum); ("rank", DNum)]
    [[VNum (inject_Z 3); VNum (inject_Z 9)];
     [VNum (inject_Z 3); VNum (inject_Z 4)]].

(** A store holding [contract_table], and what the run of
    [computed_query] on its location 0 leaves. *)
Definition store_before : Heap.store := [contract_table].

Definition store_after : Heap.store :=
  Eval vm_compute in
    match Heap.tool_query_h (H := Ref.ref_lib) 0%nat computed_query store_before with
    | Ok (_, st) => st
    | Raise _ => []
    end.

Definition result_loc : Heap.loc :=
  Eval vm_compute in
    match Heap.tool_query_h (H := Ref.ref_lib) 0%nat computed_query store_before with
    | Ok (l, _) => l
    | Raise _ => O
    end.

(** [{"select": ["company", "revenue"]}], as the planner may give it. *)
Definition revenue_plan : Sanitizer.PlanArgs :=
  Sanitizer.mkPlanArgs [PStr "company"; PStr "revenue"] [] [] [] [] [] None PNone.

(** [{"col": "rank", "op": "between", "value": [1, 4]}] *)
Definition rank_between : Filter :=
  mkFilter (PStr "rank") (Some "between")
           (PList [PNum (inject_Z 1); PNum (inject_Z 4)]).

(** [{"col": "rank", "op": "between", "value": {"start": 1}}] *)
Definition rank_from : Filter :=
  mkFilter (PStr "rank") (Some "between") (PDict [("start", PNum (inject_Z 1))]).

(** [{"col": "company_name", "op": "!=", "value": "Acme"}] *)
Definition other_names : Filter :=
  mkFilter (PStr "company_name") (Some "!=") (PStr "Acme").

(** [{"col": "revenue", "op": ">", "value": 0}] *)
Definition revenue_filter : Filter :=
  mkFilter (PStr "revenue") (Some ">") (PNum (inject_Z 0)).

(** [{"select": ["rank", "nothing", "rank"]}] *)
Definition rank_query : Args :=
  mkArgs [PStr "rank"; PStr "nothing"; PStr "rank"] [] [] [] [] [] None false.

(** What [revenue_plan], sanitized, returns on [contract_table]. *)
Definition revenue_by_company : DataFrame :=
  mkDataFrame
    [("company_name", DObj); ("period_revenue_usd", DNum); ("mrr_usd", DNum)]
    [[VStr "Acme"; VNum (inject_Z 1300); VNum (inject_Z 100)]].

(** [{"col": "rank", "op": "<", "value": 5}] *)
Definition low_rank : Filter :=
  mkFilter (PStr "rank") (Some "<") (PNum (inject_Z 5)).

(** Accounts with their churn flag and churn probability. *)
Definition churn_table : DataFrame :=
  mkDataFrame
    [("company_name", DObj); ("churn", DNum); ("churn_probability_percent", DNum)]
    [[VStr "Acme"; VNum (inject_Z 0); VNum (inject_Z 80)];
     [VStr "Bolt"; VNum (inject_Z 1); VNum (inject_Z 95)];
     [VStr "Core"; VNum (inject_Z 0); VNum (inject_Z 10)]].

(** Two contracts of one company and one of another. *)
Definition contracts_table : DataFrame :=
  mkDataFrame
    [("company_name", DObj); ("mrr_usd", DNum)]
    [[VStr "Bolt"; VNum (inject_Z 10)];
     [VStr "Acme"; VNum (inject_Z 20)];
     [VStr "Bolt"; VNum (inject_Z 30)]].

(** [{"group_by": ["company"], "aggregations": {"mrr": "sum"}}] *)
Definition by_company_query : Args :=
  mkArgs [] [] [] [PStr "company"] [("mrr", "sum")] [] None false.

Definition by_company_result : DataFrame :=
  mkDataFrame
    [("company_name", DObj); ("mrr_usd", DNum)]
    [[VStr "Acme"; VNum (inject_Z 20)];
     [VStr "Bolt"; VNum (inject_Z 40)]].

(** Seven contracts of six companies, all of 2023. *)
Definition accounts_table : DataFrame :=
  mkDataFrame
    [("company_name", DObj); ("mrr_usd", DNum);
     ("contract_start", DObj); ("contract_end", DObj)]
    [[VStr "Acme"; VNum (inject_Z 100); VStr "2023-01-01"; VStr "2023-12-31"];
     [VStr "Bolt"; VNum (inject_Z 300); VStr "2023-01-01"; VStr "2023-12-31"];
     [VStr "Core"; VNum (inject_Z 50); VStr "2023-01-01"; VStr "2023-12-31"];
     [VStr "Acme"; VNum (inject_Z 400); VStr "2023-01-01"; VStr "2023-12-31"];
     [VStr "Dune"; VNum (inject_Z 200); VStr "2023-01-01"; VStr "2023-12-31"];
     [VStr "Echo"; VNum (inject_Z 10); VStr "2023-01-01"; VStr "2023-12-31"];
     [VStr "Flux"; VNum (inject_Z 250); VStr "2023-01-01"; VStr "2023-12-31"]].

(** What the fallback plan returns on [accounts_table]: thirteen months of
    each contract, summed by company. *)
Definition top_accounts : DataFrame :=
  mkDataFrame
    [("company_name", DObj); ("period_revenue_usd", DNum); ("mrr_usd", DNum)]
    [[VStr "Acme"; VNum (inject_Z 6500); VNum (inject_Z 500)];
     [VStr "Bolt"; VNum (inject_Z 3900); VNum (inject_Z 300)];
     [VStr "Flux"; VNum (inject_Z 3250); VNum (inject_Z 250)];
     [VStr "Dune"; VNum (inject_Z 2600); VNum (inject_Z 200)];
     [VStr "Core"; VNum (inject_Z 650); VNum (inject_Z 50)]].

End Examples.

(** * Properties *)


(** ** The result monad *)

Lemma bind_Ok_inv {A B : Type} (m : result A) (k : A -> result B) (b : B) :
  bind m k = Ok b -> exists a, m = Ok a /\ k a = Ok b.
Proof.
  destruct m as [a | e]; simpl; intros Hb; [eauto | discriminate].
Qed.

Lemma mapM_length {A B : Type} (f : A -> result B) (xs : list A) (ys : list B) :
  mapM f xs = Ok ys -> List.length ys = List.length xs.
Proof.
  revert ys. induction xs as [| x xs IH]; simpl; intros ys Hm.
  - now inversion Hm.
  - apply bind_Ok_inv in Hm. destruct Hm as [y [_ Hm]].
    apply bind_Ok_inv in Hm. destruct Hm as [ys' [Hys Hm]].
    inversion Hm; subst. simpl. f_equal. now apply IH.
Qed.

Lemma mapM_Forall2 {A B : Type} (f : A -> result B) (xs : list A) (ys : list B) :
  mapM f xs = Ok ys -> Forall2 (fun x y => f x = Ok y) xs ys.
Proof.
  revert ys. induction xs as [| x xs IH]; simpl; intros ys Hm.
  - inversion Hm. constructor.
  - apply bind_Ok_inv in Hm. destruct Hm as [y [Hy Hm]].
    apply bind_Ok_inv in Hm. destruct Hm as [ys' [Hys Hm]].
    inversion Hm; subst. constructor; auto.
Qed.

Lemma foldM_app {A S : Type} (step : S -> A -> result S) (xs ys : list A) (s : S) :
  foldM step (xs ++ ys) s = bind (foldM step xs s) (foldM step ys).
Proof.
  revert s. induction xs as [| x xs IH]; simpl; intros s; [reflexivity |].
  destruct (step s x) as [s' | e]; simpl; [apply IH | reflexivity].
Qed.

(** ** Strings and name lists *)

Lemma mem_In x xs : PyStr.mem x xs = true <-> In x xs.
Proof.
  unfold PyStr.mem. rewrite existsb_exists. split.
  - intros [y [Hy He]]. apply String.eqb_eq in He. now subst.
  - intros Hx. exists x. split; [assumption | apply String.eqb_refl].
Qed.

Lemma mem_false x xs : PyStr.mem x xs = false <-> ~ In x xs.
Proof.
  rewrite <- mem_In. destruct (PyStr.mem x xs); split; intros; congruence.
Qed.

(** ** Frames *)

Module FrameFacts.

Import Frame.

Lemma wf_rowsb_spec df : wf_rowsb df = true -> wf_rows df.
Proof.
  unfold wf_rowsb, wf_rows. rewrite forallb_forall, Forall_forall.
  intros Hb r Hr. apply Nat.eqb_eq. now apply Hb.
Qed.

Lemma index_of_lt c names i :
  index_of c names = Some i -> (i < List.length names)%nat.
Proof.
  revert i. induction names as [| n names IH]; simpl; intros i Hi; [discriminate |].
  destruct (String.eqb n c).
  - inversion Hi. lia.
  - destruct (index_of c names) as [j |]; simpl in Hi; [| discriminate].
    inversion Hi. specialize (IH j eq_refl). lia.
Qed.

Lemma index_of_None c names : index_of c names = None <-> ~ In c names.
Proof.
  induction names as [| n names IH]; simpl.
  - split; [tauto | reflexivity].
  - destruct (String.eqb_spec n c) as [-> | Hne].
    + split; [discriminate | intros Hn; exfalso; apply Hn; now left].
    + destruct (index_of c names) as [j |]; simpl.
      * split; [discriminate |]. intros Hn. exfalso. apply Hn. right.
        destruct IH as [_ IH]. destruct (in_dec string_dec c names) as [Hi | Hi]; auto.
        now specialize (IH Hi).
      * split; [| reflexivity]. intros _ [He | Hi]; [congruence |].
        destruct IH as [IH _]. now apply IH.
Qed.

Lemma index_of_In c names : In c names -> exists i, index_of c names = Some i.
Proof.
  intros Hc. destruct (index_of c names) as [i |] eqn:He; [eauto |].
  apply index_of_None in He. contradiction.
Qed.

Lemma index_of_app_l c names more :
  In c names -> index_of c (names ++ more) = index_of c names.
Proof.
  induction names as [| n names IH]; simpl; intros Hc; [contradiction |].
  destruct (String.eqb_spec n c) as [-> | Hne]; [reflexivity |].
  destruct Hc as [He | Hc]; [congruence |]. now rewrite IH.
Qed.

Lemma index_of_app_fresh c names :
  ~ In c names -> index_of c (names ++ [c]) = Some (List.length names).
Proof.
  induction names as [| n names IH]; simpl; intros Hc.
  - now rewrite String.eqb_refl.
  - destruct (String.eqb_spec n c) as [-> | Hne]; [exfalso; apply Hc; now left |].
    rewrite IH by tauto. reflexivity.
Qed.

Lemma has_column_In df c : has_column df c = true <-> In c (colnames df).
Proof. apply mem_In. Qed.

Lemma col_index_has_column df c :
  has_column df c = match col_index df c with Some _ => true | None => false end.
Proof.
  unfold col_index. destruct (index_of c (colnames df)) as [i |] eqn:He.
  - apply has_column_In. destruct (in_dec string_dec c (colnames df)) as [Hi | Hn]; auto.
    apply index_of_None in Hn. congruence.
  - apply mem_false. now apply index_of_None.
Qed.

Lemma map_fst_set_dtype c t cols : map fst (set_dtype c t cols) = map fst cols.
Proof.
  induction cols as [| [n t'] cols IH]; simpl; [reflexivity |].
  destruct (String.eqb n c); simpl; [reflexivity | now rewrite IH].
Qed.

Lemma colnames_set_column df c t vals :
  colnames (set_column df c t vals)
  = if has_column df c then colnames df else colnames df ++ [c].
Proof.
  rewrite col_index_has_column. unfold set_column, colnames.
  destruct (col_index df c); simpl.
  - apply map_fst_set_dtype.
  - now rewrite map_app.
Qed.

Lemma In_colnames_set_column df c t vals x :
  In x (colnames (set_column df c t vals)) <-> x = c \/ In x (colnames df).
Proof.
  rewrite colnames_set_column. destruct (has_column df c) eqn:Hc.
  - apply has_column_In in Hc. split; [auto | intros [-> | Hx]; auto].
  - rewrite in_app_iff. simpl. split; [intros [Hx | [Hx | []]]; auto | intros [-> | Hx]; auto].
Qed.

Lemma length_set_cells i rs vals :
  List.length (set_cells i rs vals) = List.length rs.
Proof.
  revert vals. induction rs as [| r rs IH]; simpl; intros vals; [reflexivity |].
  now rewrite IH.
Qed.

Lemma nrows_set_column df c t vals : nrows (set_column df c t vals) = nrows df.
Proof.
  unfold set_column, nrows. destruct (col_index df c); simpl; apply length_set_cells.
Qed.

Lemma length_replace_nth {A : Type} i (x : A) l :
  List.length (replace_nth i x l) = List.length l.
Proof.
  revert i. induction l as [| y l IH]; intros [| i]; simpl; auto.
Qed.

Lemma length_set_dtype c t cols :
  List.length (set_dtype c t cols) = List.length cols.
Proof.
  rewrite <- (length_map fst), map_fst_set_dtype. apply length_map.
Qed.

Lemma wf_rows_set_column df c t vals :
  wf_rows df -> wf_rows (set_column df c t vals).
Proof.
  unfold wf_rows, set_column. intros Hwf.
  destruct (col_index df c) as [i |]; simpl.
  - rewrite length_set_dtype. revert vals.
    induction Hwf as [| r rs Hr _ IH]; simpl; intros vals; constructor; auto.
    now rewrite length_replace_nth.
  - rewrite length_app. simpl. revert vals.
    induction Hwf as [| r rs Hr _ IH]; simpl; intros vals; constructor; auto.
    rewrite length_app. simpl. lia.
Qed.

Lemma dict_get_app_l {V : Type} (d more : list (string * V)) k :
  In k (map fst d) -> dict_get (d ++ more) k = dict_get d k.
Proof.
  induction d as [| [k' v] d IH]; simpl; intros Hk; [contradiction |].
  destruct (String.eqb_spec k' k) as [-> | Hne]; [reflexivity |].
  destruct Hk as [He | Hk]; [congruence | auto].
Qed.

(** A column added last leaves the cells of the columns before it where
    they are. *)
Lemma row_get_extended df c t vals c' r v :
  ~ In c (colnames df) -> In c' (colnames df) ->
  List.length r = List.length (columns df) ->
  row_get (set_column df c t vals) c' (r ++ [v]) = row_get df c' r.
Proof.
  intros Hc Hc' Hr. unfold row_get, col_index.
  rewrite colnames_set_column.
  assert (has_column df c = false) as -> by now apply mem_false.
  rewrite index_of_app_l by assumption.
  destruct (index_of c' (colnames df)) as [i |] eqn:Hi; [| reflexivity].
  apply index_of_lt in Hi. unfold colnames in Hi. rewrite length_map in Hi.
  unfold cell_at. apply app_nth1. lia.
Qed.

Lemma row_get_added df c t vals r v :
  ~ In c (colnames df) ->
  List.length r = List.length (columns df) ->
  row_get (set_column df c t vals) c (r ++ [v]) = v.
Proof.
  intros Hc Hr. unfold row_get, col_index.
  rewrite colnames_set_column.
  assert (has_column df c = false) as -> by now apply mem_false.
  rewrite index_of_app_fresh by assumption.
  unfold cell_at, colnames. rewrite length_map, <- Hr.
  rewrite app_nth2 by lia. now rewrite Nat.sub_diag.
Qed.

Lemma col_dtype_extended df c t vals c' :
  ~ In c (colnames df) -> In c' (colnames df) ->
  col_dtype (set_column df c t vals) c' = col_dtype df c'.
Proof.
  intros Hc Hc'. unfold col_dtype, set_column, col_index.
  apply index_of_None in Hc. rewrite Hc. simpl.
  now rewrite dict_get_app_l.
Qed.

Lemma rows_set_column_fresh df c t vals :
  ~ In c (colnames df) ->
  rows (set_column df c t vals) = set_cells None (rows df) vals.
Proof.
  intros Hc. unfold set_column, col_index.
  apply index_of_None in Hc. now rewrite Hc.
Qed.

End FrameFacts.

(** ** The derived-metric stage *)

Module MaterializeFacts.

Import PyStr Aliases Frame CellOrder Tools Executor FrameFacts.

Lemma is_revenue_name_spec c :
  is_revenue_name c = true <-> c = PStr "period_revenue_usd".
Proof.
  destruct c; simpl; try (split; [discriminate | intros Hc; discriminate Hc]).
  rewrite String.eqb_eq. split; [intros -> | intros Hc; inversion Hc]; reflexivity.
Qed.

Lemma wants_period_rev_spec args :
  wants_period_rev args = true <-> mentions_revenue args.
Proof.
  unfold wants_period_rev, mentions_revenue.
  rewrite !orb_true_iff, mem_In, !existsb_exists, Exists_exists.
  split.
  - intros [[[c [Hc Hr]] | Ha] | [ob [Hob Hr]]].
    + left. apply is_revenue_name_spec in Hr. now subst.
    + right. now left.
    + right. right. exists ob. split; [assumption | now apply is_revenue_name_spec].
  - intros [Hs | [Ha | [ob [Hob Hr]]]].
    + left. left. exists (PStr "period_revenue_usd"). split; [assumption | reflexivity].
    + left. now right.
    + right. exists ob. split; [assumption | now apply is_revenue_name_spec].
Qed.

Lemma triggered_spec args :
  computed args || wants_period_rev args = true <-> revenue_triggered args.
Proof.
  unfold revenue_triggered. rewrite orb_true_iff, wants_period_rev_spec. tauto.
Qed.

Lemma subset_sources_spec schema :
  subset revenue_sources schema = true <-> has_revenue_sources schema.
Proof.
  unfold subset, revenue_sources, has_revenue_sources. simpl.
  rewrite !andb_true_iff, !mem_In. tauto.
Qed.

Lemma effective_window_eq ws we :
  (if negb (pydate_truthy ws && pydate_truthy we) then default_window else (ws, we))
  = effective_window ws we.
Proof.
  unfold effective_window. now destruct (pydate_truthy ws && pydate_truthy we).
Qed.

Section WithLib.

Context `{PandasLib}.

(** What a successful run of the stage did. *)
Lemma materialize_inv out args schema out' schema' :
  materialize out args schema = Ok (out', schema') ->
  exists ws we,
    window_bound (time_window args) "start" = Ok ws
    /\ window_bound (time_window args) "end" = Ok we
    /\ ((computed args || wants_period_rev args) && subset revenue_sources schema = false
        /\ out' = out /\ schema' = schema
        \/
        (computed args || wants_period_rev args) && subset revenue_sources schema = true
        /\ exists months t revenue,
            let w := effective_window ws we in
            let out1 := set_column out "overlap_months" DNum (map months_cell months) in
            mapM (row_overlap out (fst w) (snd w)) (rows out) = Ok months
            /\ period_revenue out1 months = Ok (t, revenue)
            /\ out' = set_column out1 "period_revenue_usd" t revenue
            /\ schema' = colnames out').
Proof.
  unfold materialize. intros Hm.
  apply bind_Ok_inv in Hm. destruct Hm as [ws [Hws Hm]].
  apply bind_Ok_inv in Hm. destruct Hm as [we [Hwe Hm]].
  exists ws, we. split; [assumption |]. split; [assumption |].
  destruct ((computed args || wants_period_rev args) && subset revenue_sources schema).
  - right. split; [reflexivity |].
    rewrite effective_window_eq in Hm.
    destruct (effective_window ws we) as [ws' we'] eqn:Hw.
    apply bind_Ok_inv in Hm. destruct Hm as [u [_ Hm]].
    apply bind_Ok_inv in Hm. destruct Hm as [months [Hmonths Hm]].
    apply bind_Ok_inv in Hm. destruct Hm as [[t revenue] [Hrev Hm]].
    inversion Hm; subst. exists months, t, revenue. simpl. auto.
  - left. inversion Hm; subst. auto.
Qed.

Lemma set_cells_two (g g1 : row -> cell) rs ks :
  List.length ks = List.length rs ->
  (forall r k, In r rs -> g1 (r ++ [months_cell k]) = g r) ->
  set_cells None (set_cells None rs (map months_cell ks))
            (map (fun p => revenue_cell (fst p) (snd p))
                 (combine (map g1 (set_cells None rs (map months_cell ks))) ks))
  = map (fun p => fst p ++ [months_cell (snd p); revenue_cell (g (fst p)) (snd p)])
        (combine rs ks).
Proof.
  revert ks. induction rs as [| r rs IH]; intros [| k ks] Hlen Hg;
    simpl in *; try reflexivity; try discriminate.
  rewrite Hg by now left. rewrite <- app_assoc. simpl. f_equal.
  apply IH; [lia | intros r' k' Hr'; apply Hg; now right].
Qed.

Lemma Forall2_combine_map {A B C : Type} (P : A -> B -> Prop) (F : A * B -> C) xs ys :
  Forall2 P xs ys ->
  Forall2 (fun x z => exists y, P x y /\ z = F (x, y)) xs (map F (combine xs ys)).
Proof.
  induction 1 as [| x y xs ys Hxy _ IH]; simpl; constructor; eauto.
Qed.

(** The rows after the stage, when it adds its two columns to a table whose
    monthly-value column is numeric. *)
Lemma materialize_rows out args out' schema' :
  materialize out args (colnames out) = Ok (out', schema') ->
  (computed args || wants_period_rev args)
    && subset revenue_sources (colnames out) = true ->
  wf_rows out ->
  ~ In "overlap_months" (colnames out) ->
  ~ In "period_revenue_usd" (colnames out) ->
  col_dtype out "mrr_usd" = DNum ->
  exists ws we,
    window_bound (time_window args) "start" = Ok ws
    /\ window_bound (time_window args) "end" = Ok we
    /\ Forall2
         (fun r r' =>
            exists k,
              row_overlap out (fst (effective_window ws we))
                          (snd (effective_window ws we)) r = Ok k
              /\ r' = r ++ [months_cell k;
                            revenue_cell (row_get out "mrr_usd" r) k])
         (rows out) (rows out').
Proof.
  intros Hm Htrig Hwf Hfresh1 Hfresh2 Hnum.
  apply materialize_inv in Hm.
  destruct Hm as [ws [we [Hws [Hwe [[Hno _] | [_ Hyes]]]]]]; [congruence |].
  cbv zeta in Hyes.
  destruct Hyes as [months [t [revenue [Hmonths [Hrev [Hout _]]]]]].
  exists ws, we. split; [assumption |]. split; [assumption |].
  apply andb_true_iff in Htrig. destruct Htrig as [_ Hsrc].
  apply subset_sources_spec in Hsrc. destruct Hsrc as [_ [_ Hmrr]].
  assert (Hlen : List.length months = List.length (rows out))
    by (eapply mapM_length; eassumption).
  unfold period_revenue in Hrev.
  rewrite col_dtype_extended in Hrev by assumption.
  rewrite Hnum in Hrev. simpl in Hrev. inversion Hrev; subst t revenue. clear Hrev.
  assert (Hfresh3 : ~ In "period_revenue_usd"
                       (colnames (set_column out "overlap_months" DNum
                                             (map months_cell months)))).
  { rewrite In_colnames_set_column. intros [He | Hi]; [discriminate | auto]. }
  rewrite Hout, rows_set_column_fresh by assumption.
  unfold column_cells.
  rewrite rows_set_column_fresh by assumption.
  rewrite (set_cells_two (row_get out "mrr_usd")).
  - apply (Forall2_combine_map
             (fun r k => row_overlap out (fst (effective_window ws we))
                                     (snd (effective_window ws we)) r = Ok k)
             (fun p => fst p ++ [months_cell (snd p);
                                 revenue_cell (row_get out "mrr_usd" (fst p)) (snd p)])).
    now apply mapM_Forall2.
  - assumption.
  - intros r k Hr. apply row_get_extended; try assumption.
    unfold wf_rows in Hwf. rewrite Forall_forall in Hwf. now apply Hwf.
Qed.

End WithLib.

End MaterializeFacts.

(** ** Date normalization *)

Module NormalizeFacts.

Import PyStr Frame Tools Executor FrameFacts.

Section WithLib.

Context `{PandasLib}.

Lemma fold_normalize_ind (P : DataFrame -> Prop) schema cs out :
  (forall o c vals,
      In c cs -> mem c schema = true -> P o -> P (set_column o c DObj vals)) ->
  P out ->
  P (fold_left (fun o c => if mem c schema then normalize_column o c else o)
               cs out).
Proof.
  revert out. induction cs as [| c cs IH]; simpl; intros out Hstep Hout.
  - assumption.
  - apply IH; [intros o c' vals Hc'; apply Hstep; now right |].
    destruct (mem c schema) eqn:Hc; [| assumption].
    unfold normalize_column. apply Hstep; auto.
Qed.

Lemma normalize_dates_ind (P : DataFrame -> Prop) schema out :
  (forall o c vals,
      In c DATE_COLS -> mem c schema = true -> P o ->
      P (set_column o c DObj vals)) ->
  P out -> P (normalize_dates schema out).
Proof.
  apply fold_normalize_ind.
Qed.

Lemma dict_get_set_dtype_ne c t cols k :
  k <> c -> dict_get (set_dtype c t cols) k = dict_get cols k.
Proof.
  intros Hne. induction cols as [| [n t'] cols IH]; simpl; [reflexivity |].
  destruct (String.eqb_spec n c) as [-> | Hnc]; simpl.
  - destruct (String.eqb_spec c k); [congruence | reflexivity].
  - destruct (String.eqb n k); [reflexivity | apply IH].
Qed.

Lemma dict_get_app_ne {V : Type} (d : list (string * V)) c v k :
  k <> c -> dict_get (d ++ [(c, v)]) k = dict_get d k.
Proof.
  intros Hne. induction d as [| [n v'] d IH]; simpl.
  - destruct (String.eqb_spec c k); [congruence | reflexivity].
  - destruct (String.eqb n k); [reflexivity | apply IH].
Qed.

Lemma col_dtype_set_column_ne df c t vals k :
  k <> c -> col_dtype (set_column df c t vals) k = col_dtype df k.
Proof.
  intros Hne. unfold col_dtype, set_column.
  destruct (col_index df c); simpl.
  - now rewrite dict_get_set_dtype_ne.
  - now rewrite dict_get_app_ne.
Qed.

Lemma col_dtype_normalize_dates schema df k :
  ~ In k DATE_COLS ->
  col_dtype (normalize_dates schema df) k = col_dtype df k.
Proof.
  intros Hk. apply normalize_dates_ind; [| reflexivity].
  intros o c vals Hc _ Ho. rewrite col_dtype_set_column_ne; [assumption |].
  intros ->. contradiction.
Qed.

Lemma colnames_normalize_dates df :
  colnames (normalize_dates (colnames df) df) = colnames df.
Proof.
  apply normalize_dates_ind; [| reflexivity].
  intros o c vals _ Hc Ho. rewrite colnames_set_column.
  unfold has_column. now rewrite Ho, Hc.
Qed.

Lemma nrows_normalize_dates schema df :
  nrows (normalize_dates schema df) = nrows df.
Proof.
  apply normalize_dates_ind; [| reflexivity].
  intros o c vals _ _ Ho. now rewrite nrows_set_column.
Qed.

Lemma wf_rows_normalize_dates schema df :
  wf_rows df -> wf_rows (normalize_dates schema df).
Proof.
  intros Hwf. apply normalize_dates_ind; [| assumption].
  intros o c vals _ _ Ho. now apply wf_rows_set_column.
Qed.

End WithLib.

End NormalizeFacts.

(** ** A missing date in the overlap computation (claim C4) *)


Section MissingDate.

Import PyStr Frame Tools Executor FrameFacts MaterializeFacts NormalizeFacts.

Context `{PandasLib}.






End MissingDate.



(** ** When the revenue column is materialized (claim C3) *)

Section RevenueMaterialization.

Import PyStr Frame Tools Executor FrameFacts MaterializeFacts NormalizeFacts.

Context `{PandasLib}.



End RevenueMaterialization.





(** ** Exceptions of the steady-state path (claim C1) *)

(** A missing contract date reaches [_overlap_months] as [NaT], which the
    [is None] guard lets through to the comparison with the window. *)
Lemma open_contract_raises :
  @Executor.tool_query Ref.ref_lib Examples.open_contract_table
    Examples.computed_query
  = Raise TypeError.
Proof.
  vm_compute. reflexivity.
Qed.

(** C1. The code raises on a well-formed descriptor: an ordering filter
    with a number as its value on a column of strings compares a string with
    a number, which is a [TypeError], whatever the library does elsewhere. *)
Theorem C1_tool_query_raises (L : PandasLib) :
  Executor.tool_query Examples.names_table Examples.order_filter_query
  = Raise TypeError.
Proof.
  reflexivity.
Qed.

(** ** The limit (claim C2) *)

Section Limit.

Import Frame Executor.

Context `{PandasLib}.

Lemma tool_query_inv df args res :
  tool_query df args = Ok res ->
  exists pre sorted,
    build_result df args = Ok pre
    /\ order_stage pre (order_by args) = Ok sorted
    /\ res = limit_stage sorted (limit args).
Proof.
  unfold tool_query. intros Hq.
  apply bind_Ok_inv in Hq. destruct Hq as [pre [Hpre Hq]].
  apply bind_Ok_inv in Hq. destruct Hq as [sorted [Hsorted Hq]].
  inversion Hq. eauto.
Qed.

Lemma nrows_head df n : 0 < n -> Z.of_nat (nrows (head df n)) <= n.
Proof.
  intros Hn. unfold head, nrows. simpl.
  destruct (0 <=? n) eqn:Hle; [| lia].
  pose proof (firstn_le_length (Z.to_nat n) (rows df)). lia.
Qed.

End Limit.

(** C2 (amended). A limit N >= 1 bounds the number of rows of the result;
    a limit of 0 is falsy and leaves the result whole. *)
Theorem C2_limit_bounds_rows (L : PandasLib) (df : DataFrame) (args : Args)
        (N : Z) (res : DataFrame) :
  limit args = Some N ->
  0 < N ->
  Executor.tool_query df args = Ok res ->
  Z.of_nat (Frame.nrows res) <= N.
Proof.
  intros Hlim HN Hq.
  apply tool_query_inv in Hq. destruct Hq as [pre [sorted [_ [_ ->]]]].
  rewrite Hlim. unfold Executor.limit_stage.
  destruct (Z.eqb_spec N 0) as [-> | _]; [lia |].
  now apply nrows_head.
Qed.

Lemma C2_limit_bounds_rows_witness :
  Z.of_nat (Frame.nrows Examples.names_table) <= 1.
Proof.
  apply (C2_limit_bounds_rows Ref.ref_lib Examples.names_table
                              Examples.limit_one_query 1 Examples.names_table).
  - reflexivity.
  - lia.
  - reflexivity.
Defined.

(** C2 as stated fails at N = 0: the limit is 0 and the result has a row. *)
Lemma C2_limit_zero_counterexample :
  limit Examples.limit_zero_query = Some 0
  /\ Executor.tool_query (H := Ref.ref_lib) Examples.names_table
                         Examples.limit_zero_query
     = Ok Examples.names_table
  /\ ~ (Z.of_nat (Frame.nrows Examples.names_table) <= 0).
Proof.
  split; [reflexivity |]. split; [reflexivity |]. simpl. lia.
Qed.

(** ** The churn disambiguation of the sanitizer (claim C8) *)

Section ChurnDisambiguation.

Import PyStr Aliases.

Context `{PandasLib}.

Lemma resolve_col_exact name schema :
  strip name = name -> truthy name = true -> In name schema ->
  resolve_col (PStr name) schema = Some name.
Proof.
  intros Hs Ht Hin. unfold resolve_col, _as_col_name. rewrite Hs, Ht. simpl.
  apply mem_In in Hin. now rewrite Hin.
Qed.

Lemma fix_filter_churn schema f :
  initial_mapping (f_col f) = "churn" ->
  In "churn" schema ->
  In "churn_probability_percent" schema ->
  fix_filter schema f
  = Some (mkFilter
            (PStr (match fst (_parse_percentish (f_value f)) with
                   | Some num =>
                       if gt_one num then "churn_probability_percent" else "churn"
                   | None => "churn"
                   end))
            (Some (filter_op f)) (f_value f)).
Proof.
  intros Hmap Hc Hp. unfold fix_filter, disambiguate. rewrite Hmap.
  change (String.eqb (lower "churn") "churn") with true. cbv iota.
  destruct (fst (_parse_percentish (f_value f))) as [num |].
  - destruct (gt_one num).
    + now rewrite (resolve_col_exact "churn_probability_percent").
    + now rewrite (resolve_col_exact "churn").
  - now rewrite (resolve_col_exact "churn").
Qed.

End ChurnDisambiguation.

Lemma gt_one_finite (q : Q) : Aliases.gt_one (Finite q) = true <-> (1 < q)%Q.
Proof.
  unfold Aliases.gt_one, Num.Qlt_bool. rewrite negb_true_iff.
  rewrite <- not_true_iff_false, Qle_bool_iff. split.
  - apply Qnot_le_lt.
  - apply Qlt_not_le.
Qed.

(** C8. In the sanitizing pass, a filter whose column reference maps to the
    bare name [churn] comes out on [churn_probability_percent] when its
    value parses to a number greater than 1, and on [churn] when the value
    parses to a number that is not greater than 1 or does not parse; so the
    string "75%" and the number 75 go to the probability column, and the
    number 1 and the string "high" stay on the flag. *)
Theorem C8_churn_disambiguation (L : PandasLib) (schema : list string) (f : Filter) :
  Aliases.initial_mapping (f_col f) = "churn" ->
  In "churn" schema ->
  In "churn_probability_percent" schema ->
  (forall num pct,
      Aliases._parse_percentish (f_value f) = (Some num, pct) ->
      Aliases.gt_one num = true ->
      Aliases._fix_filters [f] schema
      = [mkFilter (PStr "churn_probability_percent") (Some (filter_op f)) (f_value f)])
  /\ (forall num pct,
         Aliases._parse_percentish (f_value f) = (Some num, pct) ->
         Aliases.gt_one num = false ->
         Aliases._fix_filters [f] schema
         = [mkFilter (PStr "churn") (Some (filter_op f)) (f_value f)])
  /\ (forall pct,
         Aliases._parse_percentish (f_value f) = (None, pct) ->
         Aliases._fix_filters [f] schema
         = [mkFilter (PStr "churn") (Some (filter_op f)) (f_value f)])
  /\ (forall q : Q, Aliases.gt_one (Finite q) = true <-> (1 < q)%Q)
  /\ (forall q : Q,
         f_value f = PNum q ->
         Aliases._parse_percentish (f_value f) = (Some (Finite q), false)).
Proof.
  intros Hmap Hc Hp.
  pose proof (fix_filter_churn schema f Hmap Hc Hp) as Hfix.
  repeat split.
  - intros num pct Hparse Hgt. simpl. rewrite Hfix, Hparse. simpl. now rewrite Hgt.
  - intros num pct Hparse Hgt. simpl. rewrite Hfix, Hparse. simpl. now rewrite Hgt.
  - intros pct Hparse. simpl. rewrite Hfix, Hparse. reflexivity.
  - apply gt_one_finite.
  - apply gt_one_finite.
  - intros q ->. reflexivity.
Qed.

Lemma C8_churn_disambiguation_witness :
  Aliases._fix_filters (H := Ref.ref_lib)
                       [Examples.churn_filter (PStr "75%")] Examples.churn_schema
  = [mkFilter (PStr "churn_probability_percent") (Some ">=") (PStr "75%")]
  /\ Aliases._fix_filters (H := Ref.ref_lib)
                          [Examples.churn_filter (PNum (inject_Z 75))]
                          Examples.churn_schema
     = [mkFilter (PStr "churn_probability_percent") (Some ">=") (PNum (inject_Z 75))]
  /\ Aliases._fix_filters (H := Ref.ref_lib)
                          [Examples.churn_filter (PNum (inject_Z 1))]
                          Examples.churn_schema
     = [mkFilter (PStr "churn") (Some ">=") (PNum (inject_Z 1))]
  /\ Aliases._fix_filters (H := Ref.ref_lib)
                          [Examples.churn_filter (PStr "high")]
                          Examples.churn_schema
     = [mkFilter (PStr "churn") (Some ">=") (PStr "high")].
Proof.
  assert (Hc : In "churn" Examples.churn_schema) by (simpl; auto).
  assert (Hp : In "churn_probability_percent" Examples.churn_schema)
    by (simpl; auto).
  split; [| split; [| split]].
  - apply (proj1 (C8_churn_disambiguation
                    Ref.ref_lib Examples.churn_schema
                    (Examples.churn_filter (PStr "75%")) eq_refl Hc Hp)
                 (Finite (inject_Z 75)) true); reflexivity.
  - apply (proj1 (C8_churn_disambiguation
                    Ref.ref_lib Examples.churn_schema
                    (Examples.churn_filter (PNum (inject_Z 75))) eq_refl Hc Hp)
                 (Finite (inject_Z 75)) false); reflexivity.
  - apply (proj1 (proj2 (C8_churn_disambiguation
                           Ref.ref_lib Examples.churn_schema
                           (Examples.churn_filter (PNum (inject_Z 1))) eq_refl Hc Hp))
                 (Finite (inject_Z 1)) false); reflexivity.
  - apply (proj1 (proj2 (proj2 (C8_churn_disambiguation
                                  Ref.ref_lib Examples.churn_schema
                                  (Examples.churn_filter (PStr "high")) eq_refl Hc Hp)))
                 false); reflexivity.
Defined.

(** ** Operators the evaluator does not know (claim C9) *)

Section UnknownOperator.

Import PyStr Aliases Frame Tools.

Context `{PandasLib}.

Lemma to_pydate_not_list x : is_list x = false -> is_ok (_to_pydate x) = true.
Proof.
  destruct x; simpl; try reflexivity; try discriminate;
    intros _; destruct (to_datetime_date _) as [[d |] | e]; reflexivity.
Qed.

Lemma coerce_not_list val ser col :
  is_list val = false -> is_ok (_coerce_scalar_for_series val ser col) = true.
Proof.
  intros Hv. unfold _coerce_scalar_for_series.
  destruct (_is_date_col col).
  - pose proof (to_pydate_not_list val Hv) as Hok.
    destruct (_to_pydate val); [reflexivity | discriminate].
  - destruct (is_numeric_dtype ser); reflexivity.
Qed.

(** With an operator outside the nine, an iteration coerces the value and
    then leaves [out] as it is. *)
Lemma filter_step_unknown_op schema out f :
  ~ In (filter_op f) supported_ops ->
  filter_step schema out f
  = match resolve_col (f_col f) schema with
    | None => Ok None
    | Some col =>
        if negb (has_column out col) then Ok None
        else _ <- _coerce_scalar_for_series (f_value f) (col_dtype out col) col ;;
             Ok None
    end.
Proof.
  intros Hop. unfold filter_step.
  destruct (resolve_col (f_col f) schema) as [col |]; [| reflexivity].
  destruct (negb (has_column out col)); [reflexivity |].
  unfold supported_ops in Hop. simpl in Hop.
  repeat match goal with
         | |- context [String.eqb (filter_op f) ?s] =>
             destruct (String.eqb_spec (filter_op f) s) as [He | _];
             [exfalso; apply Hop; rewrite He; tauto |]
         end.
  reflexivity.
Qed.

(** The operator is a no-op when the value is not a list. *)
Lemma unknown_op_noop schema df f :
  ~ In (filter_op f) supported_ops ->
  is_list (f_value f) = false ->
  _apply_filters df [f] schema = Ok df.
Proof.
  intros Hop Hv. unfold _apply_filters, foldM, apply_filter.
  rewrite filter_step_unknown_op by assumption.
  destruct (resolve_col (f_col f) schema) as [col |]; [| reflexivity].
  destruct (negb (has_column df col)); [reflexivity |].
  pose proof (coerce_not_list (f_value f) (col_dtype df col) col Hv) as Hok.
  destruct (_coerce_scalar_for_series (f_value f) (col_dtype df col) col);
    [reflexivity | discriminate].
Qed.

(** A filter without an operator is an equality filter. *)
Lemma missing_op_is_equality schema df col val :
  _apply_filters df [mkFilter col None val] schema
  = _apply_filters df [mkFilter col (Some "==") val] schema.
Proof.
  reflexivity.
Qed.

End UnknownOperator.

(** C9. The operator ["not in"] is none of the nine, yet the filter is an
    error and not a no-op: on a date column the value is coerced before the
    operator is looked at, and coercing a list of two dates raises. *)
Theorem C9_unknown_operator_raises (L : PandasLib) :
  ~ In (filter_op Examples.not_in_filter) supported_ops
  /\ Tools._apply_filters Examples.signup_table [Examples.not_in_filter]
                          (Frame.colnames Examples.signup_table)
     = Raise ValueError
  /\ Executor.tool_query Examples.signup_table Examples.not_in_query
     = Raise ValueError.
Proof.
  split; [| split; reflexivity].
  simpl. intros Hin.
  repeat (destruct Hin as [Hin | Hin]; [discriminate |]). exact Hin.
Qed.

(** ** Filters narrow the rows and keep the columns *)

Module FilterFacts.

Import PyStr Aliases Frame Tools.

Lemma Subseq_refl {A : Type} (l : list A) : Subseq l l.
Proof.
  induction l; constructor; assumption.
Qed.

Lemma Subseq_trans {A : Type} (l1 l2 l3 : list A) :
  Subseq l1 l2 -> Subseq l2 l3 -> Subseq l1 l3.
Proof.
  intros H12 H23. revert l1 H12.
  induction H23 as [| x l2 l3 _ IH | x l2 l3 _ IH]; intros l1 H12.
  - assumption.
  - inversion H12; subst.
    + apply Subseq_keep. now apply IH.
    + apply Subseq_drop. now apply IH.
  - apply Subseq_drop. now apply IH.
Qed.

Lemma Subseq_length {A : Type} (l1 l2 : list A) :
  Subseq l1 l2 -> (List.length l1 <= List.length l2)%nat.
Proof.
  induction 1; simpl; lia.
Qed.

Lemma Subseq_In {A : Type} (l1 l2 : list A) x :
  Subseq l1 l2 -> In x l1 -> In x l2.
Proof.
  induction 1; simpl; intuition.
Qed.

Lemma Subseq_map {A B : Type} (f : A -> B) (l1 l2 : list A) :
  Subseq l1 l2 -> Subseq (map f l1) (map f l2).
Proof.
  induction 1; simpl; constructor; assumption.
Qed.

Lemma Subseq_filter {A : Type} (p : A -> bool) (l1 l2 : list A) :
  Subseq l1 l2 -> Subseq (filter p l1) (filter p l2).
Proof.
  induction 1 as [| x l1 l2 _ IH | x l1 l2 _ IH]; simpl.
  - constructor.
  - destruct (p x); [constructor |]; assumption.
  - destruct (p x); [constructor |]; assumption.
Qed.

Lemma Subseq_nil_l {A : Type} (l : list A) : Subseq [] l.
Proof.
  induction l; constructor; assumption.
Qed.

Lemma Subseq_filter_mask {A : Type} (l : list A) (mask : list bool) :
  Subseq (filter_mask l mask) l.
Proof.
  revert mask. induction l as [| x l IH]; intros [| b mask]; simpl.
  - constructor.
  - constructor.
  - apply Subseq_nil_l.
  - destruct b; constructor; apply IH.
Qed.

Lemma narrows_refl out : narrows out out.
Proof.
  split; [reflexivity | apply Subseq_refl].
Qed.

Lemma narrows_trans o1 o2 o3 : narrows o1 o2 -> narrows o2 o3 -> narrows o1 o3.
Proof.
  intros [Hc1 Hr1] [Hc2 Hr2]. split; [congruence | eapply Subseq_trans; eauto].
Qed.

Lemma narrows_mask_rows out mask : narrows (mask_rows out mask) out.
Proof.
  split; [reflexivity | apply Subseq_filter_mask].
Qed.

Section WithLib.

Context `{PandasLib}.

Lemma narrow_narrows out mask r :
  narrow out mask = Ok r -> exists out', r = Some out' /\ narrows out' out.
Proof.
  unfold narrow. intros Hn. apply bind_Ok_inv in Hn.
  destruct Hn as [m [_ Hn]]. inversion Hn.
  eexists. split; [reflexivity | apply narrows_mask_rows].
Qed.

Lemma narrow_rebound out mask r :
  narrow out mask = Ok r -> narrows (rebound out r) out.
Proof.
  intros Hn. apply narrow_narrows in Hn. destruct Hn as [o [-> Ho]]. exact Ho.
Qed.

Lemma filter_step_narrows schema out f r :
  filter_step schema out f = Ok r -> narrows (rebound out r) out.
Proof.
  unfold filter_step.
  destruct (resolve_col (f_col f) schema) as [col |];
    [| intros Hs; inversion Hs; apply narrows_refl].
  destruct (negb (has_column out col));
    [intros Hs; inversion Hs; apply narrows_refl |].
  destruct (String.eqb (filter_op f) "between").
  { destruct (between_bounds (f_value f)) as [lo hi].
    intros Hs.
    apply bind_Ok_inv in Hs. destruct Hs as [lo' [_ Hs]].
    apply bind_Ok_inv in Hs. destruct Hs as [hi' [_ Hs]].
    apply bind_Ok_inv in Hs. destruct Hs as [r1 [Hr1 Hs]].
    assert (H1 : narrows (rebound out r1) out).
    { destruct (is_none lo').
      - inversion Hr1. apply narrows_refl.
      - now apply narrow_rebound in Hr1. }
    destruct (is_none hi').
    - inversion Hs; subst. assumption.
    - apply narrow_narrows in Hs. destruct Hs as [o [-> Ho]]. simpl.
      eapply narrows_trans; eauto. }
  destruct (String.eqb (filter_op f) "in").
  { intros Hs. apply bind_Ok_inv in Hs. destruct Hs as [vals [_ Hs]].
    now apply narrow_rebound in Hs. }
  intros Hs. apply bind_Ok_inv in Hs. destruct Hs as [val [_ Hs]].
  repeat match type of Hs with
         | (if ?b then _ else _) = _ =>
             destruct b; [now apply narrow_rebound in Hs |]
         end.
  inversion Hs. apply narrows_refl.
Qed.

Lemma apply_filter_narrows schema out f out' :
  apply_filter schema out f = Ok out' -> narrows out' out.
Proof.
  unfold apply_filter. intros Ha. apply bind_Ok_inv in Ha.
  destruct Ha as [r [Hr Ha]]. inversion Ha. now apply filter_step_narrows in Hr.
Qed.

Lemma foldM_apply_filter_narrows schema fs out out' :
  foldM (apply_filter schema) fs out = Ok out' -> narrows out' out.
Proof.
  revert out. induction fs as [| f fs IH]; simpl; intros out Hf.
  - inversion Hf. apply narrows_refl.
  - apply bind_Ok_inv in Hf. destruct Hf as [o1 [H1 Hf]].
    apply apply_filter_narrows in H1. apply IH in Hf.
    eapply narrows_trans; eauto.
Qed.

(** Each filter only narrows the row set. *)
Lemma apply_filters_narrows schema fs out out' :
  _apply_filters out fs schema = Ok out' -> narrows out' out.
Proof.
  unfold _apply_filters. destruct fs as [| f fs].
  - intros Hf. inversion Hf. apply narrows_refl.
  - apply foldM_apply_filter_narrows.
Qed.

(** The filters of [fs ++ [f]] are those of [fs] followed by [f]. *)
Lemma apply_filters_snoc schema fs f out :
  _apply_filters out (fs ++ [f]) schema
  = bind (_apply_filters out fs schema) (fun o => apply_filter schema o f).
Proof.
  unfold _apply_filters. destruct fs as [| f0 fs].
  - simpl. destruct (apply_filter schema out f); reflexivity.
  - change ((f0 :: fs) ++ [f]) with (f0 :: (fs ++ [f])).
    cbv iota. change (f0 :: (fs ++ [f])) with ((f0 :: fs) ++ [f]).
    rewrite foldM_app.
    generalize (foldM (apply_filter schema) (f0 :: fs) out).
    intros [o | e]; simpl; [| reflexivity].
    destruct (apply_filter schema o f); reflexivity.
Qed.

End WithLib.

End FilterFacts.

(** ** Sorting by insertion *)

Section IsortFacts.

Variable A : Type.
Variable leb : A -> A -> bool.

Hypothesis leb_total : forall x y, leb x y = true \/ leb y x = true.
Hypothesis leb_trans : forall x y z, leb x y = true -> leb y z = true -> leb x z = true.

Lemma length_insert x l : List.length (insert leb x l) = S (List.length l).
Proof.
  induction l as [| y l IH]; simpl; [reflexivity |].
  destruct (leb x y); simpl; [reflexivity | now rewrite IH].
Qed.

Lemma length_isort l : List.length (isort leb l) = List.length l.
Proof.
  induction l as [| x l IH]; simpl; [reflexivity |].
  now rewrite length_insert, IH.
Qed.

Lemma Permutation_insert x l : Permutation (insert leb x l) (x :: l).
Proof.
  induction l as [| y l IH]; simpl; [reflexivity |].
  destruct (leb x y); [reflexivity |].
  rewrite IH. apply perm_swap.
Qed.

Lemma Permutation_isort l : Permutation (isort leb l) l.
Proof.
  induction l as [| x l IH]; simpl; [reflexivity |].
  rewrite Permutation_insert. now constructor.
Qed.

Lemma insert_sorted x l :
  StronglySorted (fun a b => leb a b = true) l ->
  StronglySorted (fun a b => leb a b = true) (insert leb x l).
Proof.
  induction 1 as [| y l Hs IH Hy]; simpl.
  - constructor; constructor.
  - destruct (leb x y) eqn:Hxy.
    + constructor; [constructor; assumption |].
      constructor; [assumption |].
      eapply Forall_impl; [| exact Hy]. intros z Hz. eapply leb_trans; eauto.
    + constructor; [assumption |].
      assert (Hyx : leb y x = true) by (destruct (leb_total x y); congruence).
      rewrite Forall_forall in *. intros z Hz.
      apply (Permutation_in _ (Permutation_insert x l)) in Hz.
      destruct Hz as [<- | Hz]; auto.
Qed.

(** The result is sorted: every element is below all the later ones. *)
Lemma isort_sorted l : StronglySorted (fun a b => leb a b = true) (isort leb l).
Proof.
  induction l as [| x l IH]; simpl; [constructor | now apply insert_sorted].
Qed.

End IsortFacts.

Lemma StronglySorted_firstn {A : Type} (R : A -> A -> Prop) n l :
  StronglySorted R l -> StronglySorted R (firstn n l).
Proof.
  intros Hs. revert n. induction Hs as [| x l Hs IH Hx]; intros [| n]; simpl;
    try constructor; auto.
  rewrite Forall_forall in *. intros y Hy. apply Hx.
  rewrite <- (firstn_skipn n l). apply in_or_app. now left.
Qed.

(** ** The order of the keys *)

Module CellOrderFacts.

Import CellOrder.

Lemma string_leb_trans a b c :
  String.leb a b = true -> String.leb b c = true -> String.leb a c = true.
Proof.
  unfold String.leb.
  destruct (String.compare a b) eqn:Hab; try discriminate;
    destruct (String.compare b c) eqn:Hbc; try discriminate; intros _ _.
  - apply String_as_OT.cmp_eq in Hab. subst. now rewrite Hbc.
  - apply String_as_OT.cmp_eq in Hab. subst. now rewrite Hbc.
  - apply String_as_OT.cmp_eq in Hbc. subst. now rewrite Hab.
  - apply String_as_OT.cmp_lt in Hab. apply String_as_OT.cmp_lt in Hbc.
    pose proof (String_as_OT.lt_trans _ _ _ Hab Hbc) as Hac.
    apply String_as_OT.cmp_lt in Hac. unfold String_as_OT.cmp in Hac.
    now rewrite Hac.
Qed.

Lemma Qle_bool_total a b : Qle_bool a b = true \/ Qle_bool b a = true.
Proof.
  rewrite !Qle_bool_iff. destruct (Qlt_le_dec a b) as [Hlt | Hle].
  - left. now apply Qlt_le_weak.
  - now right.
Qed.

Lemma Qle_bool_trans a b c :
  Qle_bool a b = true -> Qle_bool b c = true -> Qle_bool a c = true.
Proof.
  rewrite !Qle_bool_iff. apply Qle_trans.
Qed.

Lemma date_leb_total a b : PyDate.leb a b = true \/ PyDate.leb b a = true.
Proof.
  unfold PyDate.leb. rewrite !Z.leb_le. lia.
Qed.

Lemma date_leb_trans a b c :
  PyDate.leb a b = true -> PyDate.leb b c = true -> PyDate.leb a c = true.
Proof.
  unfold PyDate.leb. rewrite !Z.leb_le. lia.
Qed.

Lemma cell_leb_total a b : cell_leb a b = true \/ cell_leb b a = true.
Proof.
  destruct a, b; simpl; auto using Qle_bool_total, String.leb_total, date_leb_total.
Qed.

Lemma cell_leb_trans a b c :
  cell_leb a b = true -> cell_leb b c = true -> cell_leb a c = true.
Proof.
  destruct a, b, c; simpl; try reflexivity; try discriminate;
    eauto using Qle_bool_trans, string_leb_trans, date_leb_trans.
Qed.

Lemma key_leb_total asc a b : key_leb asc a b = true \/ key_leb asc b a = true.
Proof.
  destruct asc, a, b; simpl; auto using Qle_bool_total, String.leb_total, date_leb_total.
Qed.

Lemma key_leb_trans asc a b c :
  key_leb asc a b = true -> key_leb asc b c = true -> key_leb asc a c = true.
Proof.
  destruct asc, a, b, c; simpl; try reflexivity; try discriminate;
    eauto using Qle_bool_trans, string_leb_trans, date_leb_trans.
Qed.

(** On numbers the descending order is [>=] and the ascending one [<=]. *)
Lemma key_leb_numbers asc x y :
  key_leb asc (VNum x) (VNum y) = true
  <-> if asc then (x <= y)%Q else (y <= x)%Q.
Proof.
  destruct asc; simpl; apply Qle_bool_iff.
Qed.

End CellOrderFacts.

(** ** The ordering and limiting stages *)

Module OrderFacts.

Import PyStr Aliases Frame CellOrder Executor.

Lemma isort_ext {A : Type} (leb1 leb2 : A -> A -> bool) l :
  (forall x y, leb1 x y = leb2 x y) -> isort leb1 l = isort leb2 l.
Proof.
  intros Hext. induction l as [| x l IH]; simpl; [reflexivity |].
  rewrite IH. generalize (isort leb2 l). intros s.
  induction s as [| y s IHs]; simpl; [reflexivity |].
  rewrite Hext. destruct (leb2 x y); [reflexivity | now rewrite IHs].
Qed.

Lemma row_get_ext d1 d2 c r :
  colnames d1 = colnames d2 -> row_get d1 c r = row_get d2 c r.
Proof.
  intros Hn. unfold row_get, col_index. now rewrite Hn.
Qed.

Lemma take_at_Permutation {A : Type} (i : nat) (l : list A) x rest :
  take_at i l = Some (x, rest) -> Permutation (x :: rest) l.
Proof.
  revert i x rest. induction l as [| y l IH]; intros i x rest;
    [destruct i; discriminate |].
  destruct i as [| i]; simpl.
  - intros Ht. inversion Ht. reflexivity.
  - destruct (take_at i l) as [[z rest'] |] eqn:Hi; [| discriminate].
    intros Ht. inversion Ht; subst.
    apply perm_trans with (y :: x :: rest'); [apply perm_swap |].
    constructor. now apply IH with (i := i).
Qed.

(** An arrangement has the elements of the list, each as often. *)
Lemma Permutation_arrange {A : Type} (picks : list nat) (l : list A) :
  Permutation (arrange picks l) l.
Proof.
  revert l. induction picks as [| i picks IH]; intros l; simpl; [reflexivity |].
  destruct (take_at i l) as [[x rest] |] eqn:Hi; [| apply IH].
  rewrite IH. now apply take_at_Permutation with (i := i).
Qed.

Section WithLib.

Context `{PandasLib}.

(** The rows a sort by [col] starts from: the rows of [res] as the library
    leaves their ties. *)
Lemma sort_values_inv res col asc res' :
  sort_values res col asc = Ok res' ->
  columns res' = columns res
  /\ rows res'
     = isort (row_leb res col asc)
             (arrange (sort_ties asc (column_cells res col)) (rows res)).
Proof.
  unfold sort_values. destruct (comparable (column_cells res col)); [| discriminate].
  intros Hs. inversion Hs. simpl. split; reflexivity.
Qed.

Lemma order_step_inv res ob res' :
  order_step res ob = Ok res' ->
  columns res' = columns res
  /\ rows res'
     = if has_column res (fst ob)
       then isort (row_leb res (fst ob) (negb (snd ob)))
                  (arrange (sort_ties (negb (snd ob))
                                      (column_cells res (fst ob)))
                           (rows res))
       else rows res.
Proof.
  unfold order_step. destruct (has_column res (fst ob)).
  - apply sort_values_inv.
  - intros Hs. inversion Hs. split; reflexivity.
Qed.

(** A pass of the ordering stage permutes the rows. *)
Lemma order_step_Permutation res ob res' :
  order_step res ob = Ok res' -> Permutation (rows res') (rows res).
Proof.
  intros Hs. apply order_step_inv in Hs. destruct Hs as [_ ->].
  destruct (has_column res (fst ob)); [| reflexivity].
  rewrite Permutation_isort. apply Permutation_arrange.
Qed.

Lemma order_step_shape res ob res' :
  order_step res ob = Ok res' ->
  columns res' = columns res /\ nrows res' = nrows res.
Proof.
  intros Hs. split; [now apply order_step_inv in Hs |].
  unfold nrows. apply Permutation_length. now apply order_step_Permutation in Hs.
Qed.

Lemma foldM_order_step_shape obs res res' :
  foldM order_step obs res = Ok res' ->
  columns res' = columns res /\ nrows res' = nrows res.
Proof.
  revert res. induction obs as [| ob obs IH]; simpl; intros res Hf.
  - inversion Hf. split; reflexivity.
  - apply bind_Ok_inv in Hf. destruct Hf as [r1 [H1 Hf]].
    apply order_step_shape in H1. apply IH in Hf.
    destruct H1 as [Hc1 Hn1], Hf as [Hc Hn]. split; congruence.
Qed.

(** Ordering keeps the columns and the number of rows. *)
Lemma order_stage_shape res obs res' :
  order_stage res obs = Ok res' ->
  columns res' = columns res /\ nrows res' = nrows res.
Proof.
  apply foldM_order_step_shape.
Qed.

End WithLib.

Lemma columns_limit_stage res lim : columns (limit_stage res lim) = columns res.
Proof.
  unfold limit_stage. destruct lim as [n |]; [| reflexivity].
  destruct (n =? 0); reflexivity.
Qed.

(** The limit keeps a prefix of the rows. *)
Lemma rows_limit_stage res lim :
  exists k, rows (limit_stage res lim) = firstn k (rows res).
Proof.
  unfold limit_stage. destruct lim as [n |].
  - destruct (n =? 0).
    + exists (List.length (rows res)). now rewrite firstn_all.
    + eexists. reflexivity.
  - exists (List.length (rows res)). now rewrite firstn_all.
Qed.

Lemma nrows_limit_stage_mono r1 r2 lim :
  (nrows r2 <= nrows r1)%nat ->
  (nrows (limit_stage r2 lim) <= nrows (limit_stage r1 lim))%nat.
Proof.
  intros Hle. unfold limit_stage. destruct lim as [n |]; [| assumption].
  destruct (n =? 0); [assumption |].
  unfold head, nrows in *. simpl. rewrite !length_firstn.
  destruct (0 <=? n); lia.
Qed.

End OrderFacts.

(** ** Ordering by two keys (claim C5) *)

Section TwoKeyOrder.

Import PyStr Aliases Frame CellOrder Executor OrderFacts CellOrderFacts.

Context `{PandasLib}.

Lemma row_leb_total res col asc r1 r2 :
  row_leb res col asc r1 r2 = true \/ row_leb res col asc r2 r1 = true.
Proof.
  apply key_leb_total.
Qed.

Lemma row_leb_trans res col asc r1 r2 r3 :
  row_leb res col asc r1 r2 = true -> row_leb res col asc r2 r3 = true ->
  row_leb res col asc r1 r3 = true.
Proof.
  apply key_leb_trans.
Qed.

Lemma row_leb_ext d1 d2 col asc r1 r2 :
  colnames d1 = colnames d2 -> row_leb d1 col asc r1 r2 = row_leb d2 col asc r1 r2.
Proof.
  intros Hn. unfold row_leb. now rewrite !(row_get_ext d1 d2).
Qed.

(** The ordering stage with the entries [A] descending, [B] ascending: the
    pass by [B] runs first, the pass by [A] last, on the rows as the pass by
    [B] and the library left them. *)
Lemma order_stage_two_keys res A B res' :
  resolve_col (PStr A) (colnames res) = Some A ->
  resolve_col (PStr B) (colnames res) = Some B ->
  has_column res A = true ->
  has_column res B = true ->
  order_stage res [mkOrderBy (PStr A) true; mkOrderBy (PStr B) false] = Ok res' ->
  columns res' = columns res
  /\ exists l, Permutation l (rows res)
               /\ rows res' = isort (row_leb res A false) l.
Proof.
  intros HA HB HcA HcB. unfold order_stage, resolved_order. simpl.
  rewrite HA, HB. simpl. intros Ho.
  apply bind_Ok_inv in Ho. destruct Ho as [s1 [H1 Ho]].
  apply bind_Ok_inv in Ho. destruct Ho as [s2 [H2 Ho]].
  inversion Ho; subst s2. clear Ho.
  pose proof (order_step_Permutation _ _ _ H1) as Hp1.
  apply order_step_inv in H1. destruct H1 as [Hc1 _].
  assert (Hn1 : colnames s1 = colnames res) by (unfold colnames; now rewrite Hc1).
  apply order_step_inv in H2. simpl in H2.
  assert (HcA1 : has_column s1 A = true) by (unfold has_column; now rewrite Hn1).
  rewrite HcA1 in H2. destruct H2 as [Hc2 Hr2].
  split; [congruence |].
  exists (arrange (sort_ties false (column_cells s1 A)) (rows s1)). split.
  - rewrite Permutation_arrange. exact Hp1.
  - rewrite Hr2. apply isort_ext. intros x y. now apply row_leb_ext.
Qed.

End TwoKeyOrder.

(** C5. With [order_by = [{col: A, desc: true}, {col: B, desc: false}]] the
    passes run from the last entry to the first, so that the rows of the
    result are ordered by A, the greatest first and the missing ones last,
    whatever the library does. The order by B among rows of equal A is what
    the claim adds, and it needs every pass to keep the order of the rows it
    does not tell apart: [sort_values] runs with the default
    [kind="quicksort"], which does not, and with a library that leaves rows
    of equal keys in the reverse of the order they came in the result for
    the scores table has rank 9 before rank 4 at the equal score 3. *)
Theorem C5_order_by_ties_unstable :
  (forall (L : PandasLib) (df : DataFrame) (args : Args) (A B : string)
          (res : DataFrame),
      order_by args = [mkOrderBy (PStr A) true; mkOrderBy (PStr B) false] ->
      Executor.tool_query df args = Ok res ->
      Aliases.resolve_col (PStr A) (Frame.colnames res) = Some A ->
      Aliases.resolve_col (PStr B) (Frame.colnames res) = Some B ->
      Frame.has_column res A = true ->
      Frame.has_column res B = true ->
      StronglySorted
        (fun r1 r2 =>
           CellOrder.key_leb false (Frame.row_get res A r1)
                             (Frame.row_get res A r2) = true)
        (rows res))
  /\ Executor.tool_query (H := Ref.unstable_lib) Examples.scores_table
                         Examples.scores_query
     = Ok Examples.scores_unstable
  /\ ~ StronglySorted
         (fun r1 r2 =>
            CellOrder.key_leb false
              (Frame.row_get Examples.scores_unstable "score" r1)
              (Frame.row_get Examples.scores_unstable "score" r2) = true
            /\ (CellOrder.key_leb false
                  (Frame.row_get Examples.scores_unstable "score" r2)
                  (Frame.row_get Examples.scores_unstable "score" r1) = true ->
                CellOrder.key_leb true
                  (Frame.row_get Examples.scores_unstable "rank" r1)
                  (Frame.row_get Examples.scores_unstable "rank" r2) = true))
         (rows Examples.scores_unstable).
Proof.
  split; [| split].
  - intros L df args A B res Hob Hq HA HB HcA HcB.
    apply tool_query_inv in Hq. destruct Hq as [pre [sorted [_ [Hs Hres]]]].
    rewrite Hob in Hs.
    assert (Hshape := OrderFacts.order_stage_shape _ _ _ Hs).
    destruct Hshape as [Hcs _].
    assert (Hcr : columns res = columns pre)
      by (rewrite Hres, OrderFacts.columns_limit_stage; assumption).
    assert (Hn : Frame.colnames res = Frame.colnames pre)
      by (unfold Frame.colnames; now rewrite Hcr).
    apply order_stage_two_keys in Hs;
      try (rewrite <- Hn; assumption);
      try (unfold Frame.has_column in *; rewrite <- Hn; assumption).
    destruct Hs as [_ [l [_ Hrows]]].
    destruct (OrderFacts.rows_limit_stage sorted (limit args)) as [k Hk].
    rewrite <- Hres in Hk. rewrite Hk, Hrows.
    apply StronglySorted_firstn.
    rewrite (OrderFacts.isort_ext (Executor.row_leb pre A false)
                                  (Executor.row_leb res A false))
      by (intros; apply row_leb_ext; now symmetry).
    apply (isort_sorted row (Executor.row_leb res A false)
                        (row_leb_total res A false) (row_leb_trans res A false)).
  - vm_compute. reflexivity.
  - intros Hs. inversion Hs as [| r0 rs _ Hall]; subst.
    inversion Hall as [| r1 rs' [_ Hb] _]; subst.
    discriminate (Hb eq_refl).
Qed.

(** ** Filter monotonicity (claim C6) *)

Section FilterMonotone.

Import PyStr Aliases Frame CellOrder Tools Executor FilterFacts OrderFacts.

Context `{PandasLib}.

Lemma build_result_inv df args pre :
  build_result df args = Ok pre ->
  exists out1 schema1 out2,
    materialize (normalize_dates (colnames df) df) args (colnames df)
    = Ok (out1, schema1)
    /\ _apply_filters out1 (filters args) schema1 = Ok out2
    /\ project_or_aggregate out2 args schema1 = Ok pre.
Proof.
  unfold build_result. intros Hb.
  apply bind_Ok_inv in Hb. destruct Hb as [[out1 schema1] [Hm Hb]].
  apply bind_Ok_inv in Hb. destruct Hb as [out2 [Hf Hb]].
  exists out1, schema1, out2. auto.
Qed.

Lemma nrows_select_columns out keep : nrows (select_columns out keep) = nrows out.
Proof.
  unfold select_columns, nrows. simpl. apply length_map.
Qed.

Lemma groupby_agg_nrows out group_by agg_map res :
  groupby_agg out group_by agg_map = Ok res ->
  nrows res = List.length (group_keys out group_by).
Proof.
  unfold groupby_agg. destruct (negb (forallb (has_column out) group_by));
    [discriminate |].
  intros Hg. apply bind_Ok_inv in Hg. destruct Hg as [u [_ Hg]].
  apply bind_Ok_inv in Hg. destruct Hg as [rs [Hrs Hg]].
  inversion Hg. unfold nrows. simpl. eapply mapM_length; eassumption.
Qed.

Lemma group_key_ext o1 o2 group_by r :
  columns o2 = columns o1 -> group_key o2 group_by r = group_key o1 group_by r.
Proof.
  intros Hc. unfold group_key. apply map_ext. intros g.
  f_equal. apply row_get_ext. unfold colnames. now rewrite Hc.
Qed.

(** Fewer rows, fewer groups. *)
Lemma group_keys_mono o1 o2 group_by :
  narrows o2 o1 ->
  (List.length (group_keys o2 group_by) <= List.length (group_keys o1 group_by))%nat.
Proof.
  intros [Hc Hr]. unfold group_keys. rewrite !length_isort.
  apply NoDup_incl_length; [apply NoDup_nodup |].
  intros k Hk. apply nodup_In in Hk. apply nodup_In.
  rewrite (map_ext _ _ (fun r => group_key_ext o1 o2 group_by r Hc)) in Hk.
  eapply Subseq_In; [| exact Hk].
  apply Subseq_filter. now apply Subseq_map.
Qed.

Lemma project_or_aggregate_nrows out args schema res :
  project_or_aggregate out args schema = Ok res ->
  nrows res
  = match resolve_list [] (group_by args) schema with
    | [] => nrows out
    | g :: gs => List.length (group_keys out (g :: gs))
    end.
Proof.
  unfold project_or_aggregate.
  destruct (resolve_list [] (group_by args) schema) as [| g gs].
  - intros Hp. inversion Hp. apply nrows_select_columns.
  - intros Hp. apply bind_Ok_inv in Hp. destruct Hp as [r [Hr Hp]].
    apply groupby_agg_nrows in Hr. rewrite <- Hr.
    destruct (dict_get _ "churn") as [how |]; [| now inversion Hp].
    destruct (String.eqb how "mean" && has_column r "churn"); now inversion Hp.
Qed.

Lemma tool_query_nrows df args res :
  tool_query df args = Ok res ->
  exists pre, build_result df args = Ok pre
              /\ nrows res = nrows (limit_stage pre (limit args)).
Proof.
  intros Hq. apply tool_query_inv in Hq.
  destruct Hq as [pre [sorted [Hpre [Hs ->]]]].
  exists pre. split; [assumption |].
  apply order_stage_shape in Hs. destruct Hs as [_ Hn].
  apply Nat.le_antisymm; apply nrows_limit_stage_mono; lia.
Qed.

End FilterMonotone.

(** C6. Adding one filter at the end of the filter list never adds rows to
    the result of [tool_query]; in [_apply_filters] the table after
    [F ++ [f]] has the columns of the table after [F] and some of its rows,
    in their order. *)
Theorem C6_filter_monotone (L : PandasLib) (df : DataFrame) (args : Args)
        (F : list Filter) (f : Filter) :
  (forall r1 r2,
      Executor.tool_query df (with_filters args F) = Ok r1 ->
      Executor.tool_query df (with_filters args (F ++ [f])) = Ok r2 ->
      (Frame.nrows r2 <= Frame.nrows r1)%nat)
  /\ (forall schema o1 o2,
         Tools._apply_filters df F schema = Ok o1 ->
         Tools._apply_filters df (F ++ [f]) schema = Ok o2 ->
         narrows o2 o1).
Proof.
  assert (Hnarrow : forall out schema o1 o2,
             Tools._apply_filters out F schema = Ok o1 ->
             Tools._apply_filters out (F ++ [f]) schema = Ok o2 ->
             narrows o2 o1).
  { intros out schema o1 o2 H1 H2.
    rewrite FilterFacts.apply_filters_snoc, H1 in H2. simpl in H2.
    now apply FilterFacts.apply_filter_narrows in H2. }
  split; [| apply Hnarrow].
  intros r1 r2 H1 H2.
  apply tool_query_nrows in H1. destruct H1 as [p1 [Hb1 ->]].
  apply tool_query_nrows in H2. destruct H2 as [p2 [Hb2 ->]].
  apply OrderFacts.nrows_limit_stage_mono.
  apply build_result_inv in Hb1. destruct Hb1 as [a1 [s1 [b1 [Hm1 [Hf1 Hp1]]]]].
  apply build_result_inv in Hb2. destruct Hb2 as [a2 [s2 [b2 [Hm2 [Hf2 Hp2]]]]].
  change (Executor.materialize
            (Executor.normalize_dates (Frame.colnames df) df)
            (with_filters args F) (Frame.colnames df) = Ok (a2, s2)) in Hm2.
  rewrite Hm1 in Hm2. inversion Hm2; subst a2 s2. clear Hm2.
  simpl in Hf1, Hf2.
  pose proof (Hnarrow _ _ _ _ Hf1 Hf2) as Hn.
  apply project_or_aggregate_nrows in Hp1.
  apply project_or_aggregate_nrows in Hp2.
  simpl in Hp1, Hp2. rewrite Hp1, Hp2.
  destruct (Aliases.resolve_list [] (group_by args) s1) as [| g gs].
  - apply FilterFacts.Subseq_length. apply Hn.
  - now apply group_keys_mono.
Qed.

(** ** The helper column in the result (claim C10) *)

Section HelperColumn.

Import PyStr Aliases Frame CellOrder Tools Executor.
Import FrameFacts FilterFacts OrderFacts MaterializeFacts NormalizeFacts.

Context `{PandasLib}.

Lemma colnames_add_name df c t vals :
  colnames (set_column df c t vals) = add_name c (colnames df).
Proof.
  apply colnames_set_column.
Qed.

Lemma filter_has_column_all out :
  filter (has_column out) (colnames out) = colnames out.
Proof.
  apply forallb_filter_id. apply forallb_forall. intros c Hc.
  now apply has_column_In.
Qed.

Lemma colnames_select_columns out keep : colnames (select_columns out keep) = keep.
Proof.
  unfold select_columns, colnames. simpl. rewrite map_map. simpl. apply map_id.
Qed.

Lemma index_of_cons_ne n names c :
  n <> c -> index_of c (n :: names) = option_map S (index_of c names).
Proof.
  intros Hne. simpl. destruct (String.eqb_spec n c); [contradiction | reflexivity].
Qed.

Lemma project_row_all names (r : row) :
  NoDup names -> List.length r = List.length names ->
  map (fun c => match index_of c names with
                | Some i => cell_at i r
                | None => VNull
                end) names = r.
Proof.
  intros Hnd. revert r. induction Hnd as [| n names Hn Hnd IH]; intros r Hr.
  - destruct r; [reflexivity | discriminate].
  - destruct r as [| x r]; [discriminate |]. simpl.
    rewrite String.eqb_refl. unfold cell_at at 1. simpl. f_equal.
    transitivity (map (fun c => match index_of c names with
                                | Some i => cell_at i r
                                | None => VNull
                                end) names);
      [| apply IH; simpl in Hr; lia].
    apply map_ext_in. intros c Hc.
    destruct (String.eqb_spec n c) as [-> | Hne]; [contradiction |].
    destruct (index_of c names); reflexivity.
Qed.

Lemma dict_get_own_dtype (cols : list (string * dtype)) :
  NoDup (map fst cols) ->
  map (fun c => (c, match dict_get cols c with Some t => t | None => DObj end))
      (map fst cols) = cols.
Proof.
  induction cols as [| [n t] cols IH]; simpl; intros Hnd; [reflexivity |].
  inversion Hnd as [| ? ? Hn Hnd']; subst.
  rewrite String.eqb_refl. f_equal.
  transitivity (map (fun c => (c, match dict_get cols c with
                                  | Some t => t
                                  | None => DObj
                                  end)) (map fst cols));
    [| now apply IH].
  apply map_ext_in. intros c Hc.
  destruct (String.eqb_spec n c) as [-> | Hne]; [contradiction | reflexivity].
Qed.

(** Keeping all the columns keeps the table. *)
Lemma select_columns_all out :
  wf_rows out -> NoDup (colnames out) ->
  select_columns out (colnames out) = out.
Proof.
  intros Hwf Hnd. destruct out as [cols rs]. unfold select_columns, colnames in *.
  simpl in *. f_equal.
  - unfold col_dtype. simpl. now apply dict_get_own_dtype.
  - unfold wf_rows in Hwf. simpl in Hwf. rewrite Forall_forall in Hwf.
    transitivity (map (fun r : row => r) rs); [| apply map_id].
    apply map_ext_in. intros r Hr.
    unfold row_get, col_index, colnames. simpl.
    apply project_row_all; [assumption |].
    rewrite length_map. now apply Hwf.
Qed.

Lemma narrows_wf_rows o2 o1 : narrows o2 o1 -> wf_rows o1 -> wf_rows o2.
Proof.
  intros [Hc Hr] Hwf. unfold wf_rows in *. rewrite Hc.
  rewrite Forall_forall in *. intros r Hin. apply Hwf.
  eapply Subseq_In; eauto.
Qed.

Lemma foldM_order_step_In obs res res' r :
  foldM order_step obs res = Ok res' -> In r (rows res') -> In r (rows res).
Proof.
  revert res. induction obs as [| ob obs IH]; simpl; intros res Hf Hin.
  - inversion Hf; subst. assumption.
  - apply bind_Ok_inv in Hf. destruct Hf as [r1 [H1 Hf]].
    specialize (IH _ Hf Hin). apply order_step_Permutation in H1.
    eapply Permutation_in; [exact H1 | exact IH].
Qed.

Lemma limit_stage_In res lim r :
  In r (rows (limit_stage res lim)) -> In r (rows res).
Proof.
  destruct (rows_limit_stage res lim) as [k ->]. intros Hin.
  rewrite <- (firstn_skipn k (rows res)). apply in_or_app. now left.
Qed.

End HelperColumn.

Lemma NoDup_snoc {A : Type} (l : list A) (c : A) :
  NoDup l -> ~ In c l -> NoDup (l ++ [c]).
Proof.
  intros Hnd Hc. induction Hnd as [| x l Hx Hnd IH]; simpl.
  - constructor; [tauto | constructor].
  - constructor.
    + rewrite in_app_iff. simpl. intros [Hi | [He | []]]; [contradiction |].
      apply Hc. now left.
    + apply IH. intros Hi. apply Hc. now right.
Qed.

Lemma Forall2_In_r {A B : Type} (P : A -> B -> Prop) xs ys y :
  Forall2 P xs ys -> In y ys -> exists x, In x xs /\ P x y.
Proof.
  induction 1 as [| x y' xs ys Hxy _ IH]; simpl; [contradiction |].
  intros [<- | Hy].
  - exists x. auto.
  - destruct (IH Hy) as [x' [Hx' Hp]]. exists x'. auto.
Qed.

(** C10. When the derived metric is materialized, [group_by] is empty and
    [select] resolves to nothing, the result has the columns of the source
    followed by [overlap_months] and [period_revenue_usd] (each added unless
    the source already has a column of that name); and on a source without
    these two columns every row of the result is a row of the normalized
    source followed by the month count of its overlap and by its revenue. *)
Theorem C10_overlap_months_column (L : PandasLib) (df : DataFrame) (args : Args)
        (res : DataFrame) :
  Executor.tool_query df args = Ok res ->
  revenue_triggered args ->
  has_revenue_sources (Frame.colnames df) ->
  group_by args = [] ->
  Aliases._fix_list
    (select args)
    (add_name "period_revenue_usd" (add_name "overlap_months" (Frame.colnames df)))
  = [] ->
  (Frame.colnames res
   = add_name "period_revenue_usd" (add_name "overlap_months" (Frame.colnames df))
   /\ In "overlap_months" (Frame.colnames res)
   /\ In "period_revenue_usd" (Frame.colnames res)
   /\ incl (Frame.colnames df) (Frame.colnames res))
  /\ (wf_rows df ->
      NoDup (Frame.colnames df) ->
      Frame.has_column df "overlap_months" = false ->
      Frame.has_column df "period_revenue_usd" = false ->
      Frame.col_dtype df "mrr_usd" = DNum ->
      let out := Executor.normalize_dates (Frame.colnames df) df in
      exists ws we,
        Executor.window_bound (time_window args) "start" = Ok ws
        /\ Executor.window_bound (time_window args) "end" = Ok we
        /\ forall r',
            In r' (rows res) ->
            exists r k,
              In r (rows out)
              /\ Tools._overlap_months
                   (Executor.pydate_of_cell (Frame.row_get out "contract_start" r))
                   (Executor.pydate_of_cell (Frame.row_get out "contract_end" r))
                   (fst (effective_window ws we))
                   (snd (effective_window ws we)) = Ok k
              /\ r' = r ++ [VNum (inject_Z k);
                            Executor.revenue_cell (Frame.row_get out "mrr_usd" r) k]
              /\ Frame.row_get res "overlap_months" r' = VNum (inject_Z k)).
Proof.
  intros Hq Htrig Hsrc Hgb Hsel.
  apply tool_query_inv in Hq. destruct Hq as [pre [sorted [Hb [Hs Hres]]]].
  apply build_result_inv in Hb. destruct Hb as [out1 [schema1 [out2 [Hm [Hf Hp]]]]].
  set (out := Executor.normalize_dates (Frame.colnames df) df) in *.
  assert (Hnames : Frame.colnames out = Frame.colnames df)
    by apply NormalizeFacts.colnames_normalize_dates.
  assert (Hcond : (computed args || Executor.wants_period_rev args)
                  && Executor.subset Executor.revenue_sources (Frame.colnames df)
                  = true).
  { apply andb_true_iff. split.
    - now apply MaterializeFacts.triggered_spec.
    - now apply MaterializeFacts.subset_sources_spec. }
  pose proof Hm as Hm0.
  apply MaterializeFacts.materialize_inv in Hm.
  destruct Hm as [ws [we [Hws [Hwe [[Hno _] | [_ Hyes]]]]]]; [congruence |].
  cbv zeta in Hyes. destruct Hyes as [months [t [revenue [_ [_ [Hout1 Hschema]]]]]].
  assert (Hn1 : Frame.colnames out1
                = add_name "period_revenue_usd"
                           (add_name "overlap_months" (Frame.colnames df))).
  { rewrite Hout1, !colnames_add_name. now rewrite Hnames. }
  apply FilterFacts.apply_filters_narrows in Hf.
  assert (Hn2 : Frame.colnames out2 = Frame.colnames out1)
    by (unfold Frame.colnames; destruct Hf as [Hc _]; now rewrite Hc).
  unfold Executor.project_or_aggregate in Hp.
  rewrite Hgb in Hp. simpl in Hp.
  unfold Aliases._fix_list in Hsel.
  rewrite Hschema, Hn1, Hsel in Hp.
  rewrite filter_has_column_all in Hp. inversion Hp as [Hpre]. clear Hp.
  apply OrderFacts.foldM_order_step_shape in Hs as Hshape.
  destruct Hshape as [Hcs _].
  assert (Hnr : Frame.colnames res = Frame.colnames out2).
  { rewrite Hres. unfold Frame.colnames.
    rewrite OrderFacts.columns_limit_stage, Hcs, <- Hpre.
    apply colnames_select_columns. }
  split.
  - rewrite Hnr, Hn2, Hn1. split; [reflexivity |].
    unfold add_name.
    repeat split.
    + destruct (PyStr.mem "overlap_months" (Frame.colnames df)) eqn:Ho.
      * apply mem_In in Ho.
        destruct (PyStr.mem "period_revenue_usd" (Frame.colnames df));
          [| apply in_or_app; left]; assumption.
      * destruct (PyStr.mem "period_revenue_usd" _);
          [| apply in_or_app; left]; apply in_or_app; right; now left.
    + destruct (PyStr.mem "period_revenue_usd" _) eqn:Hr.
      * now apply mem_In in Hr.
      * apply in_or_app. right. now left.
    + intros c Hc.
      destruct (PyStr.mem "overlap_months" (Frame.colnames df));
        destruct (PyStr.mem "period_revenue_usd" _);
        repeat (apply in_or_app; left); assumption.
  - intros Hwf Hnd Hov Hrev Hnum out0.
    assert (Hwf0 : wf_rows out) by now apply NormalizeFacts.wf_rows_normalize_dates.
    assert (Hf1 : ~ In "overlap_months" (Frame.colnames out))
      by (rewrite Hnames; now apply mem_false).
    assert (Hf2 : ~ In "period_revenue_usd" (Frame.colnames out))
      by (rewrite Hnames; now apply mem_false).
    assert (Hnum' : Frame.col_dtype out "mrr_usd" = DNum).
    { unfold out. rewrite NormalizeFacts.col_dtype_normalize_dates; [assumption |].
      simpl. intros [He | [He | [He | []]]]; discriminate. }
    rewrite <- Hnames in Hm0, Hcond.
    destruct (MaterializeFacts.materialize_rows _ _ _ _ Hm0 Hcond Hwf0 Hf1 Hf2 Hnum')
      as [ws' [we' [Hws' [Hwe' Hrows]]]].
    rewrite Hws in Hws'. rewrite Hwe in Hwe'.
    inversion Hws'; inversion Hwe'; subst ws' we'.
    exists ws, we. split; [assumption |]. split; [assumption |].
    assert (Hwf1 : wf_rows out1)
      by (rewrite Hout1; now repeat apply FrameFacts.wf_rows_set_column).
    assert (Hnd1 : NoDup (Frame.colnames out1)).
    { rewrite Hn1. unfold add_name. rewrite Hnames in Hf1, Hf2.
      apply mem_false in Hf1 as Hm1. rewrite Hm1.
      assert (Hm2 : PyStr.mem "period_revenue_usd"
                              (Frame.colnames df ++ ["overlap_months"]) = false).
      { apply mem_false. rewrite in_app_iff. simpl.
        intros [Hi | [He | []]]; [contradiction | discriminate]. }
      rewrite Hm2. apply NoDup_snoc; [now apply NoDup_snoc |].
      now apply mem_false. }
    assert (Hwf2 : wf_rows out2) by (eapply narrows_wf_rows; eauto).
    assert (Hpre2 : pre = out2).
    { rewrite <- Hpre. apply select_columns_all; [assumption |].
      now rewrite Hn2. }
    intros r' Hr'.
    assert (Hin1 : In r' (rows out1)).
    { rewrite Hres in Hr'. apply limit_stage_In in Hr'.
      eapply foldM_order_step_In in Hr'; [| exact Hs].
      rewrite Hpre2 in Hr'. destruct Hf as [_ Hsub].
      eapply FilterFacts.Subseq_In; eauto. }
    destruct (Forall2_In_r _ _ _ _ Hrows Hin1) as [r [Hr [k [Hk Hrk]]]].
    exists r, k. split; [assumption |]. split; [exact Hk |]. split; [exact Hrk |].
    rewrite (OrderFacts.row_get_ext res out1)
      by (rewrite Hnr, Hn2; reflexivity).
    rewrite Hrk, Hout1.
    change (r ++ [Executor.months_cell k;
                  Executor.revenue_cell (Frame.row_get out "mrr_usd" r) k])
      with (r ++ [Executor.months_cell k]
              ++ [Executor.revenue_cell (Frame.row_get out "mrr_usd" r) k]).
    rewrite app_assoc.
    unfold wf_rows in Hwf0. rewrite Forall_forall in Hwf0.
    rewrite FrameFacts.row_get_extended.
    + apply FrameFacts.row_get_added; [assumption | now apply Hwf0].
    + rewrite FrameFacts.In_colnames_set_column.
      intros [He | Hi]; [discriminate | contradiction].
    + apply FrameFacts.In_colnames_set_column. now left.
    + unfold Frame.set_column, Frame.col_index.
      apply FrameFacts.index_of_None in Hf1. rewrite Hf1. simpl.
      rewrite !length_app. simpl. rewrite (Hwf0 r Hr). reflexivity.
Qed.

Lemma C10_overlap_months_column_witness :
  Frame.colnames (Examples.contract_result 13 1300)
  = add_name "period_revenue_usd"
             (add_name "overlap_months" (Frame.colnames Examples.contract_table))
  /\ exists ws we,
      Executor.window_bound (H := Ref.ref_lib)
                            (time_window Examples.computed_query) "start" = Ok ws
      /\ Executor.window_bound (H := Ref.ref_lib)
                               (time_window Examples.computed_query) "end" = Ok we.
Proof.
  assert (Hq : Executor.tool_query (H := Ref.ref_lib) Examples.contract_table
                                   Examples.computed_query
               = Ok (Examples.contract_result 13 1300))
    by (vm_compute; reflexivity).
  assert (Ht : revenue_triggered Examples.computed_query) by (left; reflexivity).
  assert (Hs : has_revenue_sources (Frame.colnames Examples.contract_table))
    by (repeat split; simpl; auto).
  destruct (C10_overlap_months_column Ref.ref_lib _ _ _ Hq Ht Hs eq_refl eq_refl)
    as [[Hnames _] Hrows].
  split; [exact Hnames |].
  destruct Hrows as [ws [we [Hws [Hwe _]]]].
  - apply FrameFacts.wf_rowsb_spec. reflexivity.
  - simpl. repeat constructor; simpl; intuition discriminate.
  - reflexivity.
  - reflexivity.
  - reflexivity.
  - exists ws, we. split; assumption.
Defined.

Lemma C6_filter_monotone_witness :
  (Frame.nrows Examples.high_scores <= Frame.nrows Examples.scores_table)%nat
  /\ narrows Examples.high_scores Examples.scores_table.
Proof.
  destruct (C6_filter_monotone Ref.ref_lib Examples.scores_table
                               Examples.plain_query [] Examples.score_filter)
    as [Hrows Hnarrow].
  split.
  - apply Hrows; reflexivity.
  - apply (Hnarrow (Frame.colnames Examples.scores_table)); reflexivity.
Defined.

(** ** The source table is never mutated (claim C7) *)

Module HeapFacts.

Import PyStr Aliases Frame CellOrder Tools Executor Heap.

Lemma nth_error_last {A : Type} (st : list A) (x : A) :
  nth_error (st ++ [x]) (List.length st) = Some x.
Proof.
  rewrite nth_error_app2 by lia. now rewrite Nat.sub_diag.
Qed.

Lemma replace_nth_last {A : Type} (st : list A) (x y : A) :
  replace_nth (List.length st) y (st ++ [x]) = st ++ [y].
Proof.
  induction st as [| z st IH]; simpl; [reflexivity | now rewrite IH].
Qed.

Lemma nth_error_extended {A : Type} (st ext : list A) l x :
  nth_error st l = Some x -> nth_error (st ++ ext) l = Some x.
Proof.
  intros Hl. rewrite nth_error_app1; [assumption |].
  apply nth_error_Some. congruence.
Qed.

Lemma read_at st l o : nth_error st l = Some o -> read l st = Ok (o, st).
Proof.
  unfold read. now intros ->.
Qed.

Lemma update_last st o f :
  update (List.length st) f (st ++ [o]) = Ok (tt, st ++ [f o]).
Proof.
  unfold update. rewrite nth_error_last. now rewrite replace_nth_last.
Qed.

Lemma copy_at st l o :
  nth_error st l = Some o -> copy l st = Ok (List.length st, st ++ [o]).
Proof.
  intros Hl. unfold copy, bindM. now rewrite (read_at _ _ _ Hl).
Qed.

Lemma bindM_lift {A B : Type} (r : result A) (k : A -> M B) st :
  bindM (lift r) k st = match r with Ok a => k a st | Raise e => Raise e end.
Proof.
  destruct r; reflexivity.
Qed.

Lemma bindM_assoc {A B C : Type} (m : M A) (f : A -> M B) (g : B -> M C) st :
  bindM (bindM m f) g st = bindM m (fun x => bindM (f x) g) st.
Proof.
  unfold bindM. destruct (m st) as [[a st'] | e]; reflexivity.
Qed.

Lemma bindM_ret {A B : Type} (a : A) (k : A -> M B) st :
  bindM (ret a) k st = k a st.
Proof.
  reflexivity.
Qed.

Lemma bindM_read {B : Type} l (k : DataFrame -> M B) st o :
  nth_error st l = Some o -> bindM (read l) k st = k o st.
Proof.
  intros Hl. unfold bindM. now rewrite (read_at _ _ _ Hl).
Qed.

Lemma bindM_read_last {B : Type} (k : DataFrame -> M B) st o :
  bindM (read (List.length st)) k (st ++ [o]) = k o (st ++ [o]).
Proof.
  apply bindM_read. apply nth_error_last.
Qed.

Lemma bindM_alloc {B : Type} o (k : loc -> M B) st :
  bindM (alloc o) k st = k (List.length st) (st ++ [o]).
Proof.
  reflexivity.
Qed.

Lemma bindM_setitem_last {B : Type} c t vals (k : unit -> M B) st o :
  bindM (setitem (List.length st) c t vals) k (st ++ [o])
  = k tt (st ++ [set_column o c t vals]).
Proof.
  unfold bindM, setitem. now rewrite update_last.
Qed.

Section WithLib.

Context `{PandasLib}.

(** The normalization loop updates the copy in place. *)
Lemma normalize_dates_h_spec schema st o :
  normalize_dates_h schema (List.length st) (st ++ [o])
  = Ok (tt, st ++ [normalize_dates schema o]).
Proof.
  unfold normalize_dates_h, normalize_dates. generalize DATE_COLS. intros cs.
  revert o. induction cs as [| c cs IH]; intros o; [reflexivity |].
  cbn [foldMh fold_left]. destruct (mem c schema).
  - rewrite bindM_assoc, bindM_read_last, bindM_setitem_last. apply IH.
  - rewrite bindM_ret. apply IH.
Qed.

(** The derived-metric stage updates the copy in place. *)
Lemma materialize_h_spec args schema st o :
  materialize_h (List.length st) args schema (st ++ [o])
  = match materialize o args schema with
    | Ok (o', schema') => Ok (schema', st ++ [o'])
    | Raise e => Raise e
    end.
Proof.
  unfold materialize_h, materialize.
  rewrite bindM_lift.
  destruct (window_bound (time_window args) "start") as [ws | e]; [| reflexivity].
  rewrite bindM_lift. cbn [bind].
  destruct (window_bound (time_window args) "end") as [we | e]; [| reflexivity].
  cbn [bind].
  destruct ((computed args || wants_period_rev args)
            && subset revenue_sources schema); [| reflexivity].
  destruct (if negb (pydate_truthy ws && pydate_truthy we)
            then default_window else (ws, we)) as [ws' we'].
  rewrite bindM_read_last, bindM_lift.
  destruct (match rows o with [] => apply_on_empty | _ :: _ => Ok tt end)
    as [u | e]; [| reflexivity].
  cbn [bind]. rewrite bindM_lift.
  destruct (mapM (row_overlap o ws' we') (rows o)) as [months | e]; [| reflexivity].
  cbn [bind]. rewrite bindM_setitem_last, bindM_read_last, bindM_lift.
  destruct (period_revenue _ months) as [[t revenue] | e]; [| reflexivity].
  cbn [bind]. rewrite bindM_setitem_last, bindM_read_last.
  reflexivity.
Qed.

Lemma runs_to_extended (m : M loc) s o1 r :
  runs_to m (s ++ [o1]) r ->
  match r with
  | Ok x => exists l ext, m (s ++ [o1]) = Ok (l, s ++ ext)
                          /\ nth_error (s ++ ext) l = Some x
  | Raise e => m (s ++ [o1]) = Raise e
  end.
Proof.
  destruct r as [x | e]; simpl; [| auto].
  intros [l [ext [Hrun Hl]]]. exists l, ([o1] ++ ext).
  rewrite app_assoc. auto.
Qed.

Lemma filter_loop_spec schema fs s l o :
  nth_error s l = Some o ->
  runs_to (foldMh (filter_step_h schema) fs l) s
          (foldM (apply_filter schema) fs o).
Proof.
  revert s l o. induction fs as [| f fs IH]; intros s l o Hl.
  - simpl. exists l, []. rewrite app_nil_r. auto.
  - cbn [foldM foldMh]. unfold apply_filter at 1, filter_step_h at 1.
    unfold runs_to.
    rewrite bindM_assoc, (bindM_read _ _ _ _ Hl), bindM_assoc, bindM_lift.
    destruct (filter_step schema o f) as [[o1 |] | e]; cbn [bind rebound].
    + rewrite bindM_alloc.
      specialize (IH (s ++ [o1]) (List.length s) o1 (nth_error_last _ _)).
      apply runs_to_extended in IH.
      destruct (foldM (apply_filter schema) fs o1); exact IH.
    + rewrite bindM_ret. apply (IH s l o Hl).
    + reflexivity.
Qed.

Lemma apply_filters_h_spec schema fs s l o :
  nth_error s l = Some o ->
  runs_to (_apply_filters_h l fs schema) s (_apply_filters o fs schema).
Proof.
  intros Hl. unfold _apply_filters_h, _apply_filters.
  destruct fs as [| f fs].
  - simpl. exists l, []. rewrite app_nil_r. auto.
  - unfold runs_to. unfold copy. rewrite bindM_assoc, (bindM_read _ _ _ _ Hl).
    rewrite bindM_alloc.
    pose proof (filter_loop_spec schema (f :: fs) (s ++ [o]) (List.length s) o
                                 (nth_error_last _ _)) as Hloop.
    apply runs_to_extended in Hloop.
    destruct (foldM (apply_filter schema) (f :: fs) o); exact Hloop.
Qed.

Lemma order_loop_spec obs s l o :
  nth_error s l = Some o ->
  runs_to (foldMh order_step_h obs l) s (foldM order_step obs o).
Proof.
  revert s l o. induction obs as [| ob obs IH]; intros s l o Hl.
  - simpl. exists l, []. rewrite app_nil_r. auto.
  - cbn [foldM foldMh]. unfold order_step at 1, order_step_h at 1.
    unfold runs_to.
    rewrite bindM_assoc, (bindM_read _ _ _ _ Hl).
    destruct (has_column o (fst ob)).
    + rewrite bindM_assoc, bindM_lift.
      destruct (sort_values o (fst ob) (negb (snd ob))) as [o1 | e]; cbn [bind];
        [| reflexivity].
      rewrite bindM_alloc.
      specialize (IH (s ++ [o1]) (List.length s) o1 (nth_error_last _ _)).
      apply runs_to_extended in IH.
      destruct (foldM order_step obs o1); exact IH.
    + rewrite bindM_ret. cbn [bind]. apply (IH s l o Hl).
Qed.

Lemma order_stage_h_spec obs s l o :
  nth_error s l = Some o ->
  runs_to (order_stage_h l obs) s (order_stage o obs).
Proof.
  intros Hl. unfold order_stage_h, order_stage, runs_to.
  rewrite (bindM_read _ _ _ _ Hl).
  apply (order_loop_spec _ s l o Hl).
Qed.

Lemma limit_stage_h_spec lim s l o :
  nth_error s l = Some o ->
  exists l' ext,
    limit_stage_h l lim s = Ok (l', s ++ ext)
    /\ nth_error (s ++ ext) l' = Some (limit_stage o lim).
Proof.
  intros Hl. unfold limit_stage_h, limit_stage.
  destruct lim as [n |].
  - destruct (n =? 0).
    + exists l, []. rewrite app_nil_r. auto.
    + rewrite (bindM_read _ _ _ _ Hl). exists (List.length s), [head o n].
      split; [reflexivity | apply nth_error_last].
  - exists l, []. rewrite app_nil_r. auto.
Qed.

Lemma bindM_materialize_h {B : Type} args schema st o (k : list string -> M B) :
  bindM (materialize_h (List.length st) args schema) k (st ++ [o])
  = match materialize o args schema with
    | Ok (o', schema') => k schema' (st ++ [o'])
    | Raise e => Raise e
    end.
Proof.
  unfold bindM. rewrite materialize_h_spec.
  destruct (materialize o args schema) as [[o' schema'] | e]; reflexivity.
Qed.

Lemma bindM_run {A B : Type} (m : M A) (k : A -> M B) s a s' :
  m s = Ok (a, s') -> bindM m k s = k a s'.
Proof.
  intros Hm. unfold bindM. now rewrite Hm.
Qed.

Lemma bindM_raise {A B : Type} (m : M A) (k : A -> M B) s e :
  m s = Raise e -> bindM m k s = Raise e.
Proof.
  intros Hm. unfold bindM. now rewrite Hm.
Qed.

(** The run over the store computes what the pure executor computes, in a
    store that has only grown. *)
Lemma tool_query_h_spec st df src args :
  nth_error st df = Some src ->
  match tool_query src args with
  | Ok res =>
      exists ext,
        tool_query_h df args st = Ok (List.length (st ++ ext), (st ++ ext) ++ [res])
  | Raise e => tool_query_h df args st = Raise e
  end.
Proof.
  intros Hdf. unfold tool_query_h, tool_query, build_result.
  rewrite (bindM_read _ _ _ _ Hdf). unfold copy.
  rewrite bindM_assoc, (bindM_read _ _ _ _ Hdf), bindM_alloc.
  rewrite (bindM_run _ _ _ _ _ (normalize_dates_h_spec _ _ _)).
  rewrite bindM_materialize_h.
  destruct (materialize (normalize_dates (colnames src) src) args (colnames src))
    as [[o1 s1] | e]; cbn [bind]; [| reflexivity].
  pose proof (apply_filters_h_spec s1 (filters args) (st ++ [o1]) (List.length st)
                                   o1 (nth_error_last _ _)) as Hf.
  destruct (_apply_filters o1 (filters args) s1) as [o2 | e]; cbn [bind];
    [| now rewrite (bindM_raise _ _ _ _ Hf)].
  destruct Hf as [l2 [ext2 [Hrun2 Hl2]]].
  rewrite (bindM_run _ _ _ _ _ Hrun2), (bindM_read _ _ _ _ Hl2), bindM_lift.
  destruct (project_or_aggregate o2 args s1) as [p | e]; cbn [bind];
    [| reflexivity].
  rewrite bindM_alloc.
  pose proof (order_stage_h_spec (order_by args) _ _ p
                                 (nth_error_last ((st ++ [o1]) ++ ext2) p)) as Ho.
  destruct (order_stage p (order_by args)) as [sorted | e]; cbn [bind];
    [| now rewrite (bindM_raise _ _ _ _ Ho)].
  destruct Ho as [l4 [ext4 [Hrun4 Hl4]]].
  rewrite (bindM_run _ _ _ _ _ Hrun4).
  destruct (limit_stage_h_spec (limit args) _ _ _ Hl4) as [l5 [ext5 [Hrun5 Hl5]]].
  rewrite (bindM_run _ _ _ _ _ Hrun5), (bindM_read _ _ _ _ Hl5).
  unfold alloc.
  exists ([o1] ++ ext2 ++ [p] ++ ext4 ++ ext5).
  repeat rewrite app_assoc. reflexivity.
Qed.

End WithLib.

End HeapFacts.

(** C7. A run of [tool_query] on the frame at a location of a store leaves
    that frame, and every frame the store held, as it was: the item
    assignments go to the copy made at the start, every later stage
    allocates, and the result is a new frame, equal to the result of the
    pure executor on the source. *)
Theorem C7_source_unchanged (L : PandasLib) (st : Heap.store) (df : Heap.loc)
        (src : DataFrame) (args : Args) (l : Heap.loc) (st' : Heap.store) :
  nth_error st df = Some src ->
  Heap.tool_query_h df args st = Ok (l, st') ->
  nth_error st' df = Some src
  /\ (forall l0 o, nth_error st l0 = Some o -> nth_error st' l0 = Some o)
  /\ l <> df
  /\ exists res,
      Executor.tool_query src args = Ok res /\ nth_error st' l = Some res.
Proof.
  intros Hdf Hrun.
  pose proof (HeapFacts.tool_query_h_spec st df src args Hdf) as Hspec.
  destruct (Executor.tool_query src args) as [res | e]; [| congruence].
  destruct Hspec as [ext Hspec]. rewrite Hspec in Hrun.
  inversion Hrun; subst l st'. clear Hrun.
  assert (Hold : forall l0 o, nth_error st l0 = Some o ->
                              nth_error ((st ++ ext) ++ [res]) l0 = Some o).
  { intros l0 o Hl0. now repeat apply HeapFacts.nth_error_extended. }
  split; [now apply Hold |]. split; [exact Hold |]. split.
  - assert (df < List.length st)%nat by (apply nth_error_Some; congruence).
    rewrite length_app. lia.
  - exists res. split; [reflexivity | apply HeapFacts.nth_error_last].
Qed.

Lemma C7_source_unchanged_witness :
  nth_error Examples.store_after 0%nat = Some Examples.contract_table
  /\ Examples.result_loc <> 0%nat.
Proof.
  destruct (C7_source_unchanged Ref.ref_lib Examples.store_before 0%nat
                                Examples.contract_table Examples.computed_query
                                Examples.result_loc Examples.store_after)
    as [Hsame [_ [Hfresh _]]].
  - reflexivity.
  - vm_compute. reflexivity.
  - split; assumption.
Defined.

(** * Further properties *)

(** ** Names and their resolution *)

Module ResolveFacts.

Import PyStr Aliases.

Lemma rstrip_cons c s :
  rstrip (String c s)
  = match rstrip s with
    | EmptyString => if is_space c then EmptyString else String c EmptyString
    | r => String c r
    end.
Proof.
  reflexivity.
Qed.

Lemma rstrip_idem s : rstrip (rstrip s) = rstrip s.
Proof.
  induction s as [| c s IH]; [reflexivity |]. rewrite rstrip_cons.
  destruct (rstrip s) as [| d r] eqn:Hr.
  - destruct (is_space c) eqn:Hc; [reflexivity |].
    rewrite rstrip_cons. simpl. now rewrite Hc.
  - rewrite rstrip_cons, IH. reflexivity.
Qed.

Lemma no_lead_lstrip s : no_lead (lstrip s).
Proof.
  induction s as [| c s IH]; simpl; [exact I |].
  destruct (is_space c) eqn:Hc; [assumption | exact Hc].
Qed.

Lemma lstrip_no_lead s : no_lead s -> lstrip s = s.
Proof.
  destruct s as [| c s]; simpl; [reflexivity |]. now intros ->.
Qed.

Lemma no_lead_rstrip s : no_lead s -> no_lead (rstrip s).
Proof.
  destruct s as [| c s]; simpl; [trivial |]. intros Hc.
  destruct (rstrip s); [rewrite Hc |]; exact Hc.
Qed.

(** [s.strip().strip() == s.strip()] *)
Lemma strip_idem s : strip (strip s) = strip s.
Proof.
  unfold strip.
  rewrite (lstrip_no_lead (rstrip (lstrip s)))
    by apply no_lead_rstrip, no_lead_lstrip.
  apply rstrip_idem.
Qed.

Lemma dict_get_In {V : Type} (d : list (string * V)) k v :
  dict_get d k = Some v -> In (k, v) d.
Proof.
  induction d as [| [k' v'] d IH]; simpl; [discriminate |].
  destruct (String.eqb_spec k' k) as [-> | _].
  - intros Hv. inversion Hv. now left.
  - intros Hv. right. now apply IH.
Qed.

Lemma alias_targets_stripped :
  Forall (fun kv => strip (snd kv) = snd kv /\ truthy (snd kv) = true)
         COLUMN_ALIASES.
Proof.
  unfold COLUMN_ALIASES. repeat constructor.
Qed.

Lemma alias_target k v :
  dict_get COLUMN_ALIASES k = Some v -> strip v = v /\ truthy v = true.
Proof.
  intros Hk. apply dict_get_In in Hk.
  pose proof alias_targets_stripped as Hall. rewrite Forall_forall in Hall.
  exact (Hall _ Hk).
Qed.

Lemma first_key_stripped keys d v :
  first_key keys d = Some v -> strip v = v.
Proof.
  induction keys as [| k keys IH]; simpl; [discriminate |].
  destruct (dict_get d k) as [[| | | s | |] |]; try exact IH.
  destruct (truthy (strip s)); [| exact IH].
  intros Hv. inversion Hv. apply strip_idem.
Qed.

(** The name [_as_col_name] returns carries no blank at either end. *)
Lemma as_col_name_stripped x name :
  _as_col_name x = Some name -> strip name = name.
Proof.
  destruct x as [| b | q | s | l | d]; unfold _as_col_name; try discriminate.
  - intros Hn. inversion Hn. apply strip_idem.
  - destruct (first_key ["col"; "name"; "field"; "column"] d) as [v |] eqn:Hk.
    + intros Hn. inversion Hn; subst. exact (first_key_stripped _ _ _ Hk).
    + destruct (dict_get d "expr") as [[| | | expr | |] |]; try discriminate.
      destruct (contains "period_revenue_usd" expr);
        [intros Hn; inversion Hn; reflexivity |].
      destruct (contains "mrr_usd" expr);
        [intros Hn; inversion Hn; reflexivity | discriminate].
Qed.

(** A name that is stripped, not empty, and a column or the virtual column
    resolves to itself. *)
Lemma resolve_col_known n schema :
  strip n = n -> truthy n = true ->
  mem n schema || mem n VIRTUAL_COLS = true ->
  resolve_col (PStr n) schema = Some n.
Proof.
  intros Hs Ht Hm. unfold resolve_col, _as_col_name. rewrite Hs, Ht.
  cbn [negb]. now rewrite Hm.
Qed.

(** What [resolve_col] returns: a name that is stripped, not empty, and a
    column or the virtual column. *)
Lemma resolve_col_inv c schema n :
  resolve_col c schema = Some n ->
  strip n = n /\ truthy n = true
  /\ mem n schema || mem n VIRTUAL_COLS = true.
Proof.
  unfold resolve_col.
  destruct (_as_col_name c) as [name |] eqn:Hname; [| discriminate].
  apply as_col_name_stripped in Hname.
  destruct (truthy name) eqn:Ht; cbn [negb]; [| discriminate].
  destruct (mem name schema || mem name VIRTUAL_COLS) eqn:Hm.
  - intros Hn. inversion Hn; subst. auto.
  - destruct (dict_get COLUMN_ALIASES (lower name)) as [mapped |] eqn:Hk;
      [| discriminate].
    apply alias_target in Hk. destruct Hk as [Hs Hm'].
    rewrite Hm'. cbn [andb].
    destruct (mem mapped schema || mem mapped VIRTUAL_COLS) eqn:Hmm;
      [| discriminate].
    intros Hn. inversion Hn; subst. auto.
Qed.

Lemma truthy_nonempty s : truthy s = true <-> s <> "".
Proof.
  destruct s; simpl; split; intros Hs; congruence.
Qed.

Lemma known_spec n schema :
  mem n schema || mem n VIRTUAL_COLS = true
  <-> In n schema \/ n = "period_revenue_usd".
Proof.
  rewrite orb_true_iff, !mem_In. unfold VIRTUAL_COLS. simpl.
  intuition congruence.
Qed.

End ResolveFacts.

Module FixFacts.

Import PyStr Aliases ResolveFacts.

Lemma resolve_col_is_known c schema n :
  resolve_col c schema = Some n ->
  known schema n /\ resolve_col (PStr n) schema = Some n.
Proof.
  intros Hr. apply resolve_col_inv in Hr. destruct Hr as [Hs [Ht Hm]].
  split; [| now apply resolve_col_known].
  split; [now apply truthy_nonempty | now apply known_spec].
Qed.

Lemma resolve_list_NoDup acc cols schema :
  NoDup acc -> NoDup (resolve_list acc cols schema).
Proof.
  revert acc. induction cols as [| c cols IH]; simpl; intros acc Hacc;
    [assumption |].
  destruct (resolve_col c schema) as [rc |]; [| now apply IH].
  destruct (mem rc acc) eqn:Hm; [now apply IH |].
  apply IH. apply NoDup_snoc; [assumption | now apply mem_false].
Qed.

Lemma resolve_list_In acc cols schema n :
  In n (resolve_list acc cols schema)
  <-> In n acc \/ exists c, In c cols /\ resolve_col c schema = Some n.
Proof.
  revert acc. induction cols as [| c cols IH]; simpl; intros acc.
  - split; [auto | intros [Hn | [c [[] _]]]; assumption].
  - destruct (resolve_col c schema) as [rc |] eqn:Hrc.
    + destruct (mem rc acc) eqn:Hm; rewrite IH.
      * apply mem_In in Hm. split.
        -- intros [Hn | [c' [Hc' Hr]]]; [auto | right; eauto].
        -- intros [Hn | [c' [[-> | Hc'] Hr]]]; [auto | | right; eauto].
           left. congruence.
      * rewrite in_app_iff. simpl. split.
        -- intros [[Hn | [-> | []]] | [c' [Hc' Hr]]];
             [auto | right; eauto | right; eauto].
        -- intros [Hn | [c' [[-> | Hc'] Hr]]];
             [auto | | right; eauto].
           left. right. left. congruence.
    + rewrite IH. split.
      * intros [Hn | [c' [Hc' Hr]]]; [auto | right; eauto].
      * intros [Hn | [c' [[-> | Hc'] Hr]]]; [auto | congruence | right; eauto].
Qed.

(** Names that resolve to themselves pass the loop as they are. *)
Lemma resolve_list_names acc l schema :
  NoDup (acc ++ l) ->
  Forall (fun n => resolve_col (PStr n) schema = Some n) l ->
  resolve_list acc (map PStr l) schema = acc ++ l.
Proof.
  revert acc. induction l as [| n l IH]; simpl; intros acc Hnd Hall.
  - now rewrite app_nil_r.
  - inversion Hall as [| ? ? Hn Hl]; subst. rewrite Hn.
    assert (Hfresh : mem n acc = false).
    { apply mem_false. intros Hin. apply NoDup_remove_2 in Hnd.
      apply Hnd. apply in_or_app. now left. }
    rewrite Hfresh.
    replace (acc ++ n :: l) with ((acc ++ [n]) ++ l)
      by (rewrite <- app_assoc; reflexivity).
    apply IH; [rewrite <- app_assoc; exact Hnd | assumption].
Qed.

Section WithLib.

Context `{PandasLib}.

Lemma fix_filter_cleaned schema f f' :
  fix_filter schema f = Some f' -> cleaned schema f f'.
Proof.
  unfold fix_filter.
  generalize (disambiguate (initial_mapping (f_col f)) (f_value f)).
  intros mapped.
  destruct (resolve_col (PStr mapped) schema) as [c |] eqn:Hc.
  - destruct (truthy c); [| discriminate].
    intros Hf. inversion Hf; subst. unfold cleaned. simpl.
    apply resolve_col_is_known in Hc. destruct Hc as [Hk Hc]. eauto 6.
  - destruct (mem mapped VIRTUAL_COLS) eqn:Hv; [| discriminate].
    unfold VIRTUAL_COLS in Hv. simpl in Hv. rewrite orb_false_r in Hv.
    apply String.eqb_eq in Hv. subst mapped.
    rewrite resolve_col_known in Hc;
      [discriminate | reflexivity | reflexivity
       | apply orb_true_iff; right; reflexivity].
Qed.

(** A filter is dropped exactly when its column does not resolve, and is
    kept under the name its column resolves to. *)
Lemma fix_filter_resolved schema f :
  fix_filter schema f
  = match resolve_col (PStr (filter_target f)) schema with
    | Some c => Some (mkFilter (PStr c) (Some (filter_op f)) (f_value f))
    | None => None
    end.
Proof.
  unfold fix_filter, filter_target.
  generalize (disambiguate (initial_mapping (f_col f)) (f_value f)).
  intros mapped.
  destruct (resolve_col (PStr mapped) schema) as [c |] eqn:Hc.
  - apply resolve_col_inv in Hc. destruct Hc as [_ [Ht _]]. now rewrite Ht.
  - destruct (mem mapped VIRTUAL_COLS) eqn:Hv; [| reflexivity].
    unfold VIRTUAL_COLS in Hv. simpl in Hv. rewrite orb_false_r in Hv.
    apply String.eqb_eq in Hv. subst mapped.
    rewrite resolve_col_known in Hc;
      [discriminate | reflexivity | reflexivity
       | apply orb_true_iff; right; reflexivity].
Qed.

Lemma fix_filters_exact schema fs :
  Forall2 (fun f f' =>
             cleaned schema f f'
             /\ option_map PStr (resolve_col (PStr (filter_target f)) schema)
                = Some (f_col f'))
          (filter (column_known schema) fs) (_fix_filters fs schema).
Proof.
  induction fs as [| f fs IH]; simpl; [constructor |].
  pose proof (fix_filter_cleaned schema f) as Hcl.
  rewrite fix_filter_resolved in *. unfold column_known.
  destruct (resolve_col (PStr (filter_target f)) schema) as [c |] eqn:Hr;
    [| assumption].
  constructor; [| assumption].
  split; [now apply Hcl | now rewrite Hr].
Qed.

Lemma fix_filters_kept schema fs :
  exists kept,
    Subseq kept fs /\ Forall2 (cleaned schema) kept (_fix_filters fs schema).
Proof.
  induction fs as [| f fs [kept [Hs Hc]]]; simpl.
  - exists []. split; constructor.
  - destruct (fix_filter schema f) as [f' |] eqn:Hf.
    + exists (f :: kept). split; [now constructor |].
      constructor; [now apply fix_filter_cleaned | assumption].
    + exists kept. split; [now constructor | assumption].
Qed.

End WithLib.

End FixFacts.

(** X1. What [resolve_col] returns is not the empty string, is a column of
    the schema or the virtual revenue column, and resolves to itself. *)
Theorem X1_resolve_col_sound (c : pyval) (schema : list string) (n : string) :
  Aliases.resolve_col c schema = Some n ->
  n <> ""
  /\ (In n schema \/ n = "period_revenue_usd")
  /\ Aliases.resolve_col (PStr n) schema = Some n.
Proof.
  intros Hr. apply FixFacts.resolve_col_is_known in Hr.
  destruct Hr as [[Hne Hin] Hr]. auto.
Qed.

Lemma X1_resolve_col_sound_witness :
  "company_name" <> ""
  /\ (In "company_name" ["company_name"; "mrr_usd"]
      \/ "company_name" = "period_revenue_usd")
  /\ Aliases.resolve_col (PStr "company_name") ["company_name"; "mrr_usd"]
     = Some "company_name".
Proof.
  apply (X1_resolve_col_sound (PDict [("name", PStr "  Customer ")])).
  reflexivity.
Defined.

(** X2. [_fix_list] returns each name once, returns exactly the names its
    entries resolve to, and leaves its own result as it is. *)
Theorem X2_fix_list_resolved (cols : list pyval) (schema : list string) :
  NoDup (Aliases._fix_list cols schema)
  /\ (forall n, In n (Aliases._fix_list cols schema)
                <-> exists c, In c cols /\ Aliases.resolve_col c schema = Some n)
  /\ Aliases._fix_list (map PStr (Aliases._fix_list cols schema)) schema
     = Aliases._fix_list cols schema.
Proof.
  unfold Aliases._fix_list.
  assert (Hnd : NoDup (Aliases.resolve_list [] cols schema))
    by (apply FixFacts.resolve_list_NoDup; constructor).
  assert (Hin : forall n, In n (Aliases.resolve_list [] cols schema)
                          <-> exists c, In c cols
                                /\ Aliases.resolve_col c schema = Some n).
  { intros n. rewrite FixFacts.resolve_list_In. simpl. tauto. }
  split; [assumption |]. split; [assumption |].
  apply (FixFacts.resolve_list_names []); [assumption |].
  apply Forall_forall. intros n Hn. apply Hin in Hn.
  destruct Hn as [c [_ Hc]].
  now apply FixFacts.resolve_col_is_known in Hc.
Qed.

(** X3. [_fix_filters] drops exactly the filters whose column, after the
    alias table and the churn disambiguation, does not resolve, and keeps
    the others in their order: each with its value, with the operator
    [_apply_filters] would read, and under the name its column resolves to,
    which is a column of the schema (or the virtual revenue column) and
    resolves to itself. *)
Theorem X3_fix_filters_keeps (L : PandasLib) (fs : list Filter)
        (schema : list string) :
  Forall2 (fun f f' =>
             cleaned schema f f'
             /\ option_map PStr
                  (Aliases.resolve_col (PStr (filter_target f)) schema)
                = Some (f_col f'))
          (filter (column_known schema) fs)
          (Aliases._fix_filters fs schema).
Proof.
  apply FixFacts.fix_filters_exact.
Qed.

(** ** The plan sanitizer *)

Module SanitizerFacts.

Import PyStr Aliases Sanitizer ResolveFacts FixFacts.

Lemma append_new_In sel c n :
  In n (append_new sel c) <-> In n sel \/ n = c.
Proof.
  unfold append_new. destruct (mem c sel) eqn:Hm.
  - apply mem_In in Hm. split; [auto | intros [Hn | ->]; assumption].
  - rewrite in_app_iff. simpl. intuition congruence.
Qed.

Lemma append_new_NoDup sel c : NoDup sel -> NoDup (append_new sel c).
Proof.
  intros Hnd. unfold append_new. destruct (mem c sel) eqn:Hm; [assumption |].
  apply NoDup_snoc; [assumption | now apply mem_false].
Qed.

Lemma ensure_selected_In sel cols n :
  In n (_ensure_selected sel cols) <-> In n sel \/ In n cols.
Proof.
  unfold _ensure_selected. revert sel.
  induction cols as [| c cols IH]; simpl; intros sel; [tauto |].
  rewrite IH, append_new_In. intuition congruence.
Qed.

Lemma ensure_selected_NoDup sel cols :
  NoDup sel -> NoDup (_ensure_selected sel cols).
Proof.
  unfold _ensure_selected. revert sel.
  induction cols as [| c cols IH]; simpl; intros sel Hnd; [assumption |].
  apply IH. now apply append_new_NoDup.
Qed.

Lemma ensure_selected_known schema sel cols :
  Forall (known schema) sel -> Forall (known schema) cols ->
  Forall (known schema) (_ensure_selected sel cols).
Proof.
  rewrite !Forall_forall. intros Hs Hc n Hn.
  apply ensure_selected_In in Hn. destruct Hn; auto.
Qed.

Lemma fix_list_known cols schema : Forall (known schema) (_fix_list cols schema).
Proof.
  apply Forall_forall. intros n Hn. unfold _fix_list in Hn.
  apply resolve_list_In in Hn. destruct Hn as [[] | [c [_ Hc]]].
  now apply resolve_col_is_known in Hc.
Qed.

Lemma fix_list_NoDup cols schema : NoDup (_fix_list cols schema).
Proof.
  apply resolve_list_NoDup. constructor.
Qed.

Lemma fix_order_by_known obs schema :
  Forall (fun ob => known schema (fst ob)) (_fix_order_by obs schema).
Proof.
  induction obs as [| ob obs IH]; simpl; [constructor |].
  destruct (fix_order_entry schema ob) as [e |] eqn:He; [| assumption].
  constructor; [| assumption].
  unfold fix_order_entry in He.
  destruct ob as [| b | q | s | l | d];
    try (destruct (resolve_col _ schema) as [col |] eqn:Hc; [| discriminate];
         inversion He; subst; simpl;
         now apply resolve_col_is_known in Hc).
Qed.

Lemma Forall_dict_set {V : Type} (P : string * V -> Prop) d k v :
  Forall P d -> P (k, v) -> Forall P (dict_set d k v).
Proof.
  intros Hd Hkv. induction d as [| [k' v'] d IH]; simpl.
  - now repeat constructor.
  - inversion Hd; subst.
    destruct (String.eqb_spec k' k) as [-> | Hne]; constructor; auto.
Qed.

Lemma fix_aggregations_known schema aggs :
  Forall (fun kh => known schema (fst kh)
                    /\ In (snd kh) ["sum"; "mean"; "count"; "nunique"])
         (fix_aggregations schema aggs).
Proof.
  unfold fix_aggregations.
  set (P := fun kh : string * string =>
              known schema (fst kh)
              /\ In (snd kh) ["sum"; "mean"; "count"; "nunique"]).
  assert (Hgen : forall fixed, Forall P fixed ->
            Forall P
              (fold_left
                 (fun fixed kv =>
                    let col :=
                      match resolve_col (PStr (fst kv)) schema with
                      | Some c => Some c
                      | None => _as_col_name (PStr (fst kv))
                      end in
                    match col, snd kv with
                    | Some c, PStr how =>
                        if truthy c && (mem c schema || mem c VIRTUAL_COLS)
                           && mem how ["sum"; "mean"; "count"; "nunique"]
                        then dict_set fixed c how
                        else fixed
                    | _, _ => fixed
                    end) aggs fixed)).
  { induction aggs as [| [k v] aggs IH]; cbn [fold_left]; intros fixed Hf;
      [assumption |].
    apply IH. cbn [fst snd].
    destruct (match resolve_col (PStr k) schema with
              | Some c => Some c
              | None => _as_col_name (PStr k)
              end) as [c |]; [| assumption].
    destruct v as [| b | q | how | l | d]; try assumption.
    destruct (truthy c && (mem c schema || mem c VIRTUAL_COLS)
              && mem how ["sum"; "mean"; "count"; "nunique"]) eqn:Hok;
      [| assumption].
    apply andb_true_iff in Hok. destruct Hok as [Hok Hhow].
    apply andb_true_iff in Hok. destruct Hok as [Ht Hm].
    apply Forall_dict_set; [assumption |].
    split; cbn [fst snd].
    - split; [now apply truthy_nonempty | now apply known_spec].
    - now apply mem_In. }
  apply Hgen. constructor.
Qed.


Lemma known_revenue schema : known schema "period_revenue_usd".
Proof.
  split; [discriminate | now right].
Qed.

Lemma Forall_setdefault {V : Type} (P : string * V -> Prop) d k v :
  Forall P d -> P (k, v) -> Forall P (setdefault d k v).
Proof.
  intros Hd Hkv. unfold setdefault. destruct (dict_get d k); [assumption |].
  apply Forall_app. split; [assumption | now repeat constructor].
Qed.

Lemma well_named_defaults schema c :
  well_named schema c -> well_named schema (_ensure_revenue_defaults c schema).
Proof.
  intros [Hs1 [Hs2 [Hg1 [Hg2 [Ha [Ho Hf]]]]]].
  unfold well_named, _ensure_revenue_defaults. cbn [c_select c_group_by
    c_aggregations c_order_by c_filters].
  split; [now apply ensure_selected_NoDup |].
  split; [apply ensure_selected_known; [assumption |];
          constructor; [apply known_revenue | constructor] |].
  split.
  { destruct (mem "company_name" schema && _); [| assumption].
    now apply append_new_NoDup. }
  split.
  { destruct (mem "company_name" schema &&
              mem "company_name"
                  (_ensure_selected (c_select c) ["period_revenue_usd"])) eqn:Hc;
      [| assumption].
    apply andb_true_iff in Hc. destruct Hc as [Hc _]. apply mem_In in Hc.
    apply Forall_forall. intros n Hn. apply append_new_In in Hn.
    destruct Hn as [Hn | ->].
    - rewrite Forall_forall in Hg2. now apply Hg2.
    - split; [discriminate | now left]. }
  split.
  { apply Forall_setdefault; [assumption |]. split; cbn [fst snd].
    - apply known_revenue.
    - now left. }
  split.
  { destruct (c_order_by c); [| assumption].
    constructor; [apply known_revenue | constructor]. }
  eapply Forall_impl; [| exact Hf].
  intros f [n [Hn [Hk Hin]]]. exists n. split; [assumption |].
  split; [assumption |]. apply ensure_selected_In. now left.
Qed.

Lemma well_named_group schema c g :
  well_named schema c -> NoDup g -> Forall (known schema) g ->
  well_named schema
    (mkCleanArgs (c_select c) (c_filters c) (c_time_window c) g
                 (c_aggregations c) (c_order_by c) (c_limit c) (c_computed c)).
Proof.
  intros [Hs1 [Hs2 [_ [_ [Ha [Ho Hf]]]]]] Hg1 Hg2.
  unfold well_named. cbn. auto 8.
Qed.

Lemma well_named_select schema c n :
  well_named schema c -> known schema n ->
  well_named schema
    (mkCleanArgs (_ensure_selected (c_select c) [n]) (c_filters c)
                 (c_time_window c) (c_group_by c) (c_aggregations c)
                 (c_order_by c) (c_limit c) (c_computed c)).
Proof.
  intros [Hs1 [Hs2 [Hg1 [Hg2 [Ha [Ho Hf]]]]]] Hn.
  unfold well_named. cbn [c_select c_group_by c_aggregations c_order_by
    c_filters].
  split; [now apply ensure_selected_NoDup |].
  split; [apply ensure_selected_known; auto |].
  repeat (split; [assumption |]).
  eapply Forall_impl; [| exact Hf].
  intros f [n' [Hn' [Hk Hin]]]. exists n'. split; [assumption |].
  split; [assumption |]. apply ensure_selected_In. now left.
Qed.


Lemma In_keys_setdefault {V : Type} (d : list (string * V)) k v :
  In k (map fst (setdefault d k v)).
Proof.
  unfold setdefault. destruct (dict_get d k) as [v' |] eqn:Hk.
  - apply dict_get_In in Hk. apply in_map_iff. now exists (k, v').
  - rewrite map_app, in_app_iff. right. now left.
Qed.

Lemma keys_setdefault_incl {V : Type} (d : list (string * V)) k v k' :
  In k' (map fst d) -> In k' (map fst (setdefault d k v)).
Proof.
  unfold setdefault. destruct (dict_get d k); [auto |].
  rewrite map_app, in_app_iff. auto.
Qed.

Lemma keys_setdefault_inv {V : Type} (d : list (string * V)) k v k' :
  In k' (map fst (setdefault d k v)) -> In k' (map fst d) \/ k' = k.
Proof.
  unfold setdefault. destruct (dict_get d k); [auto |].
  rewrite map_app, in_app_iff. simpl. intuition.
Qed.

Lemma keys_dict_set_inv {V : Type} (d : list (string * V)) k v k' :
  In k' (map fst (dict_set d k v)) -> In k' (map fst d) \/ k' = k.
Proof.
  induction d as [| [k0 v0] d IH]; simpl.
  - intuition.
  - destruct (String.eqb_spec k0 k) as [-> | Hne]; simpl; intuition.
Qed.

(** What [_ensure_revenue_defaults] leaves in place. *)
Lemma revenue_defaults_set c schema :
  In "period_revenue_usd" (c_select (_ensure_revenue_defaults c schema))
  /\ In "period_revenue_usd"
        (map fst (c_aggregations (_ensure_revenue_defaults c schema)))
  /\ c_order_by (_ensure_revenue_defaults c schema) <> []
  /\ py_truthy (pyval_get (c_time_window (_ensure_revenue_defaults c schema))
                          "start") = true
  /\ py_truthy (pyval_get (c_time_window (_ensure_revenue_defaults c schema))
                          "end") = true
  /\ c_computed (_ensure_revenue_defaults c schema)
     = PBool match c_computed c with
             | PNone => true
             | v => py_truthy v
             end.
Proof.
  unfold _ensure_revenue_defaults.
  cbn [c_select c_aggregations c_order_by c_time_window c_computed].
  split; [apply ensure_selected_In; right; now left |].
  split; [apply In_keys_setdefault |].
  split; [destruct (c_order_by c); discriminate |].
  destruct (py_truthy (pyval_get (c_time_window c) "start")) eqn:Hs;
    destruct (py_truthy (pyval_get (c_time_window c) "end")) eqn:He;
    cbn [andb negb];
    (split; [first [assumption | reflexivity] |]);
    (split; [first [assumption | reflexivity] |]);
    destruct (c_computed c); reflexivity.
Qed.

Lemma default_select_ok schema sel :
  NoDup sel -> Forall (known schema) sel ->
  NoDup match sel with
        | [] => if mem "company_name" schema then ["company_name"] else []
        | _ :: _ => sel
        end
  /\ Forall (known schema)
            match sel with
            | [] => if mem "company_name" schema then ["company_name"] else []
            | _ :: _ => sel
            end
  /\ (forall n, In n sel ->
                In n match sel with
                     | [] => if mem "company_name" schema
                             then ["company_name"] else []
                     | _ :: _ => sel
                     end).
Proof.
  intros Hnd Hk. destruct sel as [| x l]; [| auto].
  destruct (mem "company_name" schema) eqn:Hc.
  - apply mem_In in Hc. split; [repeat constructor; intros [] |].
    split; [| intros n []].
    constructor; [| constructor]. split; [discriminate | now left].
  - split; [constructor |]. split; [constructor | intros n []].
Qed.

Lemma mentions_select_more sel ag ob fc :
  _mentions_revenue (_ensure_selected sel ["churn_probability_percent"]) ag ob fc
  = _mentions_revenue sel ag ob fc.
Proof.
  unfold _mentions_revenue. f_equal. f_equal. f_equal.
  unfold _ensure_selected. cbn [fold_left]. unfold append_new.
  destruct (mem "churn_probability_percent" sel); [reflexivity |].
  rewrite existsb_app. cbn. apply orb_false_r.
Qed.

Section WithLib.

Context `{PandasLib}.

(** The filters [_fix_filters] returns name their columns. *)
Lemma fix_filters_named schema fs :
  Forall (fun f => exists n, f_col f = PStr n /\ known schema n
                             /\ resolve_col (PStr n) schema = Some n)
         (_fix_filters fs schema).
Proof.
  destruct (fix_filters_kept schema fs) as [kept [_ Hc]].
  induction Hc as [| f f' kept out Hff' _ IH]; constructor; [| assumption].
  destruct Hff' as [_ [_ Hn]]. exact Hn.
Qed.

Lemma cols_from_filters_In schema fs f n :
  In f (_fix_filters fs schema) -> f_col f = PStr n ->
  In n (_cols_from_filters (_fix_filters fs schema)).
Proof.
  intros Hf Hn. pose proof (fix_filters_named schema fs) as Hall.
  rewrite Forall_forall in Hall. destruct (Hall _ Hf) as [n' [Hn' [[Hne _] _]]].
  assert (n' = n) by congruence. subst n'.
  unfold _cols_from_filters. apply filter_In. split.
  - apply in_map_iff. exists f. split; [| assumption].
    unfold col_name. now rewrite Hn.
  - now apply truthy_nonempty.
Qed.

Lemma cols_from_filters_known schema fs :
  Forall (known schema) (_cols_from_filters (_fix_filters fs schema)).
Proof.
  apply Forall_forall. intros n Hn. unfold _cols_from_filters in Hn.
  apply filter_In in Hn. destruct Hn as [Hn Ht].
  apply in_map_iff in Hn. destruct Hn as [f [Hc Hf]].
  pose proof (fix_filters_named schema fs) as Hall.
  rewrite Forall_forall in Hall. destruct (Hall _ Hf) as [n' [Hn' [Hk _]]].
  unfold col_name in Hc. rewrite Hn' in Hc. now subst.
Qed.

(** On the filters [_fix_filters] returns, [_cols_from_filters] is the
    list of the values of ["col"] that are true. *)
Lemma cols_from_filters_agrees schema fs :
  map PStr (_cols_from_filters (_fix_filters fs schema))
  = filter py_truthy (map f_col (_fix_filters fs schema)).
Proof.
  pose proof (fix_filters_named schema fs) as Hall.
  unfold _cols_from_filters.
  induction Hall as [| f out [n [Hn _]] _ IH]; [reflexivity |].
  simpl. unfold col_name at 1. rewrite Hn. simpl.
  destruct (truthy n); simpl; rewrite IH; [| reflexivity].
  unfold col_name. now rewrite Hn.
Qed.


Lemma sanitize_args_well_named schema a :
  well_named schema (sanitize_args schema a).
Proof.
  unfold sanitize_args.
  set (fl := _fix_filters (p_filters a) schema).
  set (fc := _cols_from_filters fl).
  set (sel1 := _ensure_selected (_fix_list (p_select a) schema) fc).
  set (sel2 := match sel1 with
               | [] => if mem "company_name" schema then ["company_name"] else []
               | _ :: _ => sel1
               end).
  set (c0 := mkCleanArgs sel2 fl (p_time_window a)
                         (_fix_list (p_group_by a) schema)
                         (fix_aggregations schema (p_aggregations a))
                         (_fix_order_by (p_order_by a) schema)
                         (p_limit a) (p_computed a)).
  assert (Hfc : Forall (known schema) fc) by apply cols_from_filters_known.
  assert (Hsel1 : NoDup sel1 /\ Forall (known schema) sel1).
  { split; [apply ensure_selected_NoDup, fix_list_NoDup |].
    apply ensure_selected_known; [apply fix_list_known | assumption]. }
  destruct (default_select_ok schema sel1 (proj1 Hsel1) (proj2 Hsel1))
    as [Hnd2 [Hk2 Hincl]].
  fold sel2 in Hnd2, Hk2, Hincl.
  assert (Hsel2 : NoDup sel2 /\ Forall (known schema) sel2) by auto.
  assert (H0 : well_named schema c0).
  { unfold well_named, c0. cbn [c_select c_group_by c_aggregations c_order_by
      c_filters].
    split; [apply Hsel2 |]. split; [apply Hsel2 |].
    split; [apply fix_list_NoDup |]. split; [apply fix_list_known |].
    split; [apply fix_aggregations_known |].
    split; [apply fix_order_by_known |].
    pose proof (fix_filters_named schema (p_filters a)) as Hall.
    apply Forall_forall. intros f Hf.
    rewrite Forall_forall in Hall. destruct (Hall _ Hf) as [n [Hn [Hk _]]].
    exists n. split; [assumption |]. split; [assumption |].
    apply Hincl. apply ensure_selected_In. right.
    eapply cols_from_filters_In; eassumption. }
  set (c1 := if _mentions_revenue sel2 _ _ fc
             then _ensure_revenue_defaults c0 schema else c0).
  assert (H1 : well_named schema c1).
  { unfold c1. destruct (_mentions_revenue sel2 _ _ fc);
      [now apply well_named_defaults | assumption]. }
  set (c2 := if existsb _ fc then _ else c1).
  assert (H2 : well_named schema c2).
  { unfold c2. destruct (existsb _ fc); [| assumption].
    cbv zeta. apply well_named_group; [assumption | |].
    - destruct H1 as [_ [_ [Hg _]]].
      destruct (negb (mem "company_name" (c_group_by c1))) eqn:Hm;
        cbn [andb]; [| assumption].
      destruct (mem "company_name" schema); [| assumption].
      apply NoDup_snoc; [assumption |].
      apply mem_false. now apply negb_true_iff.
    - destruct H1 as [_ [_ [_ [Hg _]]]].
      destruct (negb (mem "company_name" (c_group_by c1))); cbn [andb];
        [| assumption].
      destruct (mem "company_name" schema) eqn:Hc; [| assumption].
      apply mem_In in Hc. apply Forall_app. split; [assumption |].
      constructor; [split; [discriminate | now left] | constructor]. }
  destruct (mem "churn_probability_percent" fc) eqn:Hcp; [| assumption].
  apply well_named_select; [assumption |].
  apply mem_In in Hcp. rewrite Forall_forall in Hfc. now apply Hfc.
Qed.


(** The steps of [sanitize_plan] after the revenue defaults touch the
    group-by list and add a name to the select list. *)
Lemma sanitize_args_tail schema a :
  exists c1 sel,
    let fl := _fix_filters (p_filters a) schema in
    let fc := _cols_from_filters fl in
    let c := sanitize_args schema a in
    c_filters c = fl
    /\ c_filters c1 = fl
    /\ c_aggregations c = c_aggregations c1
    /\ c_order_by c = c_order_by c1
    /\ c_time_window c = c_time_window c1
    /\ c_computed c = c_computed c1
    /\ (c_select c = c_select c1
        \/ c_select c
           = _ensure_selected (c_select c1) ["churn_probability_percent"])
    /\ (_mentions_revenue sel (fix_aggregations schema (p_aggregations a))
                          (_fix_order_by (p_order_by a) schema) fc = true
        /\ c1 = _ensure_revenue_defaults
                  (mkCleanArgs sel fl (p_time_window a)
                               (_fix_list (p_group_by a) schema)
                               (fix_aggregations schema (p_aggregations a))
                               (_fix_order_by (p_order_by a) schema)
                               (p_limit a) (p_computed a)) schema
        \/
        _mentions_revenue sel (fix_aggregations schema (p_aggregations a))
                          (_fix_order_by (p_order_by a) schema) fc = false
        /\ c1 = mkCleanArgs sel fl (p_time_window a)
                            (_fix_list (p_group_by a) schema)
                            (fix_aggregations schema (p_aggregations a))
                            (_fix_order_by (p_order_by a) schema)
                            (p_limit a) (p_computed a)).
Proof.
  unfold sanitize_args.
  set (fl := _fix_filters (p_filters a) schema).
  set (fc := _cols_from_filters fl).
  set (sel1 := _ensure_selected (_fix_list (p_select a) schema) fc).
  set (sel2 := match sel1 with
               | [] => if mem "company_name" schema then ["company_name"] else []
               | _ :: _ => sel1
               end).
  set (c0 := mkCleanArgs sel2 fl (p_time_window a)
                         (_fix_list (p_group_by a) schema)
                         (fix_aggregations schema (p_aggregations a))
                         (_fix_order_by (p_order_by a) schema)
                         (p_limit a) (p_computed a)).
  set (m := _mentions_revenue sel2 _ _ fc).
  exists (if m then _ensure_revenue_defaults c0 schema else c0), sel2.
  cbv zeta.
  assert (Hfl : c_filters (if m then _ensure_revenue_defaults c0 schema else c0)
                = fl) by (destruct m; reflexivity).
  destruct (existsb _ fc); destruct (mem "churn_probability_percent" fc);
    cbn [c_filters c_aggregations c_order_by c_time_window c_computed c_select];
    (repeat (split; [first [exact Hfl | reflexivity] |]));
    (split; [first [left; reflexivity | right; reflexivity] |]);
    (destruct m eqn:Hm; [left | right]; (split; [exact Hm | reflexivity])).
Qed.

Lemma sanitize_args_defaults schema a :
  _mentions_revenue (c_select (sanitize_args schema a))
                    (c_aggregations (sanitize_args schema a))
                    (c_order_by (sanitize_args schema a))
                    (_cols_from_filters (c_filters (sanitize_args schema a)))
  = true ->
  In "period_revenue_usd" (c_select (sanitize_args schema a))
  /\ In "period_revenue_usd" (map fst (c_aggregations (sanitize_args schema a)))
  /\ c_order_by (sanitize_args schema a) <> []
  /\ py_truthy (pyval_get (c_time_window (sanitize_args schema a)) "start")
     = true
  /\ py_truthy (pyval_get (c_time_window (sanitize_args schema a)) "end")
     = true
  /\ c_computed (sanitize_args schema a)
     = PBool match p_computed a with
             | PNone => true
             | v => py_truthy v
             end.
Proof.
  destruct (sanitize_args_tail schema a) as [c1 [sel Ht]]. cbv zeta in Ht.
  destruct Ht as [Hfl [Hfl1 [Hag [Hob [Htw [Hcomp [Hsel Hc1]]]]]]].
  rewrite Hfl, Hag, Hob, Htw, Hcomp. intros Hm.
  assert (Hm1 : _mentions_revenue (c_select c1) (c_aggregations c1)
                  (c_order_by c1)
                  (_cols_from_filters (_fix_filters (p_filters a) schema))
                = true).
  { destruct Hsel as [Hsel | Hsel]; rewrite Hsel in Hm; [assumption |].
    now rewrite mentions_select_more in Hm. }
  destruct Hc1 as [[_ Hc1] | [Hno Hc1]].
  - pose proof (revenue_defaults_set
                  (mkCleanArgs sel (_fix_filters (p_filters a) schema)
                               (p_time_window a)
                               (_fix_list (p_group_by a) schema)
                               (fix_aggregations schema (p_aggregations a))
                               (_fix_order_by (p_order_by a) schema)
                               (p_limit a) (p_computed a)) schema) as Hd.
    rewrite <- Hc1 in Hd. cbn [c_computed] in Hd.
    destruct Hd as [Hd1 Hd]. split; [| exact Hd].
    destruct Hsel as [-> | ->]; [assumption |].
    apply ensure_selected_In. now left.
  - rewrite Hc1 in Hm1. cbn [c_select c_aggregations c_order_by] in Hm1.
    congruence.
Qed.

End WithLib.

End SanitizerFacts.

(** ** The sanitizer and the executor together *)

Module ResultFacts.

Import PyStr Aliases Frame CellOrder Tools Executor.
Import FrameFacts FilterFacts OrderFacts MaterializeFacts NormalizeFacts.
Import ResolveFacts FixFacts SanitizerFacts.

Lemma fold_keys_incl {A : Type} (step : list (string * string) -> A
                                        -> list (string * string))
      (xs : list A) (m : list (string * string)) k :
  (forall m x, In k (map fst m) -> In k (map fst (step m x))) ->
  In k (map fst m) -> In k (map fst (fold_left step xs m)).
Proof.
  intros Hstep. revert m. induction xs as [| x xs IH]; simpl; intros m Hk;
    [assumption |].
  apply IH. now apply Hstep.
Qed.

Lemma keys_or_default {V : Type} (m d : list (string * V)) k :
  In k (map fst m) ->
  In k (map fst match m with
                | [] => d
                | _ :: _ => m
                end).
Proof.
  destruct m; [intros [] | auto].
Qed.

(** A grouped query aggregates the revenue column whenever the table has
    it. *)
Lemma planned_aggs_revenue out args select group_by agg_map :
  has_column out "period_revenue_usd" = true ->
  In "period_revenue_usd"
     (map fst (planned_aggs out args select group_by agg_map)).
Proof.
  intros Hrev. unfold planned_aggs. rewrite Hrev.
  apply keys_or_default. apply fold_keys_incl.
  - intros m col Hk. destruct (mem col group_by); [assumption |].
    destruct (numeric_in out col); [| assumption].
    destruct (String.eqb col "churn_probability_percent");
      [now apply keys_setdefault_incl |].
    destruct (mem col ["period_revenue_usd"; "mrr_usd"]);
      now apply keys_setdefault_incl.
  - destruct (has_column out "mrr_usd");
      [apply keys_setdefault_incl |]; apply In_keys_setdefault.
Qed.

Lemma colnames_groupby_agg `{PandasLib} out group_by agg_map res :
  groupby_agg out group_by agg_map = Ok res ->
  colnames res = key_columns group_by agg_map ++ map fst agg_map.
Proof.
  unfold groupby_agg. destruct (negb (forallb (has_column out) group_by));
    [discriminate |].
  intros Hg. apply bind_Ok_inv in Hg. destruct Hg as [u [_ Hg]].
  apply bind_Ok_inv in Hg. destruct Hg as [rs [_ Hg]].
  inversion Hg. unfold colnames. simpl.
  rewrite map_app, !map_map. simpl. now rewrite map_id.
Qed.

Lemma In_colnames_rename res old new n :
  n <> old -> In n (colnames res) -> In n (colnames (rename_column res old new)).
Proof.
  intros Hne Hn. unfold colnames, rename_column in *. simpl.
  rewrite map_map. apply in_map_iff in Hn. destruct Hn as [p [Hp Hin]].
  apply in_map_iff. exists p. split; [| assumption].
  destruct (String.eqb_spec (fst p) old); [congruence | assumption].
Qed.

(** The projection and the aggregation keep a revenue column that is
    selected. *)
Lemma project_keeps_revenue `{PandasLib} out args schema res :
  has_column out "period_revenue_usd" = true ->
  In (PStr "period_revenue_usd") (select args) ->
  project_or_aggregate out args schema = Ok res ->
  In "period_revenue_usd" (colnames res).
Proof.
  intros Hrev Hsel. unfold project_or_aggregate.
  destruct (resolve_list [] (group_by args) schema) as [| g gs].
  - intros Hp. inversion Hp. rewrite colnames_select_columns.
    apply filter_In. split; [| assumption].
    assert (Hin : In "period_revenue_usd"
                     (resolve_list [] (select args) schema)).
    { apply resolve_list_In. right. exists (PStr "period_revenue_usd").
      split; [assumption |].
      apply resolve_col_known;
        [reflexivity | reflexivity | apply orb_true_iff; right; reflexivity]. }
    destruct (resolve_list [] (select args) schema); [destruct Hin | exact Hin].
  - intros Hp. apply bind_Ok_inv in Hp. destruct Hp as [r [Hr Hp]].
    apply colnames_groupby_agg in Hr.
    assert (Hin : In "period_revenue_usd" (colnames r)).
    { rewrite Hr. apply in_or_app. right. now apply planned_aggs_revenue. }
    destruct (dict_get _ "churn") as [how |];
      [| inversion Hp; subst; assumption].
    destruct (String.eqb how "mean" && has_column r "churn");
      inversion Hp; subst; [| assumption].
    apply In_colnames_rename; [discriminate | assumption].
Qed.

(** A query that selects the revenue column on a table with its three
    sources returns it. *)
Lemma revenue_in_result `{PandasLib} df args res :
  In (PStr "period_revenue_usd") (select args) ->
  has_revenue_sources (colnames df) ->
  tool_query df args = Ok res ->
  In "period_revenue_usd" (colnames res).
Proof.
  intros Hsel Hsrc Hq. apply tool_query_inv in Hq.
  destruct Hq as [pre [sorted [Hpre [Hs ->]]]].
  apply order_stage_shape in Hs. destruct Hs as [Hcs _].
  unfold colnames. rewrite columns_limit_stage, Hcs.
  unfold build_result in Hpre.
  apply bind_Ok_inv in Hpre. destruct Hpre as [[out1 schema1] [Hm Hpre]].
  apply bind_Ok_inv in Hpre. destruct Hpre as [out2 [Hf Hp]].
  apply materialize_inv in Hm.
  destruct Hm as [ws [we [_ [_ [[Hno _] | [_ Hm]]]]]].
  - assert (Ht : computed args || wants_period_rev args = true).
    { apply triggered_spec. right. now left. }
    apply subset_sources_spec in Hsrc. rewrite Ht, Hsrc in Hno. discriminate.
  - destruct Hm as [months [t [revenue [_ [_ [Hout _]]]]]].
    apply apply_filters_narrows in Hf. destruct Hf as [Hc _].
    eapply project_keeps_revenue; [| exact Hsel | exact Hp].
    apply has_column_In. unfold colnames. rewrite Hc.
    change (In "period_revenue_usd" (colnames out1)). rewrite Hout.
    apply In_colnames_set_column. now left.
Qed.

End ResultFacts.

(** X4. The sanitized [args] of a query step use only names that are
    columns of the schema or the virtual revenue column, list each selected
    and each group-by name once, keep only the four aggregations the executor
    accepts, and select the column of every filter they keep. *)
Theorem X4_sanitize_args_names (L : PandasLib) (schema : list string)
        (a : Sanitizer.PlanArgs) :
  well_named schema (Sanitizer.sanitize_args schema a).
Proof.
  apply SanitizerFacts.sanitize_args_well_named.
Qed.

(** X5. When the sanitized [args] select, aggregate, order by or filter on
    a revenue-like column, they select and aggregate [period_revenue_usd],
    order by something, carry a time window with a start and an end, and
    set [computed]: to true when the planner left it out, else to the truth
    value the planner gave. *)
Theorem X5_sanitize_args_revenue_defaults (L : PandasLib) (schema : list string)
        (a : Sanitizer.PlanArgs) :
  Sanitizer._mentions_revenue
    (Sanitizer.c_select (Sanitizer.sanitize_args schema a))
    (Sanitizer.c_aggregations (Sanitizer.sanitize_args schema a))
    (Sanitizer.c_order_by (Sanitizer.sanitize_args schema a))
    (Sanitizer._cols_from_filters
       (Sanitizer.c_filters (Sanitizer.sanitize_args schema a))) = true ->
  In "period_revenue_usd" (Sanitizer.c_select (Sanitizer.sanitize_args schema a))
  /\ In "period_revenue_usd"
        (map fst (Sanitizer.c_aggregations (Sanitizer.sanitize_args schema a)))
  /\ Sanitizer.c_order_by (Sanitizer.sanitize_args schema a) <> []
  /\ py_truthy (pyval_get (Sanitizer.c_time_window
                             (Sanitizer.sanitize_args schema a)) "start") = true
  /\ py_truthy (pyval_get (Sanitizer.c_time_window
                             (Sanitizer.sanitize_args schema a)) "end") = true
  /\ Sanitizer.c_computed (Sanitizer.sanitize_args schema a)
     = PBool match Sanitizer.p_computed a with
             | PNone => true
             | v => py_truthy v
             end.
Proof.
  apply SanitizerFacts.sanitize_args_defaults.
Qed.

Lemma X5_sanitize_args_revenue_defaults_witness :
  In "period_revenue_usd"
     (Sanitizer.c_select
        (Sanitizer.sanitize_args (H := Ref.ref_lib) ["company_name"]
                                 Examples.revenue_plan))
  /\ In "period_revenue_usd"
        (map fst (Sanitizer.c_aggregations
                    (Sanitizer.sanitize_args (H := Ref.ref_lib) ["company_name"]
                                             Examples.revenue_plan)))
  /\ Sanitizer.c_order_by
       (Sanitizer.sanitize_args (H := Ref.ref_lib) ["company_name"]
                                Examples.revenue_plan) <> []
  /\ py_truthy (pyval_get (Sanitizer.c_time_window
                             (Sanitizer.sanitize_args (H := Ref.ref_lib)
                                                      ["company_name"]
                                                      Examples.revenue_plan))
                          "start") = true
  /\ py_truthy (pyval_get (Sanitizer.c_time_window
                             (Sanitizer.sanitize_args (H := Ref.ref_lib)
                                                      ["company_name"]
                                                      Examples.revenue_plan))
                          "end") = true
  /\ Sanitizer.c_computed
       (Sanitizer.sanitize_args (H := Ref.ref_lib) ["company_name"]
                                Examples.revenue_plan)
     = PBool true.
Proof.
  apply (X5_sanitize_args_revenue_defaults Ref.ref_lib ["company_name"]
                                        Examples.revenue_plan).
  reflexivity.
Defined.

(** X6. A plan that mentions a revenue-like column, sanitized against the
    columns of a table that has the three sources of the derived metric,
    gives a query whose result, when [tool_query] returns one, has the
    column [period_revenue_usd]. *)
Theorem X6_sanitized_query_returns_revenue (L : PandasLib) (df : DataFrame)
        (a : Sanitizer.PlanArgs) (res : DataFrame) :
  Sanitizer._mentions_revenue
    (Sanitizer.c_select (Sanitizer.sanitize_args (Frame.colnames df) a))
    (Sanitizer.c_aggregations (Sanitizer.sanitize_args (Frame.colnames df) a))
    (Sanitizer.c_order_by (Sanitizer.sanitize_args (Frame.colnames df) a))
    (Sanitizer._cols_from_filters
       (Sanitizer.c_filters (Sanitizer.sanitize_args (Frame.colnames df) a)))
  = true ->
  has_revenue_sources (Frame.colnames df) ->
  Executor.tool_query df
    (Sanitizer.to_args (Sanitizer.sanitize_args (Frame.colnames df) a))
  = Ok res ->
  In "period_revenue_usd" (Frame.colnames res).
Proof.
  intros Hm Hsrc Hq.
  apply SanitizerFacts.sanitize_args_defaults in Hm. destruct Hm as [Hsel _].
  eapply ResultFacts.revenue_in_result; [| exact Hsrc | exact Hq].
  unfold Sanitizer.to_args. cbn [select]. now apply in_map.
Qed.

Lemma X6_sanitized_query_returns_revenue_witness :
  In "period_revenue_usd" (Frame.colnames Examples.revenue_by_company).
Proof.
  apply (X6_sanitized_query_returns_revenue Ref.ref_lib Examples.contract_table
                                         Examples.revenue_plan).
  - reflexivity.
  - unfold has_revenue_sources. simpl. tauto.
  - reflexivity.
Defined.

(** ** What a filter keeps *)

Module FilterSemantics.

Import PyStr Aliases Frame CellOrder Tools Executor.
Import FrameFacts FilterFacts.

Lemma mapM_total {A B : Type} (f : A -> result B) (g : A -> B) (xs : list A) :
  (forall x, In x xs -> f x = Ok (g x)) -> mapM f xs = Ok (map g xs).
Proof.
  induction xs as [| x xs IH]; simpl; intros Hf; [reflexivity |].
  rewrite (Hf x) by now left. simpl. rewrite IH by auto. reflexivity.
Qed.

Lemma filter_mask_map {A : Type} (p : A -> bool) (xs : list A) :
  filter_mask xs (map p xs) = filter p xs.
Proof.
  induction xs as [| x xs IH]; simpl; [reflexivity |].
  destruct (p x); now rewrite IH.
Qed.

(** Boolean indexing by a test on one column. *)
Lemma mask_rows_test out col (p : cell -> bool) :
  mask_rows out (map p (column_cells out col)) = keep_rows out col p.
Proof.
  unfold mask_rows, keep_rows, column_cells. rewrite map_map.
  now rewrite filter_mask_map.
Qed.

Lemma column_cells_keep_rows out col c p :
  column_cells (keep_rows out c p) col
  = map (row_get out col) (rows (keep_rows out c p)).
Proof.
  reflexivity.
Qed.

Lemma numeric_cells_keep_rows out col c p :
  numeric_cells (column_cells out col) ->
  numeric_cells (column_cells (keep_rows out c p) col).
Proof.
  unfold numeric_cells. rewrite column_cells_keep_rows.
  unfold column_cells, keep_rows. simpl.
  rewrite !Forall_forall. intros Hall x Hx.
  apply in_map_iff in Hx. destruct Hx as [r [<- Hr]].
  apply filter_In in Hr. apply Hall. apply in_map. apply Hr.
Qed.

Lemma keep_rows_twice out col p q :
  keep_rows (keep_rows out col p) col q
  = keep_rows out col (fun c => p c && q c).
Proof.
  unfold keep_rows. simpl. f_equal.
  induction (rows out) as [| r rs IH]; simpl; [reflexivity |].
  change (row_get {| columns := columns out; rows := ?x |} col)
    with (row_get out col) in *.
  destruct (p (row_get out col r)); simpl; [| exact IH].
  destruct (q (row_get out col r)); now rewrite IH.
Qed.

Section WithLib.

Context `{PandasLib}.

(** The mask of a comparison with a number on a numeric column. *)
Lemma compare_column_number tag op ser cells v :
  numeric_cells cells ->
  compare_column tag op ser cells (CNum v)
  = Ok (map (number_test op v) cells).
Proof.
  intros Hn. unfold compare_column. simpl. apply mapM_total.
  unfold numeric_cells in Hn. rewrite Forall_forall in Hn.
  intros c Hc. specialize (Hn c Hc). destruct c; try contradiction; reflexivity.
Qed.

(** The mask of a comparison with a missing operand. *)
Lemma compare_column_null tag op ser cells val :
  operand_of val = ONull ->
  compare_column tag op ser cells val
  = Ok (map (fun _ => null_mask op) cells).
Proof.
  intros Ho. unfold compare_column. rewrite Ho. apply mapM_total.
  intros c _. destruct c; reflexivity.
Qed.

Lemma coerce_number ser col v :
  _is_date_col col = false -> ser = DNum ->
  _coerce_scalar_for_series (PNum v) ser col = Ok (CNum v).
Proof.
  intros Hd ->. unfold _coerce_scalar_for_series. now rewrite Hd.
Qed.

Lemma coerce_none_number ser col :
  _is_date_col col = false -> ser = DNum ->
  _coerce_scalar_for_series PNone ser col = Ok CNaN.
Proof.
  intros Hd ->. unfold _coerce_scalar_for_series. now rewrite Hd.
Qed.

Lemma coerce_text ser col v :
  _is_date_col col = false -> ser = DObj ->
  _coerce_scalar_for_series v ser col = Ok (CRaw v).
Proof.
  intros Hd ->. unfold _coerce_scalar_for_series. now rewrite Hd.
Qed.

Lemma filter_column schema out f col :
  resolve_col (f_col f) schema = Some col ->
  has_column out col = true ->
  filter_step schema out f
  = let ser := col_dtype out col in
    let val := f_value f in
    let op := filter_op f in
    if String.eqb op "between" then
      let '(lo, hi) := between_bounds val in
      lo <- _coerce_scalar_for_series lo ser col ;;
      hi <- _coerce_scalar_for_series hi ser col ;;
      r <- (if is_none lo then Ok None
            else narrow out
                   (compare_column ">=" OpGe ser (column_cells out col) lo)) ;;
      if is_none hi then Ok r
      else
        let out := rebound out r in
        narrow out (compare_column "<=" OpLe ser (column_cells out col) hi)
    else if String.eqb op "in" then
      vals <- mapM (fun v => _coerce_scalar_for_series v ser col)
                   (in_values val) ;;
      narrow out (library_mask "in" ser (column_cells out col) vals)
    else
      val <- _coerce_scalar_for_series val ser col ;;
      let cells := column_cells out col in
      if String.eqb op "==" then
        narrow out (compare_column "==" OpEq ser cells val)
      else if String.eqb op "!=" then
        narrow out (compare_column "!=" OpNe ser cells val)
      else if String.eqb op ">" then
        narrow out (compare_column ">" OpGt ser cells val)
      else if String.eqb op "<" then
        narrow out (compare_column "<" OpLt ser cells val)
      else if String.eqb op ">=" then
        narrow out (compare_column ">=" OpGe ser cells val)
      else if String.eqb op "<=" then
        narrow out (compare_column "<=" OpLe ser cells val)
      else if String.eqb op "contains" then
        narrow out (library_mask "contains" ser cells [val])
      else Ok None.
Proof.
  intros Hr Hc. unfold filter_step. rewrite Hr, Hc. reflexivity.
Qed.

(** A comparison filter with a number on a numeric column. *)
Lemma apply_filter_number schema out f col op v :
  resolve_col (f_col f) schema = Some col ->
  has_column out col = true ->
  _is_date_col col = false ->
  col_dtype out col = DNum ->
  numeric_cells (column_cells out col) ->
  filter_op f = op_symbol op ->
  f_value f = PNum v ->
  apply_filter schema out f = Ok (keep_rows out col (number_test op v)).
Proof.
  intros Hr Hc Hd Ht Hn Hop Hv. unfold apply_filter.
  rewrite (filter_column _ _ _ _ Hr Hc). cbv zeta.
  rewrite Hop, Hv, (coerce_number _ _ _ Hd Ht).
  destruct op; cbn [op_symbol String.eqb Ascii.eqb Bool.eqb bind];
    rewrite (compare_column_number _ _ _ _ _ Hn);
    unfold narrow; cbn [bind rebound]; now rewrite mask_rows_test.
Qed.

(** The two equality filters with a string on a column of text. *)
Lemma apply_filter_text schema out f col s (ne : bool) :
  resolve_col (f_col f) schema = Some col ->
  has_column out col = true ->
  _is_date_col col = false ->
  col_dtype out col = DObj ->
  filter_op f = (if ne then "!=" else "==") ->
  f_value f = PStr s ->
  apply_filter schema out f
  = Ok (keep_rows out col (fun c => xorb ne (text_equal s c))).
Proof.
  intros Hr Hc Hd Ht Hop Hv. unfold apply_filter.
  rewrite (filter_column _ _ _ _ Hr Hc). cbv zeta.
  rewrite Hop, Hv, (coerce_text _ _ _ Hd Ht).
  destruct ne; cbn [String.eqb Ascii.eqb Bool.eqb bind];
    unfold compare_column; cbn [operand_of].
  - rewrite (mapM_total _ (fun c => xorb true (text_equal s c)))
      by (intros c _; destruct c; reflexivity).
    unfold narrow. cbn [bind rebound]. now rewrite mask_rows_test.
  - rewrite (mapM_total _ (fun c => xorb false (text_equal s c)))
      by (intros c _; destruct c; reflexivity).
    unfold narrow. cbn [bind rebound]. now rewrite mask_rows_test.
Qed.

End WithLib.

End FilterSemantics.

Module BetweenFacts.

Import PyStr Aliases Frame CellOrder Tools Executor.
Import FrameFacts FilterFacts FilterSemantics.

Lemma keep_rows_none out col :
  keep_rows out col (fun _ => false) = mkDataFrame (columns out) [].
Proof.
  unfold keep_rows. f_equal.
  induction (rows out) as [| r rs IH]; simpl; [reflexivity | exact IH].
Qed.

Lemma number_between_spec lo hi c :
  number_test OpGe lo c && number_test OpLe hi c = number_between lo hi c.
Proof.
  destruct c; reflexivity.
Qed.

Section WithLib.

Context `{PandasLib}.

(** A [between] filter with two numbers on a numeric column. *)
Lemma apply_filter_between schema out f col lo hi :
  resolve_col (f_col f) schema = Some col ->
  has_column out col = true ->
  _is_date_col col = false ->
  col_dtype out col = DNum ->
  numeric_cells (column_cells out col) ->
  filter_op f = "between" ->
  between_bounds (f_value f) = (PNum lo, PNum hi) ->
  apply_filter schema out f = Ok (keep_rows out col (number_between lo hi)).
Proof.
  intros Hr Hc Hd Ht Hn Hop Hb. unfold apply_filter.
  rewrite (filter_column _ _ _ _ Hr Hc). cbv zeta.
  rewrite Hop, Hb. cbn [String.eqb Ascii.eqb Bool.eqb].
  rewrite !(coerce_number _ _ _ Hd Ht). cbn [bind is_none].
  rewrite (compare_column_number _ _ _ _ _ Hn).
  unfold narrow at 1. cbn [bind rebound]. rewrite mask_rows_test.
  rewrite (compare_column_number _ _ _ _ _
             (numeric_cells_keep_rows _ _ _ _ Hn)).
  unfold narrow. cbn [bind rebound]. rewrite mask_rows_test, keep_rows_twice.
  unfold keep_rows. f_equal. f_equal. apply filter_ext. intros r.
  apply number_between_spec.
Qed.

(** A [between] filter on a numeric column one of whose bounds is missing
    compares the column with NaN. *)
Lemma apply_filter_between_missing schema out f col lo hi :
  resolve_col (f_col f) schema = Some col ->
  has_column out col = true ->
  _is_date_col col = false ->
  col_dtype out col = DNum ->
  numeric_cells (column_cells out col) ->
  filter_op f = "between" ->
  between_bounds (f_value f) = (lo, hi) ->
  plain_bound lo -> plain_bound hi ->
  lo = PNone \/ hi = PNone ->
  apply_filter schema out f = Ok (mkDataFrame (columns out) []).
Proof.
  intros Hr Hc Hd Ht Hn Hop Hb Hlo Hhi Hnone. unfold apply_filter.
  rewrite (filter_column _ _ _ _ Hr Hc). cbv zeta.
  rewrite Hop, Hb. cbn [String.eqb Ascii.eqb Bool.eqb].
  destruct lo as [| | lo | | |]; try contradiction;
    destruct hi as [| | hi | | |]; try contradiction;
    try (destruct Hnone; discriminate);
    rewrite ?(coerce_number _ _ _ Hd Ht), ?(coerce_none_number _ _ Hd Ht);
    cbn [bind is_none].
  - rewrite (compare_column_null _ _ _ _ CNaN) by reflexivity.
    unfold narrow at 1. cbn [bind rebound null_mask].
    rewrite mask_rows_test, keep_rows_none.
    rewrite (compare_column_null _ _ _ _ CNaN) by reflexivity.
    reflexivity.
  - rewrite (compare_column_null _ _ _ _ CNaN) by reflexivity.
    unfold narrow at 1. cbn [bind rebound null_mask].
    rewrite mask_rows_test, keep_rows_none.
    unfold compare_column. cbn [operand_of column_cells rows map mapM].
    reflexivity.
  - rewrite (compare_column_number _ _ _ _ _ Hn).
    unfold narrow at 1. cbn [bind rebound]. rewrite mask_rows_test.
    rewrite (compare_column_null _ _ _ _ CNaN) by reflexivity.
    unfold narrow. cbn [bind rebound null_mask].
    rewrite mask_rows_test, keep_rows_none. reflexivity.
Qed.

(** A [between] filter without bounds on a column that is neither numeric
    nor date-named applies no bound. *)
Lemma apply_filter_between_text schema out f col :
  resolve_col (f_col f) schema = Some col ->
  has_column out col = true ->
  _is_date_col col = false ->
  col_dtype out col = DObj ->
  filter_op f = "between" ->
  between_bounds (f_value f) = (PNone, PNone) ->
  apply_filter schema out f = Ok out.
Proof.
  intros Hr Hc Hd Ht Hop Hb. unfold apply_filter.
  rewrite (filter_column _ _ _ _ Hr Hc). cbv zeta.
  rewrite Hop, Hb. cbn [String.eqb Ascii.eqb Bool.eqb].
  rewrite !(coerce_text _ _ _ Hd Ht). reflexivity.
Qed.

(** A filter that names no column of the table leaves it as it is. *)
Lemma apply_filter_no_column schema out f :
  names_no_column schema out f -> apply_filter schema out f = Ok out.
Proof.
  unfold names_no_column, apply_filter, filter_step.
  destruct (resolve_col (f_col f) schema) as [col |]; [| reflexivity].
  intros ->. reflexivity.
Qed.

Lemma names_no_column_ext schema o1 o2 f :
  columns o2 = columns o1 ->
  names_no_column schema o1 f -> names_no_column schema o2 f.
Proof.
  unfold names_no_column, has_column, colnames. now intros ->.
Qed.

Lemma foldM_skip schema f fs1 fs2 out :
  names_no_column schema out f ->
  foldM (apply_filter schema) (fs1 ++ f :: fs2) out
  = foldM (apply_filter schema) (fs1 ++ fs2) out.
Proof.
  intros Hf. rewrite !foldM_app.
  destruct (foldM (apply_filter schema) fs1 out) as [o |] eqn:H1;
    [| reflexivity].
  cbn [bind foldM].
  apply foldM_apply_filter_narrows in H1. destruct H1 as [Hc _].
  rewrite apply_filter_no_column
    by (eapply names_no_column_ext; [exact Hc | exact Hf]).
  reflexivity.
Qed.

Lemma apply_filters_skip schema f fs1 fs2 df :
  names_no_column schema df f ->
  _apply_filters df (fs1 ++ f :: fs2) schema
  = _apply_filters df (fs1 ++ fs2) schema.
Proof.
  intros Hf. unfold _apply_filters.
  destruct (fs1 ++ f :: fs2) eqn:Hl; [now destruct fs1 |].
  rewrite <- Hl. rewrite foldM_skip by assumption.
  destruct (fs1 ++ fs2); reflexivity.
Qed.

End WithLib.

End BetweenFacts.

Module ConjunctionFacts.

Import PyStr Aliases Frame CellOrder Tools Executor.
Import FrameFacts FilterFacts FilterSemantics.

Lemma filter_filter {A : Type} (p q : A -> bool) (l : list A) :
  filter q (filter p l) = filter (fun x => p x && q x) l.
Proof.
  induction l as [| x l IH]; simpl; [reflexivity |].
  destruct (p x); simpl; [| exact IH].
  destruct (q x); now rewrite IH.
Qed.

Lemma number_filter_keep_rows schema df f col op v c p :
  number_filter schema df f col op v ->
  number_filter schema (keep_rows df c p) f col op v.
Proof.
  intros [Hr [Hc [Hd [Ht [Hn [Hop Hv]]]]]].
  repeat split; try assumption.
  now apply numeric_cells_keep_rows.
Qed.

Section WithLib.

Context `{PandasLib}.

Lemma apply_two_number_filters schema df f g cf cg opf opg vf vg :
  number_filter schema df f cf opf vf ->
  number_filter schema df g cg opg vg ->
  _apply_filters df [f; g] schema
  = Ok (mkDataFrame
          (columns df)
          (filter (fun r => number_test opf vf (row_get df cf r)
                            && number_test opg vg (row_get df cg r))
                  (rows df))).
Proof.
  intros Hf Hg. unfold _apply_filters. cbn [foldM].
  pose proof (number_filter_keep_rows _ _ _ _ _ _ cf (number_test opf vf) Hg)
    as Hg'.
  destruct Hf as [Hr [Hc [Hd [Ht [Hn [Hop Hv]]]]]].
  rewrite (apply_filter_number _ _ _ _ _ _ Hr Hc Hd Ht Hn Hop Hv).
  cbn [bind].
  destruct Hg' as [Hr' [Hc' [Hd' [Ht' [Hn' [Hop' Hv']]]]]].
  rewrite (apply_filter_number _ _ _ _ _ _ Hr' Hc' Hd' Ht' Hn' Hop' Hv').
  cbn [bind]. unfold keep_rows. cbn [columns rows].
  f_equal. f_equal.
  change (row_get {| columns := columns df;
                     rows := filter (fun r => number_test opf vf (row_get df cf r))
                                    (rows df) |} cg)
    with (row_get df cg).
  apply filter_filter.
Qed.

End WithLib.

End ConjunctionFacts.

(** X7. On a numeric column that is not date-named, a filter with one of
    the six comparison operators and a number keeps exactly the rows whose
    value stands in that relation to the number, in their order; a row
    whose value is missing is kept by [!=] and by no other operator. *)
Theorem X7_comparison_filter_keeps (L : PandasLib) (schema : list string)
        (df : DataFrame) (f : Filter) (col : string) (op : Tools.cmpop)
        (v : Q) :
  Aliases.resolve_col (f_col f) schema = Some col ->
  Frame.has_column df col = true ->
  Tools._is_date_col col = false ->
  Frame.col_dtype df col = DNum ->
  numeric_cells (Frame.column_cells df col) ->
  filter_op f = op_symbol op ->
  f_value f = PNum v ->
  Tools._apply_filters df [f] schema
  = Ok (keep_rows df col (number_test op v)).
Proof.
  intros Hr Hc Hd Ht Hn Hop Hv. unfold Tools._apply_filters. cbn [foldM].
  rewrite (FilterSemantics.apply_filter_number _ _ _ _ _ _ Hr Hc Hd Ht Hn Hop Hv).
  reflexivity.
Qed.

Lemma X7_comparison_filter_keeps_witness :
  Tools._apply_filters (H := Ref.ref_lib) Examples.scores_table
                       [Examples.score_filter] ["score"; "rank"]
  = Ok (keep_rows Examples.scores_table "score"
                  (number_test Tools.OpEq (inject_Z 3))).
Proof.
  apply (X7_comparison_filter_keeps Ref.ref_lib ["score"; "rank"]
                                 Examples.scores_table Examples.score_filter
                                 "score" Tools.OpEq (inject_Z 3));
    try reflexivity.
  repeat constructor.
Defined.

(** X8. On a column of text that is not date-named, the filter [==] with
    a string keeps exactly the rows that hold that string, and the filter
    [!=] keeps exactly the other rows, those without a value among them. *)
Theorem X8_text_equality_filter_keeps (L : PandasLib) (schema : list string)
        (df : DataFrame) (f : Filter) (col s : string) (ne : bool) :
  Aliases.resolve_col (f_col f) schema = Some col ->
  Frame.has_column df col = true ->
  Tools._is_date_col col = false ->
  Frame.col_dtype df col = DObj ->
  filter_op f = (if ne then "!=" else "==") ->
  f_value f = PStr s ->
  Tools._apply_filters df [f] schema
  = Ok (keep_rows df col (fun c => xorb ne (text_equal s c))).
Proof.
  intros Hr Hc Hd Ht Hop Hv. unfold Tools._apply_filters. cbn [foldM].
  rewrite (FilterSemantics.apply_filter_text _ _ _ _ _ _ Hr Hc Hd Ht Hop Hv).
  reflexivity.
Qed.

Lemma X8_text_equality_filter_keeps_witness :
  Tools._apply_filters (H := Ref.ref_lib) Examples.names_table
                       [Examples.other_names] ["company_name"]
  = Ok (keep_rows Examples.names_table "company_name"
                  (fun c => xorb true (text_equal "Acme" c))).
Proof.
  apply (X8_text_equality_filter_keeps Ref.ref_lib ["company_name"]
                                    Examples.names_table Examples.other_names
                                    "company_name" "Acme" true);
    reflexivity.
Defined.

(** X9. On a numeric column that is not date-named, a [between] filter
    with two numbers keeps exactly the rows whose value lies between them,
    both bounds included. *)
Theorem X9_between_filter_keeps (L : PandasLib) (schema : list string)
        (df : DataFrame) (f : Filter) (col : string) (lo hi : Q) :
  Aliases.resolve_col (f_col f) schema = Some col ->
  Frame.has_column df col = true ->
  Tools._is_date_col col = false ->
  Frame.col_dtype df col = DNum ->
  numeric_cells (Frame.column_cells df col) ->
  filter_op f = "between" ->
  Tools.between_bounds (f_value f) = (PNum lo, PNum hi) ->
  Tools._apply_filters df [f] schema
  = Ok (keep_rows df col (number_between lo hi)).
Proof.
  intros Hr Hc Hd Ht Hn Hop Hb. unfold Tools._apply_filters. cbn [foldM].
  rewrite (BetweenFacts.apply_filter_between _ _ _ _ _ _ Hr Hc Hd Ht Hn Hop Hb).
  reflexivity.
Qed.

Lemma X9_between_filter_keeps_witness :
  Tools._apply_filters (H := Ref.ref_lib) Examples.scores_table
                       [Examples.rank_between] ["score"; "rank"]
  = Ok (keep_rows Examples.scores_table "rank"
                  (number_between (inject_Z 1) (inject_Z 4))).
Proof.
  apply (X9_between_filter_keeps Ref.ref_lib ["score"; "rank"]
                              Examples.scores_table Examples.rank_between
                              "rank" (inject_Z 1) (inject_Z 4));
    try reflexivity.
  repeat constructor.
Defined.

(** X10. A [between] filter one of whose bounds is missing keeps no row of
    a numeric column (the missing bound is coerced to NaN, which is not
    [None], and compared), while on a column of text a [between] filter
    without bounds leaves the table as it is. *)
Theorem X10_between_missing_bound (L : PandasLib) (schema : list string)
        (df : DataFrame) (f : Filter) (col : string) (lo hi : pyval) :
  Aliases.resolve_col (f_col f) schema = Some col ->
  Frame.has_column df col = true ->
  Tools._is_date_col col = false ->
  filter_op f = "between" ->
  Tools.between_bounds (f_value f) = (lo, hi) ->
  plain_bound lo -> plain_bound hi ->
  lo = PNone \/ hi = PNone ->
  (Frame.col_dtype df col = DNum ->
   numeric_cells (Frame.column_cells df col) ->
   Tools._apply_filters df [f] schema = Ok (mkDataFrame (columns df) []))
  /\ (Frame.col_dtype df col = DObj -> lo = PNone -> hi = PNone ->
      Tools._apply_filters df [f] schema = Ok df).
Proof.
  intros Hr Hc Hd Hop Hb Hlo Hhi Hnone. unfold Tools._apply_filters.
  cbn [foldM]. split.
  - intros Ht Hn.
    rewrite (BetweenFacts.apply_filter_between_missing
               _ _ _ _ _ _ Hr Hc Hd Ht Hn Hop Hb Hlo Hhi Hnone).
    reflexivity.
  - intros Ht -> ->.
    rewrite (BetweenFacts.apply_filter_between_text _ _ _ _ Hr Hc Hd Ht Hop Hb).
    reflexivity.
Qed.

Lemma X10_between_missing_bound_witness :
  Tools._apply_filters (H := Ref.ref_lib) Examples.scores_table
                       [Examples.rank_from] ["score"; "rank"]
  = Ok (mkDataFrame (columns Examples.scores_table) []).
Proof.
  apply (X10_between_missing_bound Ref.ref_lib ["score"; "rank"]
                               Examples.scores_table Examples.rank_from
                               "rank" (PNum (inject_Z 1)) PNone);
    try reflexivity; try exact I.
  - now right.
  - repeat constructor.
Defined.

(** X11. A filter whose column does not resolve, or resolves to a name
    the table does not have (the revenue column when it was not
    materialized), is skipped wherever it stands in the list. *)
Theorem X11_unknown_column_filter_skipped (L : PandasLib) (schema : list string)
        (df : DataFrame) (f : Filter) (fs1 fs2 : list Filter) :
  names_no_column schema df f ->
  Tools._apply_filters df (fs1 ++ f :: fs2) schema
  = Tools._apply_filters df (fs1 ++ fs2) schema.
Proof.
  apply BetweenFacts.apply_filters_skip.
Qed.

Lemma X11_unknown_column_filter_skipped_witness :
  Tools._apply_filters (H := Ref.ref_lib) Examples.scores_table
                       ([Examples.score_filter] ++ Examples.revenue_filter :: [])
                       ["score"; "rank"]
  = Tools._apply_filters (H := Ref.ref_lib) Examples.scores_table
                         ([Examples.score_filter] ++ []) ["score"; "rank"].
Proof.
  apply (X11_unknown_column_filter_skipped Ref.ref_lib ["score"; "rank"]
                                       Examples.scores_table
                                       Examples.revenue_filter).
  reflexivity.
Defined.

(** X12. Two comparison filters on numeric columns keep exactly the rows
    that pass both tests, in their order, and in either order of the two
    filters. *)
Theorem X12_comparison_filters_conjunction (L : PandasLib)
        (schema : list string) (df : DataFrame) (f g : Filter)
        (cf cg : string) (opf opg : Tools.cmpop) (vf vg : Q) :
  number_filter schema df f cf opf vf ->
  number_filter schema df g cg opg vg ->
  Tools._apply_filters df [f; g] schema
  = Ok (mkDataFrame
          (columns df)
          (filter (fun r => number_test opf vf (Frame.row_get df cf r)
                            && number_test opg vg (Frame.row_get df cg r))
                  (rows df)))
  /\ Tools._apply_filters df [g; f] schema
     = Tools._apply_filters df [f; g] schema.
Proof.
  intros Hf Hg.
  rewrite (ConjunctionFacts.apply_two_number_filters _ _ _ _ _ _ _ _ _ _ Hf Hg).
  rewrite (ConjunctionFacts.apply_two_number_filters _ _ _ _ _ _ _ _ _ _ Hg Hf).
  split; [reflexivity |]. f_equal. f_equal.
  apply filter_ext. intros r. apply andb_comm.
Qed.

Lemma X12_comparison_filters_conjunction_witness :
  Tools._apply_filters (H := Ref.ref_lib) Examples.scores_table
                       [Examples.score_filter; Examples.low_rank]
                       ["score"; "rank"]
  = Ok (mkDataFrame
          (columns Examples.scores_table)
          (filter (fun r =>
                     number_test Tools.OpEq (inject_Z 3)
                                 (Frame.row_get Examples.scores_table "score" r)
                     && number_test Tools.OpLt (inject_Z 5)
                                    (Frame.row_get Examples.scores_table "rank" r))
                  (rows Examples.scores_table)))
  /\ Tools._apply_filters (H := Ref.ref_lib) Examples.scores_table
                          [Examples.low_rank; Examples.score_filter]
                          ["score"; "rank"]
     = Tools._apply_filters (H := Ref.ref_lib) Examples.scores_table
                            [Examples.score_filter; Examples.low_rank]
                            ["score"; "rank"].
Proof.
  apply (X12_comparison_filters_conjunction
           Ref.ref_lib ["score"; "rank"] Examples.scores_table
           Examples.score_filter Examples.low_rank "score" "rank"
           Tools.OpEq Tools.OpLt (inject_Z 3) (inject_Z 5));
    repeat split; repeat constructor.
Defined.

Module ChurnFilterFacts.

Import PyStr Aliases Frame Tools FilterSemantics.

Lemma filter_op_symbol col op val :
  filter_op (mkFilter col (Some (op_symbol op)) val) = op_symbol op.
Proof.
  destruct op; reflexivity.
Qed.

Section WithLib.

Context `{PandasLib}.

Lemma fix_churn_number schema f v :
  initial_mapping (f_col f) = "churn" ->
  In "churn" schema ->
  In "churn_probability_percent" schema ->
  f_value f = PNum v ->
  _fix_filters [f] schema
  = [mkFilter (PStr (churn_target v)) (Some (filter_op f)) (PNum v)].
Proof.
  intros Hmap Hc Hp Hv. cbn [_fix_filters].
  rewrite (fix_filter_churn schema f Hmap Hc Hp), Hv. reflexivity.
Qed.

End WithLib.

End ChurnFilterFacts.

(** X13. A filter on the bare name [churn] with a number, sanitized and
    then applied: with a number greater than 1 it keeps the rows whose
    [churn_probability_percent] stands in the relation to the number, with a
    number of at most 1 the rows whose [churn] flag does. *)
Theorem X13_churn_filter_end_to_end (L : PandasLib) (schema : list string)
        (df : DataFrame) (f : Filter) (op : Tools.cmpop) (v : Q) :
  Aliases.initial_mapping (f_col f) = "churn" ->
  In "churn" schema ->
  In "churn_probability_percent" schema ->
  f_value f = PNum v ->
  filter_op f = op_symbol op ->
  Frame.has_column df (churn_target v) = true ->
  Frame.col_dtype df (churn_target v) = DNum ->
  numeric_cells (Frame.column_cells df (churn_target v)) ->
  Tools._apply_filters df (Aliases._fix_filters [f] schema) schema
  = Ok (keep_rows df (churn_target v) (number_test op v)).
Proof.
  intros Hmap Hc Hp Hv Hop Hhas Ht Hn.
  rewrite (ChurnFilterFacts.fix_churn_number schema f v Hmap Hc Hp Hv), Hop.
  unfold Tools._apply_filters. cbn [foldM].
  rewrite (FilterSemantics.apply_filter_number
             schema df _ (churn_target v) op v); [reflexivity | | | | | | |];
    try assumption; try reflexivity.
  - unfold churn_target. cbn [f_col].
    destruct (Num.Qlt_bool 1 v); now apply resolve_col_exact.
  - unfold churn_target. destruct (Num.Qlt_bool 1 v); reflexivity.
  - apply ChurnFilterFacts.filter_op_symbol.
Qed.

Lemma X13_churn_filter_end_to_end_witness :
  Tools._apply_filters (H := Ref.ref_lib) Examples.churn_table
    (Aliases._fix_filters (H := Ref.ref_lib)
       [Examples.churn_filter (PNum (inject_Z 75))] Examples.churn_schema)
    Examples.churn_schema
  = Ok (keep_rows Examples.churn_table (churn_target (inject_Z 75))
                  (number_test Tools.OpGe (inject_Z 75))).
Proof.
  apply (X13_churn_filter_end_to_end
           Ref.ref_lib Examples.churn_schema Examples.churn_table
           (Examples.churn_filter (PNum (inject_Z 75))) Tools.OpGe (inject_Z 75));
    try reflexivity; try (simpl; tauto).
  repeat constructor.
Defined.

(** ** The shape of the result *)

Module ShapeFacts.

Import PyStr Aliases Frame CellOrder Tools Executor.
Import FrameFacts FilterFacts OrderFacts MaterializeFacts NormalizeFacts.

Section WithLib.

Context `{PandasLib}.

Lemma foldM_order_step_Permutation obs res res' :
  foldM order_step obs res = Ok res' -> Permutation (rows res') (rows res).
Proof.
  revert res. induction obs as [| ob obs IH]; simpl; intros res Hf.
  - inversion Hf. apply Permutation_refl.
  - apply bind_Ok_inv in Hf. destruct Hf as [r1 [H1 Hf]].
    apply IH in Hf. apply order_step_Permutation in H1.
    etransitivity; eassumption.
Qed.

Lemma build_result_limit df args lim :
  build_result df (with_limit args lim) = build_result df args.
Proof.
  reflexivity.
Qed.

(** The limit is applied last, to what the query returns without it. *)
Lemma tool_query_limit df args lim :
  tool_query df (with_limit args lim)
  = bind (tool_query df (with_limit args None))
         (fun full => Ok (limit_stage full lim)).
Proof.
  unfold tool_query. rewrite !build_result_limit.
  destruct (build_result df args) as [pre | e]; [| reflexivity].
  cbn [bind with_limit order_by limit].
  destruct (order_stage pre (order_by args)); reflexivity.
Qed.

Lemma materialize_shape out args out' schema' :
  materialize out args (colnames out) = Ok (out', schema') ->
  nrows out' = nrows out
  /\ schema' = colnames out'
  /\ colnames out'
     = if (computed args || wants_period_rev args)
          && subset revenue_sources (colnames out)
       then add_name "period_revenue_usd"
                     (add_name "overlap_months" (colnames out))
       else colnames out.
Proof.
  intros Hm. apply materialize_inv in Hm.
  destruct Hm as [ws [we [_ [_ [[Hno [-> ->]] | [Hyes Hm]]]]]].
  - rewrite Hno. auto.
  - rewrite Hyes. destruct Hm as [months [t [revenue [_ [_ [-> ->]]]]]].
    rewrite !nrows_set_column, !colnames_add_name. auto.
Qed.

Lemma nrows_limit_stage_le res lim : (nrows (limit_stage res lim) <= nrows res)%nat.
Proof.
  destruct (rows_limit_stage res lim) as [k Hk]. unfold nrows. rewrite Hk.
  rewrite length_firstn. lia.
Qed.

Lemma length_group_keys out group_by :
  (List.length (group_keys out group_by) <= nrows out)%nat.
Proof.
  unfold group_keys, nrows. rewrite length_isort.
  etransitivity;
    [apply NoDup_incl_length;
     [apply NoDup_nodup | intros k Hk; apply nodup_In in Hk; exact Hk] |].
  etransitivity; [apply filter_length_le |]. now rewrite length_map.
Qed.

Lemma build_result_shape df args pre :
  build_result df args = Ok pre ->
  exists out1 out2,
    colnames out1 = working_columns df args
    /\ nrows out1 = nrows df
    /\ _apply_filters out1 (filters args) (colnames out1) = Ok out2
    /\ project_or_aggregate out2 args (colnames out1) = Ok pre.
Proof.
  unfold build_result. intros Hb.
  apply bind_Ok_inv in Hb. destruct Hb as [[out1 schema1] [Hm Hb]].
  apply bind_Ok_inv in Hb. destruct Hb as [out2 [Hf Hp]].
  rewrite <- (colnames_normalize_dates df) in Hm at 2.
  apply materialize_shape in Hm. destruct Hm as [Hn [-> Hc]].
  rewrite colnames_normalize_dates in Hc.
  exists out1, out2. rewrite Hn, nrows_normalize_dates. auto.
Qed.

(** The result never has more rows than the table. *)
Lemma tool_query_rows_le df args res :
  tool_query df args = Ok res -> (nrows res <= nrows df)%nat.
Proof.
  intros Hq. apply tool_query_inv in Hq.
  destruct Hq as [pre [sorted [Hpre [Hs ->]]]].
  apply order_stage_shape in Hs. destruct Hs as [_ Hn].
  etransitivity; [apply nrows_limit_stage_le |]. rewrite Hn.
  apply build_result_shape in Hpre.
  destruct Hpre as [out1 [out2 [_ [Hn1 [Hf Hp]]]]].
  apply apply_filters_narrows in Hf. destruct Hf as [_ Hsub].
  apply Subseq_length in Hsub. fold (nrows out2) (nrows out1) in Hsub.
  apply project_or_aggregate_nrows in Hp. rewrite Hp.
  destruct (resolve_list [] (group_by args) (colnames out1)); [lia |].
  etransitivity; [apply length_group_keys | lia].
Qed.

(** Without filters, grouping and limit, every row of the table is in the
    result. *)
Lemma tool_query_rows_all df args res :
  filters args = [] -> group_by args = [] -> limit args = None ->
  tool_query df args = Ok res -> nrows res = nrows df.
Proof.
  intros Hfl Hg Hl Hq. apply tool_query_inv in Hq.
  destruct Hq as [pre [sorted [Hpre [Hs ->]]]].
  apply order_stage_shape in Hs. destruct Hs as [_ Hn].
  rewrite Hl. cbn [limit_stage]. rewrite Hn.
  apply build_result_shape in Hpre.
  destruct Hpre as [out1 [out2 [_ [Hn1 [Hf Hp]]]]].
  rewrite Hfl in Hf. cbn [_apply_filters] in Hf. inversion Hf; subst out2.
  apply project_or_aggregate_nrows in Hp. rewrite Hg in Hp.
  cbn [resolve_list] in Hp. congruence.
Qed.

(** The columns of a result that is not grouped. *)
Lemma tool_query_columns df args res :
  _fix_list (group_by args) (working_columns df args) = [] ->
  tool_query df args = Ok res ->
  colnames res
  = match _fix_list (select args) (working_columns df args) with
    | [] => working_columns df args
    | s => filter (fun c => mem c (working_columns df args)) s
    end.
Proof.
  intros Hg Hq. apply tool_query_inv in Hq.
  destruct Hq as [pre [sorted [Hpre [Hs ->]]]].
  apply order_stage_shape in Hs. destruct Hs as [Hc _].
  unfold colnames at 1. rewrite columns_limit_stage, Hc.
  fold (colnames pre).
  apply build_result_shape in Hpre.
  destruct Hpre as [out1 [out2 [Hw [_ [Hf Hp]]]]].
  apply apply_filters_narrows in Hf. destruct Hf as [Hc2 _].
  assert (Hn2 : colnames out2 = working_columns df args)
    by (unfold colnames; rewrite Hc2; exact Hw).
  rewrite Hw in Hp. unfold project_or_aggregate in Hp.
  unfold _fix_list in *. rewrite Hg in Hp.
  inversion Hp. rewrite colnames_select_columns.
  unfold has_column. rewrite Hn2.
  destruct (resolve_list [] (select args) (working_columns df args)) as [| s l];
    [| reflexivity].
  apply forallb_filter_id. apply forallb_forall. intros c Hin.
  now apply mem_In.
Qed.

End WithLib.

End ShapeFacts.

(** X14. The limit is applied last: with a limit [n] other than 0 the
    query returns [head(n)] of what it returns without a limit, that is its
    first [n] rows, or all but its last [-n] rows when [n] is negative. *)
Theorem X14_limit_keeps_head (L : PandasLib) (df : DataFrame) (args : Args)
        (full : DataFrame) (n : Z) :
  n <> 0 ->
  Executor.tool_query df (with_limit args None) = Ok full ->
  Executor.tool_query df (with_limit args (Some n)) = Ok (Frame.head full n)
  /\ columns (Frame.head full n) = columns full
  /\ rows (Frame.head full n)
     = firstn (Z.to_nat (if 0 <=? n then n
                         else Z.of_nat (Frame.nrows full) + n))
              (rows full).
Proof.
  intros Hn Hq. rewrite ShapeFacts.tool_query_limit, Hq. cbn [bind].
  unfold Executor.limit_stage.
  destruct (Z.eqb_spec n 0) as [-> | _]; [contradiction |].
  split; [reflexivity |]. split; [reflexivity |].
  unfold Frame.head. cbn [rows]. destruct (0 <=? n); [reflexivity |].
  f_equal. lia.
Qed.

Lemma X14_limit_keeps_head_witness :
  Executor.tool_query (H := Ref.ref_lib) Examples.scores_table
                      (with_limit Examples.scores_query (Some (-3)))
  = Ok (Frame.head Examples.scores_result (-3))
  /\ columns (Frame.head Examples.scores_result (-3))
     = columns Examples.scores_result
  /\ rows (Frame.head Examples.scores_result (-3))
     = firstn (Z.to_nat (if 0 <=? -3 then -3
                         else Z.of_nat (Frame.nrows Examples.scores_result) + -3))
              (rows Examples.scores_result).
Proof.
  apply (X14_limit_keeps_head Ref.ref_lib Examples.scores_table
                          Examples.scores_query Examples.scores_result (-3)).
  - discriminate.
  - reflexivity.
Defined.

(** X15. [tool_query] never returns more rows than the table has, and
    returns as many when the query has no filter, no group-by and no
    limit. *)
Theorem X15_result_rows_bounded (L : PandasLib) (df : DataFrame) (args : Args)
        (res : DataFrame) :
  Executor.tool_query df args = Ok res ->
  (Frame.nrows res <= Frame.nrows df)%nat
  /\ (filters args = [] -> group_by args = [] -> limit args = None ->
      Frame.nrows res = Frame.nrows df).
Proof.
  intros Hq. split.
  - now apply ShapeFacts.tool_query_rows_le with (args := args).
  - intros Hf Hg Hl. now apply ShapeFacts.tool_query_rows_all with (args := args).
Qed.

Lemma X15_result_rows_bounded_witness :
  (Frame.nrows Examples.scores_result <= Frame.nrows Examples.scores_table)%nat
  /\ (filters Examples.scores_query = [] ->
      group_by Examples.scores_query = [] ->
      limit Examples.scores_query = None ->
      Frame.nrows Examples.scores_result = Frame.nrows Examples.scores_table).
Proof.
  apply (X15_result_rows_bounded Ref.ref_lib Examples.scores_table
                             Examples.scores_query Examples.scores_result).
  reflexivity.
Defined.

(** X16. When no group-by name resolves, the columns of the result are the
    names the select list resolves to, each once and in the order of their
    first mention, without those the working table does not have; when the
    select list resolves to nothing they are all the columns of the working
    table. *)
Theorem X16_ungrouped_result_columns (L : PandasLib) (df : DataFrame) (args : Args)
        (res : DataFrame) :
  Aliases._fix_list (group_by args) (working_columns df args) = [] ->
  Executor.tool_query df args = Ok res ->
  Frame.colnames res
  = match Aliases._fix_list (select args) (working_columns df args) with
    | [] => working_columns df args
    | s => filter (fun c => PyStr.mem c (working_columns df args)) s
    end.
Proof.
  apply ShapeFacts.tool_query_columns.
Qed.

Lemma X16_ungrouped_result_columns_witness :
  Frame.colnames (Frame.select_columns Examples.scores_table ["rank"])
  = match Aliases._fix_list (select Examples.rank_query)
                            (working_columns Examples.scores_table
                                             Examples.rank_query) with
    | [] => working_columns Examples.scores_table Examples.rank_query
    | s => filter (fun c => PyStr.mem c (working_columns Examples.scores_table
                                                         Examples.rank_query)) s
    end.
Proof.
  apply (X16_ungrouped_result_columns Ref.ref_lib Examples.scores_table
                                  Examples.rank_query);
    reflexivity.
Defined.

(** X17. The ordering stage only reorders: without a limit, the result of
    [tool_query] has the columns of the table it orders and the same rows,
    none dropped and none repeated. *)
Theorem X17_ordering_permutes (L : PandasLib) (df : DataFrame) (args : Args)
        (pre res : DataFrame) :
  Executor.build_result df args = Ok pre ->
  Executor.tool_query df (with_limit args None) = Ok res ->
  columns res = columns pre /\ Permutation (rows res) (rows pre).
Proof.
  intros Hpre Hq. unfold Executor.tool_query in Hq.
  rewrite ShapeFacts.build_result_limit, Hpre in Hq. cbn [bind] in Hq.
  apply bind_Ok_inv in Hq. destruct Hq as [sorted [Hs Hq]].
  inversion Hq; subst. cbn [with_limit limit Executor.limit_stage].
  split.
  - now apply OrderFacts.order_stage_shape in Hs.
  - now apply ShapeFacts.foldM_order_step_Permutation in Hs.
Qed.

Lemma X17_ordering_permutes_witness :
  columns Examples.scores_result = columns Examples.scores_table
  /\ Permutation (rows Examples.scores_result) (rows Examples.scores_table).
Proof.
  apply (X17_ordering_permutes Ref.ref_lib Examples.scores_table
                               Examples.scores_query);
    reflexivity.
Defined.

Module GroupFacts.

Import PyStr Aliases Frame CellOrder Tools Executor.
Import FrameFacts FilterFacts OrderFacts CellOrderFacts SanitizerFacts.

Lemma NoDup_firstn {A : Type} (n : nat) (l : list A) :
  NoDup l -> NoDup (firstn n l).
Proof.
  revert n. induction l as [| x l IH]; intros n Hnd.
  - now rewrite firstn_nil.
  - destruct n as [| n]; [constructor |]. simpl.
    inversion Hnd as [| ? ? Hx Hl]; subst. constructor; [| now apply IH].
    intros Hin. apply Hx.
    rewrite <- (firstn_skipn n l). apply in_or_app. now left.
Qed.

Lemma In_group_keys out group_by k :
  In k (group_keys out group_by) -> List.length k = List.length group_by.
Proof.
  unfold group_keys. intros Hk.
  apply (Permutation_in _ (Permutation_isort _ keys_leb _)) in Hk.
  apply nodup_In in Hk. apply filter_In in Hk. destruct Hk as [Hk _].
  apply in_map_iff in Hk. destruct Hk as [r [<- _]].
  unfold group_key. apply length_map.
Qed.

Lemma NoDup_group_keys out group_by : NoDup (group_keys out group_by).
Proof.
  unfold group_keys.
  eapply Permutation_NoDup;
    [apply Permutation_sym, Permutation_isort | apply NoDup_nodup].
Qed.

Lemma firstn_key (k aggs : list cell) n :
  List.length k = n -> firstn n (k ++ aggs) = k.
Proof.
  intros <-. rewrite firstn_app, Nat.sub_diag, firstn_all. simpl.
  apply app_nil_r.
Qed.

Section WithLib.

Context `{PandasLib}.

(** The names a grouped query aggregates: those of the explicit
    aggregations, columns that are no group key, the revenue and the monthly
    value. *)
Lemma explicit_aggs_keys out schema aggs_in n :
  In n (map fst (explicit_aggs out schema aggs_in)) ->
  exists k, In k (map fst aggs_in)
            /\ n = match resolve_col (PStr k) schema with
                   | Some rc => rc
                   | None => k
                   end.
Proof.
  unfold explicit_aggs.
  assert (Hgen : forall xs m,
             (forall x, In x xs -> In x aggs_in) ->
             In n (map fst (fold_left
                              (fun agg_map kh =>
                                 let rc := match resolve_col (PStr (fst kh)) schema with
                                           | Some rc => rc
                                           | None => fst kh
                                           end in
                                 if has_column out rc && valid_how (snd kh)
                                 then dict_set agg_map rc (snd kh)
                                 else agg_map) xs m)) ->
             In n (map fst m)
             \/ exists k, In k (map fst aggs_in)
                          /\ n = match resolve_col (PStr k) schema with
                                 | Some rc => rc
                                 | None => k
                                 end).
  { induction xs as [| x xs IH]; simpl; intros m Hsub Hn; [now left |].
    apply IH in Hn; [| intros y Hy; apply Hsub; now right].
    destruct Hn as [Hn | Hn]; [| now right].
    cbv zeta in Hn.
    destruct (has_column out _ && valid_how (snd x)); [| now left].
    apply keys_dict_set_inv in Hn. destruct Hn as [Hn | ->]; [now left |].
    right. exists (fst x). split; [| reflexivity].
    apply in_map. apply Hsub. now left. }
  intros Hn. apply Hgen in Hn; [| auto]. destruct Hn as [[] | Hn]. exact Hn.
Qed.

Lemma planned_aggs_keys out args select group_by agg_map n :
  In n (map fst (planned_aggs out args select group_by agg_map)) ->
  In n (map fst agg_map) \/ ~ In n group_by
  \/ n = "period_revenue_usd" \/ n = "mrr_usd".
Proof.
  unfold planned_aggs.
  set (Q := fun n : string =>
              In n (map fst agg_map) \/ ~ In n group_by
              \/ n = "period_revenue_usd" \/ n = "mrr_usd").
  assert (Hset : forall (m : list (string * string)) k v,
             Forall Q (map fst m) -> Q k -> Forall Q (map fst (setdefault m k v))).
  { intros m k v Hm Hk. apply Forall_forall. intros k' Hk'.
    apply keys_setdefault_inv in Hk'. rewrite Forall_forall in Hm.
    destruct Hk' as [Hk' | ->]; auto. }
  assert (H0 : Forall Q (map fst agg_map))
    by (apply Forall_forall; intros k Hk; now left).
  assert (H1 : forall xs m,
             Forall Q (map fst m) ->
             Forall Q (map fst (fold_left (fun m c => setdefault m c "sum")
                                          (filter (fun c => negb (mem c group_by)
                                                            && numeric_in out c) xs)
                                          m))).
  { induction xs as [| x xs IH]; simpl; intros m Hm; [assumption |].
    destruct (negb (mem x group_by) && numeric_in out x) eqn:Hx; [| now apply IH].
    simpl. apply IH. apply Hset; [assumption |].
    right. left. apply andb_true_iff in Hx. destruct Hx as [Hx _].
    apply negb_true_iff in Hx. now apply mem_false. }
  assert (H2 : forall xs m,
             Forall Q (map fst m) ->
             Forall Q (map fst (fold_left
                                  (fun m col =>
                                     if mem col group_by then m
                                     else if numeric_in out col then
                                       if String.eqb col "churn_probability_percent"
                                       then setdefault m col "max"
                                       else if mem col ["period_revenue_usd"; "mrr_usd"]
                                       then setdefault m col "sum"
                                       else setdefault m col "sum"
                                     else m) xs m))).
  { induction xs as [| x xs IH]; cbn [fold_left]; intros m Hm; [assumption |].
    apply IH. destruct (mem x group_by) eqn:Hx; [assumption |].
    apply mem_false in Hx.
    destruct (numeric_in out x); [| assumption].
    destruct (String.eqb x "churn_probability_percent");
      [apply Hset; [assumption | right; now left] |].
    destruct (mem x ["period_revenue_usd"; "mrr_usd"]);
      apply Hset; try assumption; right; now left. }
  intros Hn.
  match type of Hn with
  | In n (map fst match ?m with [] => _ | _ :: _ => _ end) =>
      assert (Hm : Forall Q (map fst m))
  end.
  { apply H2.
    destruct (has_column out "mrr_usd");
      destruct (has_column out "period_revenue_usd");
      repeat (apply Hset; [| right; right; auto]); now apply H1. }
  match type of Hn with
  | In n (map fst match ?m with [] => _ | _ :: _ => _ end) =>
      destruct m as [| p m']
  end.
  - destruct (has_column out "period_revenue_usd");
      [destruct Hn as [<- | []]; right; right; now left |].
    destruct (has_column out "mrr_usd"); [| destruct Hn].
    destruct Hn as [<- | []]. right. right. now right.
  - rewrite Forall_forall in Hm. now apply Hm.
Qed.

Lemma key_cells_all (group_by : list string) (names : list string) (k : list cell) :
  (forall g, In g group_by -> ~ In g names) ->
  List.length k = List.length group_by ->
  map snd (filter (fun gc => negb (mem (fst gc) names)) (combine group_by k)) = k.
Proof.
  revert k. induction group_by as [| g gs IH]; intros [| c k] Hno Hlen;
    try discriminate; [reflexivity |].
  simpl. assert (Hg : mem g names = false) by (apply mem_false, Hno; now left).
  rewrite Hg. simpl. f_equal. apply IH; [| simpl in Hlen; lia].
  intros g' Hg'. apply Hno. now right.
Qed.

Lemma key_columns_all group_by (agg_map : list (string * string)) :
  (forall g, In g group_by -> ~ In g (map fst agg_map)) ->
  key_columns group_by agg_map = group_by.
Proof.
  intros Hno. unfold key_columns. apply forallb_filter_id.
  apply forallb_forall. intros g Hg. apply negb_true_iff, mem_false. now apply Hno.
Qed.

(** When no key is aggregated, the rows of the aggregated table begin with
    the keys of the groups. *)
Lemma groupby_agg_keys out group_by agg_map res :
  (forall g, In g group_by -> ~ In g (map fst agg_map)) ->
  groupby_agg out group_by agg_map = Ok res ->
  map (firstn (List.length group_by)) (rows res) = group_keys out group_by.
Proof.
  intros Hno. unfold groupby_agg.
  destruct (negb (forallb (has_column out) group_by)); [discriminate |].
  intros Hg. apply bind_Ok_inv in Hg. destruct Hg as [u [_ Hg]].
  apply bind_Ok_inv in Hg. destruct Hg as [rs [Hrs Hg]].
  inversion Hg. cbn [rows]. clear Hg H1.
  apply mapM_Forall2 in Hrs.
  assert (Hlen : forall k, In k (group_keys out group_by) ->
                           List.length k = List.length group_by)
    by (intros k; apply In_group_keys).
  induction Hrs as [| k r ks rs' Hk _ IH]; [reflexivity |].
  simpl. rewrite IH by (intros k' Hk'; apply Hlen; now right). f_equal.
  unfold aggregate_group in Hk. apply bind_Ok_inv in Hk.
  destruct Hk as [aggs [_ Hk]]. inversion Hk.
  rewrite key_cells_all by (auto; apply Hlen; now left).
  apply firstn_key. apply Hlen. now left.
Qed.

(** The aggregation of a grouped query none of whose keys is aggregated. *)
Lemma project_or_aggregate_grouped out args schema res :
  resolve_list [] (group_by args) schema <> [] ->
  keys_not_aggregated schema args ->
  project_or_aggregate out args schema = Ok res ->
  exists r agg_map,
    groupby_agg out (resolve_list [] (group_by args) schema) agg_map = Ok r
    /\ (forall g, In g (resolve_list [] (group_by args) schema) ->
                  ~ In g (map fst agg_map))
    /\ rows res = rows r
    /\ (colnames res = colnames r
        \/ colnames res = colnames (rename_column r "churn" "churn_rate")).
Proof.
  unfold project_or_aggregate. intros Hne Hkeys.
  assert (Hno : forall sel g,
             In g (resolve_list [] (group_by args) schema) ->
             ~ In g (map fst (planned_aggs out args sel
                                (resolve_list [] (group_by args) schema)
                                (explicit_aggs out schema (aggregations args))))).
  { intros sel g Hg Hin. destruct (Hkeys g Hg) as [Hrev [Hmrr Hagg]].
    apply planned_aggs_keys in Hin.
    destruct Hin as [Hin | [Hin | [Hin | Hin]]]; try contradiction.
    apply explicit_aggs_keys in Hin. destruct Hin as [k [Hk Hgk]].
    destruct (Hagg k Hk) as [Hr1 Hr2].
    destruct (resolve_col (PStr k) schema) as [rc |];
      [apply Hr1; now subst | now apply Hr2]. }
  destruct (resolve_list [] (group_by args) schema) as [| g gs] eqn:Hgs;
    [contradiction |].
  intros Hp. apply bind_Ok_inv in Hp. destruct Hp as [r [Hr Hp]].
  eexists r, _. split; [exact Hr |]. split; [apply Hno |].
  destruct (dict_get _ "churn") as [how |]; [| inversion Hp; auto].
  destruct (String.eqb how "mean" && has_column r "churn");
    inversion Hp; auto.
Qed.

Lemma project_or_aggregate_keys out args schema res :
  resolve_list [] (group_by args) schema <> [] ->
  keys_not_aggregated schema args ->
  project_or_aggregate out args schema = Ok res ->
  NoDup (map (firstn (List.length (resolve_list [] (group_by args) schema)))
             (rows res)).
Proof.
  intros Hne Hkeys Hp.
  destruct (project_or_aggregate_grouped _ _ _ _ Hne Hkeys Hp)
    as [r [agg_map [Hr [Hno [Hrows _]]]]].
  rewrite Hrows, (groupby_agg_keys _ _ _ _ Hno Hr). apply NoDup_group_keys.
Qed.

End WithLib.

End GroupFacts.

(** X18. A grouped query none of whose group-by columns is itself
    aggregated returns each group once: the rows of the result begin with
    the key of their group, one cell per resolved group-by name, and no two
    rows begin with the same key, whatever the order and the limit. *)
Theorem X18_grouped_keys_distinct (L : PandasLib) (df : DataFrame) (args : Args)
        (res : DataFrame) :
  Aliases._fix_list (group_by args) (working_columns df args) <> [] ->
  keys_not_aggregated (working_columns df args) args ->
  Executor.tool_query df args = Ok res ->
  NoDup (map (firstn (List.length
                        (Aliases._fix_list (group_by args)
                                           (working_columns df args))))
             (rows res)).
Proof.
  intros Hg Hkeys Hq. apply tool_query_inv in Hq.
  destruct Hq as [pre [sorted [Hpre [Hs ->]]]].
  apply ShapeFacts.build_result_shape in Hpre.
  destruct Hpre as [out1 [out2 [Hw [_ [_ Hp]]]]].
  rewrite Hw in Hp.
  apply (GroupFacts.project_or_aggregate_keys _ _ _ _ Hg Hkeys) in Hp.
  apply ShapeFacts.foldM_order_step_Permutation in Hs.
  destruct (OrderFacts.rows_limit_stage sorted (limit args)) as [k ->].
  rewrite <- firstn_map. apply GroupFacts.NoDup_firstn.
  eapply Permutation_NoDup; [| exact Hp].
  apply Permutation_map. now apply Permutation_sym.
Qed.

Lemma X18_grouped_keys_distinct_witness :
  NoDup (map (firstn (List.length
                        (Aliases._fix_list (group_by Examples.by_company_query)
                                           (working_columns
                                              Examples.contracts_table
                                              Examples.by_company_query))))
             (rows Examples.by_company_result)).
Proof.
  apply (X18_grouped_keys_distinct Ref.ref_lib Examples.contracts_table
                                   Examples.by_company_query
                                   Examples.by_company_result).
  - discriminate.
  - intros g [<- | []]. split; [discriminate |]. split; [discriminate |].
    intros k [<- | []]. split; discriminate.
  - reflexivity.
Defined.

(** ** The months of an overlap *)

Module OverlapFacts.

Import Tools.

Lemma date_eq (a b : date) : toordinal a = toordinal b -> a = b.
Proof.
  destruct a, b. simpl. now intros ->.
Qed.

Lemma max_comm a b : PyDate.max a b = PyDate.max b a.
Proof.
  unfold PyDate.max, PyDate.ltb.
  destruct (toordinal a <? toordinal b) eqn:Hab;
    destruct (toordinal b <? toordinal a) eqn:Hba; try reflexivity.
  - apply Z.ltb_lt in Hab, Hba. lia.
  - apply Z.ltb_ge in Hab, Hba. apply date_eq. lia.
Qed.

Lemma min_comm a b : PyDate.min a b = PyDate.min b a.
Proof.
  unfold PyDate.min, PyDate.ltb.
  destruct (toordinal a <? toordinal b) eqn:Hab;
    destruct (toordinal b <? toordinal a) eqn:Hba; try reflexivity.
  - apply Z.ltb_lt in Hab, Hba. lia.
  - apply Z.ltb_ge in Hab, Hba. apply date_eq. lia.
Qed.

Lemma toordinal_max a b :
  toordinal (PyDate.max a b) = Z.max (toordinal a) (toordinal b).
Proof.
  unfold PyDate.max, PyDate.ltb.
  destruct (toordinal a <? toordinal b) eqn:Hab;
    [apply Z.ltb_lt in Hab | apply Z.ltb_ge in Hab]; lia.
Qed.

Lemma toordinal_min a b :
  toordinal (PyDate.min a b) = Z.min (toordinal a) (toordinal b).
Proof.
  unfold PyDate.min, PyDate.ltb.
  destruct (toordinal b <? toordinal a) eqn:Hab;
    [apply Z.ltb_lt in Hab | apply Z.ltb_ge in Hab]; lia.
Qed.

Lemma ceil_div_mono a b : a <= b -> Num.ceil_div a 304 <= Num.ceil_div b 304.
Proof.
  intros Hab. unfold Num.ceil_div.
  assert (- b / 304 <= - a / 304) by (apply Z.div_le_mono; lia). lia.
Qed.

Lemma ceil_div_bounds a :
  304 * (Num.ceil_div a 304 - 1) < a <= 304 * Num.ceil_div a 304.
Proof.
  unfold Num.ceil_div.
  pose proof (Z.div_mod (- a) 304 ltac:(lia)) as Hd.
  pose proof (Z.mod_pos_bound (- a) 304 ltac:(lia)) as Hm. lia.
Qed.

(** The months of two ranges of dates, as a number. *)
Lemma overlap_months_value (cs ce ws we : date) :
  _overlap_months (PyDate cs) (PyDate ce) (PyDate ws) (PyDate we)
  = Ok (let n := Z.min (toordinal ce) (toordinal we)
                 - Z.max (toordinal cs) (toordinal ws) + 1 in
        if n <=? 0 then 0 else Num.ceil_div (10 * n) 304).
Proof.
  unfold _overlap_months. cbv zeta. unfold PyDate.ltb, PyDate.days_between.
  rewrite toordinal_max, toordinal_min.
  destruct (Z.min (toordinal ce) (toordinal we)
            <? Z.max (toordinal cs) (toordinal ws)) eqn:Hlt;
    [apply Z.ltb_lt in Hlt | apply Z.ltb_ge in Hlt].
  - destruct (Z.leb_spec (Z.min (toordinal ce) (toordinal we)
                          - Z.max (toordinal cs) (toordinal ws) + 1) 0);
      [reflexivity | lia].
  - destruct (Z.leb_spec (Z.min (toordinal ce) (toordinal we)
                          - Z.max (toordinal cs) (toordinal ws) + 1) 0);
      [lia | reflexivity].
Qed.

End OverlapFacts.

(** X19. [_overlap_months] is symmetric in the contract and the window:
    swapping the two ranges gives the same result, [None], NaT and the error
    included. *)
Theorem X19_overlap_months_symmetric (cs ce ws we : pydate) :
  Tools._overlap_months cs ce ws we = Tools._overlap_months ws we cs ce.
Proof.
  destruct cs as [| | cs], ce as [| | ce], ws as [| | ws], we as [| | we];
    try reflexivity.
  rewrite !OverlapFacts.overlap_months_value. cbv zeta.
  now rewrite (Z.min_comm (toordinal ce)), (Z.max_comm (toordinal cs)).
Qed.

(** X20. Widening the window never lowers the months: with an earlier or
    equal start and a later or equal end, [_overlap_months] returns at
    least what it returned, and never a negative number. *)
Theorem X20_overlap_months_monotone (cs ce ws we ws' we' : date) :
  PyDate.leb ws' ws = true ->
  PyDate.leb we we' = true ->
  exists m m',
    Tools._overlap_months (PyDate cs) (PyDate ce) (PyDate ws) (PyDate we) = Ok m
    /\ Tools._overlap_months (PyDate cs) (PyDate ce) (PyDate ws') (PyDate we')
       = Ok m'
    /\ 0 <= m <= m'.
Proof.
  unfold PyDate.leb. intros Hs He. apply Z.leb_le in Hs, He.
  rewrite !OverlapFacts.overlap_months_value. cbv zeta.
  eexists. eexists. split; [reflexivity |]. split; [reflexivity |].
  set (n := Z.min (toordinal ce) (toordinal we)
            - Z.max (toordinal cs) (toordinal ws) + 1).
  set (n' := Z.min (toordinal ce) (toordinal we')
             - Z.max (toordinal cs) (toordinal ws') + 1).
  assert (Hn : n <= n') by (unfold n, n'; lia).
  pose proof (OverlapFacts.ceil_div_bounds (10 * n)).
  pose proof (OverlapFacts.ceil_div_bounds (10 * n')).
  pose proof (OverlapFacts.ceil_div_mono (10 * n) (10 * n') ltac:(lia)).
  destruct (Z.leb_spec n 0); destruct (Z.leb_spec n' 0); lia.
Qed.

Lemma X20_overlap_months_monotone_witness :
  exists m m',
    Tools._overlap_months (PyDate (PyDate.ymd 2023 1 1))
                          (PyDate (PyDate.ymd 2023 12 31))
                          (PyDate (PyDate.ymd 2023 6 1))
                          (PyDate (PyDate.ymd 2023 6 30)) = Ok m
    /\ Tools._overlap_months (PyDate (PyDate.ymd 2023 1 1))
                             (PyDate (PyDate.ymd 2023 12 31))
                             (PyDate (PyDate.ymd 2023 5 1))
                             (PyDate (PyDate.ymd 2023 7 31)) = Ok m'
    /\ 0 <= m <= m'.
Proof.
  apply (X20_overlap_months_monotone (PyDate.ymd 2023 1 1) (PyDate.ymd 2023 12 31)
                                 (PyDate.ymd 2023 6 1) (PyDate.ymd 2023 6 30)
                                 (PyDate.ymd 2023 5 1) (PyDate.ymd 2023 7 31));
    reflexivity.
Defined.

(** X21. Two ranges that overlap count at least one month, and exactly
    one month when they share at most 30 days, both ends counted: 31 shared
    days count as two months. *)
Theorem X21_overlap_months_one (cs ce ws we : date) (m : Z) :
  PyDate.ltb (PyDate.min ce we) (PyDate.max cs ws) = false ->
  Tools._overlap_months (PyDate cs) (PyDate ce) (PyDate ws) (PyDate we) = Ok m ->
  1 <= m
  /\ (m = 1 <-> PyDate.days_between (PyDate.min ce we) (PyDate.max cs ws) + 1
                <= 30).
Proof.
  unfold PyDate.ltb, PyDate.days_between.
  rewrite OverlapFacts.overlap_months_value. cbv zeta.
  rewrite OverlapFacts.toordinal_max, OverlapFacts.toordinal_min.
  intros Hlt Hm. apply Z.ltb_ge in Hlt.
  set (n := Z.min (toordinal ce) (toordinal we)
            - Z.max (toordinal cs) (toordinal ws) + 1) in *.
  assert (Hn : 1 <= n) by (unfold n; lia).
  destruct (Z.leb_spec n 0); [lia |].
  assert (Hm' : Num.ceil_div (10 * n) 304 = m) by congruence.
  pose proof (OverlapFacts.ceil_div_bounds (10 * n)). clearbody n. lia.
Qed.

Lemma X21_overlap_months_one_witness :
  1 <= 2
  /\ (2 = 1 <-> PyDate.days_between
                  (PyDate.min (PyDate.ymd 2023 12 31) (PyDate.ymd 2023 1 31))
                  (PyDate.max (PyDate.ymd 2023 1 1) (PyDate.ymd 2023 1 1)) + 1
                <= 30).
Proof.
  apply (X21_overlap_months_one (PyDate.ymd 2023 1 1) (PyDate.ymd 2023 12 31)
                            (PyDate.ymd 2023 1 1) (PyDate.ymd 2023 1 31) 2);
    reflexivity.
Defined.

(** ** The names of the axes of a chart *)

Module ChartFacts.

Import PyStr Aliases Charts.

Lemma candidate_inv cand schema c :
  candidate cand schema = Some c ->
  c = cand /\ (In c schema \/ c = "period_revenue_usd").
Proof.
  unfold candidate.
  destruct (String.eqb_spec cand "period_revenue_usd") as [-> | _].
  - intros Hc. inversion Hc. auto.
  - destruct (mem cand schema) eqn:Hm; [| discriminate].
    intros Hc. inversion Hc; subst. apply mem_In in Hm. auto.
Qed.

Lemma canonical_inv term schema c :
  _canonical term schema = Some c ->
  In c schema
  \/ c = "period_revenue_usd"
  \/ (c = "churn_probability_percent" /\ lower (strip term) = "churn").
Proof.
  unfold _canonical.
  destruct (String.eqb_spec (lower (strip term)) "churn") as [Ht | _].
  - intros Hc. inversion Hc. auto.
  - destruct (dict_get EXTRA_ALIASES (lower (strip term))) as [cand |].
    + destruct (candidate cand schema) as [c' |] eqn:Hcand.
      * intros Hc. inversion Hc; subst.
        apply candidate_inv in Hcand. tauto.
      * destruct (dict_get COLUMN_ALIASES (lower (strip term))) as [mapped |].
        -- destruct (truthy mapped).
           ++ destruct (candidate mapped schema) as [c' |] eqn:Hm.
              ** intros Hc. inversion Hc; subst.
                 apply candidate_inv in Hm. tauto.
              ** destruct (mem term schema) eqn:Hin; [| discriminate].
                 intros Hc. inversion Hc; subst. apply mem_In in Hin. auto.
           ++ destruct (mem term schema) eqn:Hin; [| discriminate].
              intros Hc. inversion Hc; subst. apply mem_In in Hin. auto.
        -- destruct (mem term schema) eqn:Hin; [| discriminate].
           intros Hc. inversion Hc; subst. apply mem_In in Hin. auto.
    + destruct (dict_get COLUMN_ALIASES (lower (strip term))) as [mapped |].
      * destruct (truthy mapped).
        -- destruct (candidate mapped schema) as [c' |] eqn:Hm.
           ++ intros Hc. inversion Hc; subst.
              apply candidate_inv in Hm. tauto.
           ++ destruct (mem term schema) eqn:Hin; [| discriminate].
              intros Hc. inversion Hc; subst. apply mem_In in Hin. auto.
        -- destruct (mem term schema) eqn:Hin; [| discriminate].
           intros Hc. inversion Hc; subst. apply mem_In in Hin. auto.
      * destruct (mem term schema) eqn:Hin; [| discriminate].
        intros Hc. inversion Hc; subst. apply mem_In in Hin. auto.
Qed.

Lemma pick_default_category_In schema c :
  _pick_default_category schema = Some c -> In c schema.
Proof.
  unfold _pick_default_category. intros Hf. apply find_some in Hf.
  now apply mem_In.
Qed.

Lemma unset_false x : unset x = false -> exists s, x = Some s /\ s <> "".
Proof.
  destruct x as [s |]; simpl; [| discriminate].
  intros Hs. exists s. split; [reflexivity |].
  apply negb_false_iff in Hs. destruct s; [discriminate | discriminate].
Qed.

(** The axes [chart_axes] settles on. *)
Lemma chart_axes_inv x_raw y_raw schema x y :
  chart_axes x_raw y_raw schema = Some (x, y) ->
  (_canonical y_raw schema = Some y \/ _canonical x_raw schema = Some y)
  /\ ((_canonical x_raw schema = Some x \/ _canonical y_raw schema = Some x)
      /\ x <> y
      \/ _pick_default_category schema = Some x).
Proof.
  unfold chart_axes.
  set (cx := _canonical x_raw schema). set (cy := _canonical y_raw schema).
  destruct (unset cx) eqn:Hux; destruct (unset cy) eqn:Huy;
    cbn [orb]; try rewrite Hux; try rewrite Huy; cbn [orb];
    try discriminate.
  - (* only y is canonical: both axes start as it *)
    apply unset_false in Huy. destruct Huy as [s [Hs _]]. rewrite Hs.
    rewrite String.eqb_refl.
    destruct (_pick_default_category schema) as [cat |]; [| discriminate].
    destruct (truthy cat); [| discriminate].
    intros Hc. inversion Hc; subst. auto.
  - (* only x is canonical *)
    apply unset_false in Hux. destruct Hux as [s [Hs _]]. rewrite Hs.
    rewrite String.eqb_refl.
    destruct (_pick_default_category schema) as [cat |]; [| discriminate].
    destruct (truthy cat); [| discriminate].
    intros Hc. inversion Hc; subst. auto.
  - apply unset_false in Hux, Huy.
    destruct Hux as [sx [Hsx _]], Huy as [sy [Hsy _]]. rewrite Hsx, Hsy.
    destruct (String.eqb_spec sx sy) as [-> | Hne].
    + destruct (_pick_default_category schema) as [cat |]; [| discriminate].
      destruct (truthy cat); [| discriminate].
      intros Hc. inversion Hc; subst. auto.
    + intros Hc. inversion Hc; subst. auto.
Qed.

(** Two terms with different canonical names are the axes. *)
Lemma chart_axes_distinct x_raw y_raw schema x y :
  _canonical x_raw schema = Some x -> _canonical y_raw schema = Some y ->
  x <> "" -> y <> "" -> x <> y ->
  chart_axes x_raw y_raw schema = Some (x, y).
Proof.
  intros Hx Hy Hxe Hye Hne. unfold chart_axes. rewrite Hx, Hy.
  assert (Hux : unset (Some x) = false)
    by (simpl; destruct x; [contradiction | reflexivity]).
  assert (Huy : unset (Some y) = false)
    by (simpl; destruct y; [contradiction | reflexivity]).
  rewrite Hux, Huy. cbn [orb]. rewrite Hux, Huy. cbn [orb].
  destruct (String.eqb_spec x y); [contradiction | reflexivity].
Qed.

End ChartFacts.

(** X22. What [_canonical] returns is a column of the schema, or the
    revenue column, or the churn probability column for the bare word
    "churn", whether the schema has that column or not. *)
Theorem X22_canonical_sound (term : string) (schema : list string) (c : string) :
  Charts._canonical term schema = Some c ->
  In c schema
  \/ c = "period_revenue_usd"
  \/ (c = "churn_probability_percent"
      /\ PyStr.lower (PyStr.strip term) = "churn").
Proof.
  apply ChartFacts.canonical_inv.
Qed.

Lemma X22_canonical_sound_witness :
  In "industry" ["industry"; "region"]
  \/ "industry" = "period_revenue_usd"
  \/ ("industry" = "churn_probability_percent"
      /\ PyStr.lower (PyStr.strip " Vertical ") = "churn").
Proof.
  apply (X22_canonical_sound " Vertical " ["industry"; "region"] "industry").
  reflexivity.
Defined.

(** X23. The axes of an "X against Y" command: the y axis is the canonical
    name of one of the two terms; the x axis is the canonical name of one of
    them and differs from the y axis, or it is the default category of the
    schema, which replaces it when both terms lead to one name. Two terms
    with different canonical names are the axes as they stand. *)
Theorem X23_chart_axes_sound (x_raw y_raw : string) (schema : list string)
        (x y : string) :
  Charts.chart_axes x_raw y_raw schema = Some (x, y) ->
  (Charts._canonical y_raw schema = Some y
   \/ Charts._canonical x_raw schema = Some y)
  /\ ((Charts._canonical x_raw schema = Some x
       \/ Charts._canonical y_raw schema = Some x) /\ x <> y
      \/ Charts._pick_default_category schema = Some x /\ In x schema)
  /\ (forall x' y',
         Charts._canonical x_raw schema = Some x' ->
         Charts._canonical y_raw schema = Some y' ->
         x' <> "" -> y' <> "" -> x' <> y' -> (x, y) = (x', y')).
Proof.
  intros Ha. pose proof (ChartFacts.chart_axes_inv _ _ _ _ _ Ha) as [Hy Hx].
  split; [exact Hy |]. split.
  - destruct Hx as [Hx | Hx]; [now left | right].
    split; [exact Hx | now apply ChartFacts.pick_default_category_In].
  - intros x' y' Hx' Hy' Hxe Hye Hne.
    rewrite (ChartFacts.chart_axes_distinct _ _ _ _ _ Hx' Hy' Hxe Hye Hne) in Ha.
    now inversion Ha.
Qed.

Lemma X23_chart_axes_sound_witness :
  (Charts._canonical "nonsense" ["industry"; "region"] = Some "industry"
   \/ Charts._canonical "industry" ["industry"; "region"] = Some "industry")
  /\ ((Charts._canonical "industry" ["industry"; "region"] = Some "industry"
       \/ Charts._canonical "nonsense" ["industry"; "region"] = Some "industry")
      /\ "industry" <> "industry"
      \/ Charts._pick_default_category ["industry"; "region"] = Some "industry"
         /\ In "industry" ["industry"; "region"])
  /\ (forall x' y',
         Charts._canonical "industry" ["industry"; "region"] = Some x' ->
         Charts._canonical "nonsense" ["industry"; "region"] = Some y' ->
         x' <> "" -> y' <> "" -> x' <> y' ->
         ("industry", "industry") = (x', y')).
Proof.
  apply (X23_chart_axes_sound "industry" "nonsense" ["industry"; "region"]).
  reflexivity.
Defined.

(** ** The fallback plan of the application *)

Module AppFacts.

Import PyStr Aliases Sanitizer Frame CellOrder Tools Executor App.
Import FrameFacts FilterFacts OrderFacts CellOrderFacts.
Import ResolveFacts FixFacts SanitizerFacts ResultFacts ShapeFacts GroupFacts.

Lemma resolve_company schema :
  mem "company_name" schema = true ->
  resolve_col (PStr "company_name") schema = Some "company_name".
Proof.
  intros Hc. apply resolve_col_known; [reflexivity | reflexivity |].
  now rewrite Hc.
Qed.

Lemma resolve_revenue schema :
  resolve_col (PStr "period_revenue_usd") schema = Some "period_revenue_usd".
Proof.
  apply resolve_col_known; [reflexivity | reflexivity | apply orb_true_r].
Qed.

Lemma resolve_churn_probability schema :
  resolve_col (PStr "churn_probability_percent") schema
  = if mem "churn_probability_percent" schema
    then Some "churn_probability_percent" else None.
Proof.
  unfold resolve_col, _as_col_name.
  change (strip "churn_probability_percent") with "churn_probability_percent".
  cbn [truthy negb].
  destruct (mem "churn_probability_percent" schema); reflexivity.
Qed.

Section WithLib.

Context `{PandasLib}.

(** The fallback [args] after the sanitizer. *)
Lemma fallback_sanitized schema :
  mem "company_name" schema = true ->
  sanitize_args schema FALLBACK_ARGS
  = mkCleanArgs
      (["company_name"; "period_revenue_usd"]
       ++ if mem "churn_probability_percent" schema
          then ["churn_probability_percent"] else [])
      []
      [("start", PStr "2000-01-01"); ("end", PStr "2100-01-01")]
      ["company_name"]
      [("period_revenue_usd", "sum")]
      [("period_revenue_usd", true)]
      (Some 5)
      (PBool true).
Proof.
  intros Hc. unfold sanitize_args, FALLBACK_ARGS.
  cbn [p_select p_filters p_time_window p_group_by p_aggregations p_order_by
       p_limit p_computed _fix_filters _cols_from_filters map filter
       _ensure_selected fold_left].
  assert (Hsel : _fix_list [PStr "company_name"; PStr "period_revenue_usd";
                            PStr "churn_probability_percent"] schema
                 = ["company_name"; "period_revenue_usd"]
                   ++ if mem "churn_probability_percent" schema
                      then ["churn_probability_percent"] else []).
  { unfold _fix_list. cbn [resolve_list].
    rewrite (resolve_company _ Hc), resolve_revenue, resolve_churn_probability.
    cbn [mem existsb app String.eqb Ascii.eqb Bool.eqb orb].
    destruct (mem "churn_probability_percent" schema); reflexivity. }
  assert (Hg : _fix_list [PStr "company_name"] schema = ["company_name"]).
  { unfold _fix_list. cbn [resolve_list].
    now rewrite (resolve_company _ Hc). }
  assert (Hob : _fix_order_by
                  [PDict [("col", PStr "period_revenue_usd");
                          ("desc", PBool true)]] schema
                = [("period_revenue_usd", true)]).
  { cbn [_fix_order_by fix_order_entry].
    change (pyval_get [("col", PStr "period_revenue_usd"); ("desc", PBool true)]
                      "col") with (PStr "period_revenue_usd").
    cbn [py_truthy truthy]. now rewrite resolve_revenue. }
  assert (Hag : fix_aggregations schema [("period_revenue_usd", PStr "sum")]
                = [("period_revenue_usd", "sum")]).
  { unfold fix_aggregations. cbn [fold_left fst snd].
    rewrite resolve_revenue.
    change (truthy "period_revenue_usd") with true.
    change (mem "period_revenue_usd" VIRTUAL_COLS) with true.
    rewrite orb_true_r. reflexivity. }
  rewrite Hsel, Hg, Hob, Hag.
  destruct (mem "churn_probability_percent" schema); cbn [app];
    unfold _mentions_revenue; cbn; unfold _ensure_revenue_defaults; cbn;
    rewrite Hc; reflexivity.
Qed.

Lemma sort_one_key res col desc res' :
  order_stage res [mkOrderBy (PStr col) desc] = Ok res' ->
  resolve_col (PStr col) (colnames res) = Some col ->
  has_column res col = true ->
  columns res' = columns res
  /\ exists l, Permutation l (rows res)
               /\ rows res' = isort (row_leb res col (negb desc)) l.
Proof.
  unfold order_stage, resolved_order. cbn [flat_map ob_col ob_desc].
  intros Hs Hr Hc. rewrite Hr in Hs. cbn [app rev foldM] in Hs.
  apply bind_Ok_inv in Hs. destruct Hs as [r1 [H1 Hs]]. inversion Hs; subst.
  apply order_step_inv in H1. cbn [fst snd] in H1. rewrite Hc in H1.
  destruct H1 as [Hcols Hrows]. split; [assumption |].
  eexists. split; [| exact Hrows]. apply Permutation_arrange.
Qed.

Lemma In_add_name c d names : In c names -> In c (add_name d names).
Proof.
  intros Hc. unfold add_name. destruct (mem d names); [assumption |].
  apply in_or_app. now left.
Qed.

Lemma In_working_columns df args c :
  In c (colnames df) -> In c (working_columns df args).
Proof.
  intros Hc. unfold working_columns.
  destruct ((computed args || wants_period_rev args)
            && subset revenue_sources (colnames df)); [| assumption].
  now apply In_add_name, In_add_name.
Qed.

(** The first cell of the rows whose first cells, as lists of one, are
    distinct. *)
Lemma NoDup_first_cell (rs : list row) (ks : list (list cell)) :
  map (firstn 1) rs = ks ->
  (forall k, In k ks -> List.length k = 1%nat) ->
  NoDup ks ->
  NoDup (map (cell_at 0) rs).
Proof.
  intros Hk Hlen Hnd.
  apply (NoDup_map_inv (fun c => [c])). rewrite map_map.
  rewrite <- Hk in Hnd, Hlen.
  erewrite map_ext_in; [exact Hnd |].
  intros r Hr. specialize (Hlen (firstn 1 r) (in_map _ _ _ Hr)).
  destruct r as [| c r]; [discriminate | reflexivity].
Qed.

(** A query grouped by the company and ordered by the revenue, descending,
    with a positive limit. *)
Lemma top_by_revenue df args n res :
  In (PStr "period_revenue_usd") (select args) ->
  group_by args = [PStr "company_name"] ->
  aggregations args = [("period_revenue_usd", "sum")] ->
  order_by args = [mkOrderBy (PStr "period_revenue_usd") true] ->
  limit args = Some n -> 0 < n ->
  In "company_name" (colnames df) ->
  has_revenue_sources (colnames df) ->
  tool_query df args = Ok res ->
  Z.of_nat (nrows res) <= n
  /\ (exists rest, colnames res = "company_name" :: rest)
  /\ In "period_revenue_usd" (colnames res)
  /\ NoDup (map (row_get res "company_name") (rows res))
  /\ StronglySorted
       (fun r1 r2 => key_leb false (row_get res "period_revenue_usd" r1)
                             (row_get res "period_revenue_usd" r2) = true)
       (rows res).
Proof.
  intros Hsel Hg Hagg Hob Hl Hn Hc Hsrc Hq.
  assert (Hrev : In "period_revenue_usd" (colnames res))
    by (now apply revenue_in_result with (df := df) (args := args)).
  apply tool_query_inv in Hq. destruct Hq as [pre [sorted [Hpre [Hs Hres]]]].
  rewrite Hl in Hres. rewrite Hob in Hs.
  assert (Hcr : columns res = columns pre).
  { rewrite Hres, columns_limit_stage.
    now apply order_stage_shape in Hs. }
  assert (Hnm : colnames res = colnames pre)
    by (unfold colnames; now rewrite Hcr).
  apply sort_one_key in Hs;
    [| apply resolve_revenue
     | apply has_column_In; now rewrite <- Hnm].
  destruct Hs as [_ [l [Hperm Hrows]]]. cbn [negb] in Hrows.
  assert (Hk : exists k, rows res = firstn k (rows sorted)).
  { rewrite Hres. apply rows_limit_stage. }
  destruct Hk as [k Hk].
  apply build_result_shape in Hpre.
  destruct Hpre as [out1 [out2 [Hw [_ [_ Hp]]]]].
  assert (Hgs : resolve_list [] (group_by args) (colnames out1)
                = ["company_name"]).
  { rewrite Hg. cbn [resolve_list]. rewrite resolve_company; [reflexivity |].
    apply mem_In. rewrite Hw. now apply In_working_columns. }
  assert (Hkeys : keys_not_aggregated (colnames out1) args).
  { intros g Hin. unfold _fix_list in Hin. rewrite Hgs in Hin.
    destruct Hin as [<- | []].
    split; [discriminate |]. split; [discriminate |].
    rewrite Hagg. intros key [<- | []]. rewrite resolve_revenue.
    split; discriminate. }
  apply project_or_aggregate_grouped in Hp;
    [| rewrite Hgs; discriminate | exact Hkeys].
  rewrite Hgs in Hp. destruct Hp as [r [agg_map [Hr [Hno [Hrr Hcols]]]]].
  pose proof (colnames_groupby_agg _ _ _ _ Hr) as Hcn.
  rewrite (key_columns_all _ _ Hno) in Hcn. cbn [app] in Hcn.
  assert (Hrest : exists rest, colnames pre = "company_name" :: rest).
  { destruct Hcols as [-> | ->]; [eauto |].
    unfold colnames, rename_column in *. cbn [columns].
    destruct (columns r) as [| [c t] cs]; [discriminate |].
    cbn [map fst] in *. inversion Hcn; subst. cbn. eauto. }
  destruct Hrest as [rest Hrest].
  split; [| split; [| split; [exact Hrev | split]]].
  - rewrite Hres. unfold limit_stage.
    destruct (Z.eqb_spec n 0) as [-> | _]; [lia |]. now apply nrows_head.
  - exists rest. congruence.
  - assert (Hget : forall x, row_get res "company_name" x = cell_at 0 x).
    { intros x. unfold row_get, col_index. rewrite Hnm, Hrest. reflexivity. }
    erewrite map_ext by apply Hget.
    rewrite Hk, <- firstn_map. apply NoDup_firstn.
    eapply Permutation_NoDup;
      [apply Permutation_map, Permutation_sym; rewrite Hrows;
       rewrite Permutation_isort; exact Hperm |].
    rewrite Hrr.
    apply (NoDup_first_cell _ _ (groupby_agg_keys _ _ _ _ Hno Hr)).
    + intros key Hkey. now apply In_group_keys in Hkey.
    + apply NoDup_group_keys.
  - rewrite Hk, Hrows. apply StronglySorted_firstn.
    rewrite (isort_ext (row_leb pre "period_revenue_usd" false)
                       (row_leb res "period_revenue_usd" false))
      by (intros; apply row_leb_ext; now symmetry).
    apply (isort_sorted row (row_leb res "period_revenue_usd" false)
                        (row_leb_total res "period_revenue_usd" false)
                        (row_leb_trans res "period_revenue_usd" false)).
Qed.

End WithLib.

End AppFacts.

(** X24. When the planner gives no query step, the application runs its
    fallback plan. On a table that has the company name and the three sources
    of the revenue, what the query step of that plan returns has at most five
    rows, [company_name] as its first column and the column
    [period_revenue_usd], names each company in at most one row, and is
    ordered by the revenue, the greatest first and the missing ones last. *)
Theorem X24_fallback_plan_top_five (L : PandasLib) (df res : DataFrame) :
  In "company_name" (Frame.colnames df) ->
  has_revenue_sources (Frame.colnames df) ->
  App.run_query df App.FALLBACK_ARGS = Ok res ->
  (Frame.nrows res <= 5)%nat
  /\ (exists rest, Frame.colnames res = "company_name" :: rest)
  /\ In "period_revenue_usd" (Frame.colnames res)
  /\ NoDup (map (Frame.row_get res "company_name") (rows res))
  /\ StronglySorted
       (fun r1 r2 =>
          CellOrder.key_leb false (Frame.row_get res "period_revenue_usd" r1)
                            (Frame.row_get res "period_revenue_usd" r2) = true)
       (rows res).
Proof.
  intros Hc Hsrc Hq. unfold App.run_query in Hq.
  rewrite AppFacts.fallback_sanitized in Hq by now apply mem_In.
  apply (AppFacts.top_by_revenue _ _ 5) in Hq;
    try reflexivity; try assumption.
  - destruct Hq as [Hn Hrest]. split; [lia | exact Hrest].
  - unfold Sanitizer.to_args. cbn [Sanitizer.c_select select].
    apply in_map. apply in_or_app. left. right. now left.
Qed.

Lemma X24_fallback_plan_top_five_witness :
  (Frame.nrows Examples.top_accounts <= 5)%nat
  /\ (exists rest, Frame.colnames Examples.top_accounts = "company_name" :: rest)
  /\ In "period_revenue_usd" (Frame.colnames Examples.top_accounts)
  /\ NoDup (map (Frame.row_get Examples.top_accounts "company_name")
                (rows Examples.top_accounts))
  /\ StronglySorted
       (fun r1 r2 =>
          CellOrder.key_leb false
            (Frame.row_get Examples.top_accounts "period_revenue_usd" r1)
            (Frame.row_get Examples.top_accounts "period_revenue_usd" r2) = true)
       (rows Examples.top_accounts).
Proof.
  apply (X24_fallback_plan_top_five Ref.ref_lib Examples.accounts_table
                                    Examples.top_accounts).
  - simpl. tauto.
  - unfold has_revenue_sources. simpl. tauto.
  - reflexivity.
Defined.
